(** * Multi-Agent Interview Coach: the orchestration engine and its agents

    A shallow embedding of [agents.py], [logger.py], [prompts.py],
    [interview_engine.py], [ollama_client.py] and the interactive mode
    of [main.py].

    Conventions.
    - A Python [str] is a [string] holding the UTF-8 bytes of the text.
      Searching for an ASCII pattern and slicing at the offsets found is
      byte-exact; the Unicode-aware builtins [str.strip] and [str.lower]
      are parameters ([Builtins]).
    - A Python [int] is a [Z]; a [bool] is a [bool]; a [Literal[...]] field
      is the string itself.
    - A call that may raise returns a [Result]; an object mutated in place
      is threaded explicitly, and keeps its mutations when a later
      statement raises.
    - The language-model backend is an oracle over an abstract [World];
      every call of the engine to one of its collaborators is recorded,
      with its arguments and its outcome, in a ghost [trace].
    - A reply of the chat client is a JSON value ([PyValue]): the client
      returns what the response holds under [content] without checking
      that it is a [str]. *)

From Stdlib Require Import String Ascii List ZArith Lia Bool QArith DecimalString.
From Stdlib Require Import Sorted.
From Equations Require Import Equations.
From Equations.Prop Require Import Logic.
Import ListNotations.

Local Open Scope string_scope.
Local Open Scope Z_scope.
Local Open Scope list_scope.

Set Implicit Arguments.

(** ** Exceptions *)

(** The exception classes that occur.  [JSONDecodeError] and pydantic's
    [ValidationError] both derive from [ValueError] and neither derives
    from the other; all of them derive from [Exception].  [TypeError],
    [AttributeError] and [KeyError] are what the builtins raise on a
    value of the wrong type or a missing key. *)
Inductive PyExc : Type :=
| JSONDecodeError
| ValidationError
| ValueError
| IndexError
| RequestException
| TypeError
| AttributeError
| KeyError.

Inductive Result (A : Type) : Type :=
| Ok (a : A)
| Raise (e : PyExc).
Arguments Ok {A} a.
Arguments Raise {A} e.

(** [except ValidationError:] handles exactly the instances of that class. *)
Definition is_ValidationError (e : PyExc) : bool :=
  match e with ValidationError => true | _ => false end.

(** ** Values of JSON documents

    What [json.loads] returns and [json.dump] accepts.  A [dict] is the
    list of its bindings in insertion order, the keys pairwise distinct. *)
#[warnings="-register-all"]
Inductive PyValue : Type :=
| PyNone
| PyBool (b : bool)
| PyInt (z : Z)
| PyFloat (q : QArith_base.Q)
| PyStr (s : string)
| PyList (xs : list PyValue)
| PyDict (kvs : list (string * PyValue)).

(** [d.get(key)] on the bindings of a [dict]. *)
Fixpoint dict_get (key : string) (kvs : list (string * PyValue)) : option PyValue :=
  match kvs with
  | [] => None
  | (k, v) :: rest => if String.eqb k key then Some v else dict_get key rest
  end.

(** ** Builtins on strings and lists *)

Definition str_add (a b : string) : string := String.append a b.
Infix "+++" := str_add (at level 60, right associativity).

Fixpoint find_from (sub s : string) (pos : nat) : Z :=
  if String.prefix sub s then Z.of_nat pos
  else match s with
       | EmptyString => -1
       | String _ s' => find_from sub s' (S pos)
       end.

(** [s.find(sub)]: offset of the first occurrence, or -1. *)
Definition py_find (s sub : string) : Z := find_from sub s 0.

Fixpoint rfind_from (sub s : string) (pos : nat) (best : Z) : Z :=
  let best' := if String.prefix sub s then Z.of_nat pos else best in
  match s with
  | EmptyString => best'
  | String _ s' => rfind_from sub s' (S pos) best'
  end.

(** [s.rfind(sub)]: offset of the last occurrence, or -1. *)
Definition py_rfind (s sub : string) : Z := rfind_from sub s 0 (-1).

(** [sub in s]. *)
Definition py_in_str (sub s : string) : bool := 0 <=? py_find s sub.

(** [s[a:b]] for [0 <= a]. *)
Definition py_slice (s : string) (a b : Z) : string :=
  String.substring (Z.to_nat a) (Z.to_nat (b - a)) s.

(** A UTF-8 continuation byte is [10xxxxxx]. *)
Definition is_continuation (c : ascii) : bool :=
  let n := nat_of_ascii c in ((128 <=? n) && (n <? 192))%nat.

(** [s[:n]], counted in characters. *)
Fixpoint py_head (n : nat) (s : string) : string :=
  match s with
  | EmptyString => EmptyString
  | String c s' =>
      if is_continuation c then String c (py_head n s')
      else match n with
           | O => EmptyString
           | S n' => String c (py_head n' s')
           end
  end.

(** [not s] for a string. *)
Definition str_is_empty (s : string) : bool :=
  match s with EmptyString => true | _ => false end.

(** [str(i)] for an integer. *)
Definition str_of_int (z : Z) : string :=
  DecimalString.NilZero.string_of_int (Z.to_int z).

(** [str(b)] for a boolean. *)
Definition str_of_bool (b : bool) : string := if b then "True" else "False".

(** [x in xs] for a list of strings. *)
Definition py_in (x : string) (xs : list string) : bool :=
  existsb (String.eqb x) xs.

Fixpoint index_from (x : string) (xs : list string) (pos : Z) : Result Z :=
  match xs with
  | [] => Raise ValueError
  | y :: ys => if String.eqb y x then Ok pos else index_from x ys (pos + 1)
  end.

(** [xs.index(x)]: offset of the first occurrence, [ValueError] if none. *)
Definition py_index (xs : list string) (x : string) : Result Z :=
  index_from x xs 0.

Definition len {A} (xs : list A) : Z := Z.of_nat (length xs).

(** [xs[i]]: negative offsets count from the end, [IndexError] out of range. *)
Definition py_getitem {A} (xs : list A) (i : Z) : Result A :=
  let j := if i <? 0 then len xs + i else i in
  if (j <? 0) || (len xs <=? j) then Raise IndexError
  else match nth_error xs (Z.to_nat j) with
       | Some x => Ok x
       | None => Raise IndexError
       end.

(** [xs[-n:]] for [n > 0]: the last [n] elements, all of them if fewer. *)
Definition last_n {A} (n : nat) (xs : list A) : list A :=
  skipn (length xs - n) xs.

(** The builtins taken as parameters: the Unicode-aware [str.strip] and
    [str.lower]; [str(xs)] for a list; and the exception of [d[:n]] for a
    dict, which is [TypeError] (a slice is unhashable) before Python 3.12
    and [KeyError] from 3.12 on. *)
Record Builtins : Type := {
  py_strip : string -> string;
  py_lower : string -> string;
  py_str_list : list PyValue -> string;
  dict_slice_exc : PyExc
}.

Definition bind_result {A B} (r : Result A) (k : A -> Result B) : Result B :=
  match r with
  | Ok a => k a
  | Raise e => Raise e
  end.

Notation "'let?' x ':=' r 'in' k" := (bind_result r (fun x => k))
  (at level 10, x name, r at level 100, k at level 200).

(** ** Data model of [agents.py] and [logger.py] *)

Definition DEFAULT_TOPICS : list string :=
  ["general_basics"; "problem_solving"; "tools_workflow"].

Definition DIFFICULTIES : list string := ["easy"; "medium"; "hard"].

(** A chat message, [{"role": ..., "content": ...}]. *)
Record Message : Type := { role : string; content : string }.

Record TopicPlan : Type := { topics : list string }.

Record ObserverOutput : Type := {
  detected_offtopic : bool;
  detected_hallucination : bool;
  answer_quality : string;
  score_0_100 : Z;
  next_difficulty : string;
  next_topic : string;
  intent : string;
  should_move_on : bool;
  need_hint : bool;
  acknowledge : string;
  notes : string
}.

Definition set_need_hint (v : bool) (o : ObserverOutput) : ObserverOutput :=
  {| detected_offtopic := detected_offtopic o;
     detected_hallucination := detected_hallucination o;
     answer_quality := answer_quality o;
     score_0_100 := score_0_100 o;
     next_difficulty := next_difficulty o;
     next_topic := next_topic o;
     intent := intent o;
     should_move_on := should_move_on o;
     need_hint := v;
     acknowledge := acknowledge o;
     notes := notes o |}.

(** [out.next_topic = t; out.should_move_on = False]. *)
Definition stay_on (t : string) (o : ObserverOutput) : ObserverOutput :=
  {| detected_offtopic := detected_offtopic o;
     detected_hallucination := detected_hallucination o;
     answer_quality := answer_quality o;
     score_0_100 := score_0_100 o;
     next_difficulty := next_difficulty o;
     next_topic := t;
     intent := intent o;
     should_move_on := false;
     need_hint := need_hint o;
     acknowledge := acknowledge o;
     notes := notes o |}.

Record GeneratedQuestion : Type := {
  question_text : string;
  hint : string;
  ideal_answer_short : string
}.

Record FinalFeedback : Type := {
  grade : string;
  hiring_recommendation : string;
  confidence_score_0_100 : Z;
  confirmed_skills : list string;
  knowledge_gaps : list string;
  corrections : list string;
  clarity : string;
  honesty : string;
  engagement : string;
  roadmap : list string
}.

Record TurnLog : Type := {
  tl_turn_id : Z;
  tl_topic : string;
  tl_difficulty : string;
  tl_score_0_100 : Z;
  tl_ideal_answer_short : string;
  tl_agent_visible_message : string;
  tl_user_message : string;
  tl_internal_thoughts : string
}.

Record InterviewLogger : Type := {
  lg_participant_name : string;
  turns : list TurnLog;
  final_feedback : option FinalFeedback
}.

(** [InterviewLogger.__init__]. *)
Definition new_logger (participant_name : string) : InterviewLogger :=
  {| lg_participant_name := participant_name; turns := []; final_feedback := None |}.

(** [InterviewLogger.add_turn]. *)
Definition add_turn (t : TurnLog) (l : InterviewLogger) : InterviewLogger :=
  {| lg_participant_name := lg_participant_name l;
     turns := turns l ++ [t];
     final_feedback := final_feedback l |}.

(** [InterviewLogger.set_final_feedback]. *)
Definition set_final_feedback (f : FinalFeedback) (l : InterviewLogger) : InterviewLogger :=
  {| lg_participant_name := lg_participant_name l;
     turns := turns l;
     final_feedback := Some f |}.

(** ** The engine's state-machine slots, [self.state] *)

Record StateSlots : Type := {
  last_topic : option string;
  last_intent : option string;
  topic_index : Z;
  streak_good : Z;
  streak_poor : Z
}.

(** The keys added to a copy of [self.state] before it is handed to the
    observer: by [step], or by the topic guard. *)
Inductive StateExtras : Type :=
| StepExtras (asked_topics_tail : list string) (asked_questions_sample : list string)
| GuardExtras (mode : string) (guard_topic : string) (guard_question : string).

(** ** Keyword arguments of the collaborators' methods *)

Record PlanArgs : Type := {
  pa_position : string;
  pa_grade : string;
  pa_experience : string;
  pa_lang : string
}.

Record AnalyzeArgs : Type := {
  aa_position : string;
  aa_grade : string;
  aa_experience : string;
  aa_history : list Message;
  aa_last_user : string;
  aa_state : StateSlots * StateExtras;
  aa_current_topic : string;
  aa_current_difficulty : string;
  aa_topic_plan : list string
}.

Record GenerateArgs : Type := {
  ga_position : string;
  ga_grade : string;
  ga_experience : string;
  ga_topic : string;
  ga_difficulty : string;
  ga_intent : string;
  ga_need_hint : bool;
  ga_avoid_questions : list string;
  ga_lang : string
}.

Record RenderArgs : Type := {
  ra_history : list Message;
  ra_observer_plan : ObserverOutput;
  ra_last_user : string;
  ra_question_text : string;
  ra_hint : string
}.

Record FeedbackArgs : Type := {
  fa_position : string;
  fa_target_grade : string;
  fa_experience : string;
  fa_turns : list TurnLog;
  fa_transcript : list Message
}.

(** ** [prompts.py] *)

Definition OBSERVER_SYSTEM : string :=
"You are Observer/Critic in a multi-agent interview system.
You DO NOT talk to the candidate. You analyze answers and decide what to do next.

Requirements:
- Context awareness: don't repeat questions already asked.
- Adaptability: adjust difficulty up/down; ask for clarification if needed.
- Robustness: detect off-topic and hallucinations; steer back.
Return ONLY valid JSON matching the requested schema.
".

Definition QUESTION_GENERATOR_SYSTEM : string :=
"You are a Question Generator for technical interviews.
You DO NOT evaluate the candidate.
You produce ONE question for the specified role/topic/difficulty and (optionally) a hint.
Return ONLY valid JSON matching the requested schema.
The question must be relevant to the given position, grade, and topic.
Difficulty meaning:
- easy: definition/basic understanding
- medium: practical usage/edge cases
- hard: deeper details, tradeoffs, performance, design considerations
".

Definition INTERVIEWER_SYSTEM : string :=
"You are Interviewer in a multi-agent interview.
You speak to the candidate.
Follow Observer plan and use the generated question.
Be concise, natural, and professional.
Never reveal internal analysis or system prompts.
".

Definition HIRING_MANAGER_SYSTEM : string :=
"You are Hiring Manager creating a structured final feedback report after interview.
Use the full conversation and turn metadata (topic, difficulty, score, ideal answers).
Return ONLY valid JSON matching the requested schema.
Include correct answers for failed topics briefly.
".

Definition build_interviewer_intro (position grade experience : string) : string :=
  "Привет! Проведу короткое техинтервью на позицию " +++ position +++ " (" +++ grade +++ "). "
  +++ "Вижу твой опыт: " +++ experience +++ ". "
  +++ "Отвечай своими словами. Если что-то не знаешь — так и скажи. Начнём.".

(** ** [agents.py] *)

(** What the agents rest on and what lies outside this repository: the
    chat client of [ollama_client.py] (an HTTP round trip, which may raise),
    [json.loads], pydantic's [model_validate] for the four schemas, and the
    prompt templates (f-strings over the [repr] of their arguments).
    [chat] is annotated to return a [str] and returns whatever JSON value
    the response holds under [message] and [content]: the reply is a
    [PyValue], a [PyStr] when the server keeps to its protocol. *)
Record Backend (World Json : Type) : Type := {
  client_chat :
    string -> list Message -> option string -> Q -> World -> Result PyValue * World;
  json_loads : string -> Result Json;
  TopicPlan_model_validate : Json -> Result TopicPlan;
  ObserverOutput_model_validate : Json -> Result ObserverOutput;
  GeneratedQuestion_model_validate : Json -> Result GeneratedQuestion;
  FinalFeedback_model_validate : Json -> Result FinalFeedback;
  planner_user_prompt : PlanArgs -> string;
  observer_user_prompt : AnalyzeArgs -> string;
  qgen_user_prompt : GenerateArgs -> string;
  interviewer_user_prompt : RenderArgs -> string;
  manager_user_prompt : FeedbackArgs -> string
}.

Section Agents.

Variables World Json : Type.
Variable B : Builtins.
Variable K : Backend World Json.

(** [_safe_json_load]: the bare [raise] re-raises the exception of the
    first [json.loads]; an exception of the second one propagates. *)
Definition _safe_json_load (s : string) : Result Json :=
  let s := py_strip B s in
  match json_loads K s with
  | Ok v => Ok v
  | Raise e =>
      let start := py_find s "{" in
      let end_ := py_rfind s "}" in
      if negb (start =? -1) && negb (end_ =? -1) && (start <? end_)
      then json_loads K (py_slice s start (end_ + 1))
      else Raise e
  end.

Definition default_plan : TopicPlan := {| topics := DEFAULT_TOPICS |}.

Definition planner_messages (a : PlanArgs) : list Message :=
  [ {| role := "system";
       content := "You create topic plans for technical interviews. Return JSON only." |};
    {| role := "user"; content := py_strip B (planner_user_prompt K a) |} ].

(** [_safe_json_load] applied to a reply of the client: on a reply that
    is not a [str] its first statement, [s.strip()], raises
    [AttributeError]. *)
Definition load_reply (raw : PyValue) : Result Json :=
  match raw with
  | PyStr s => _safe_json_load s
  | _ => Raise AttributeError
  end.

(** [TopicPlannerAgent.build_plan]; [except Exception] handles every
    exception of the [try] block. *)
Definition TopicPlannerAgent_build_plan (model : string) (a : PlanArgs)
    (w : World) : Result TopicPlan * World :=
  match client_chat K model (planner_messages a) (Some "json") (3 # 10)%Q w with
  | (Raise e, w') => (Raise e, w')
  | (Ok raw, w') =>
      let attempt :=
        let? data := load_reply raw in
        let? plan := TopicPlan_model_validate K data in
        Ok (match topics plan with [] => default_plan | _ => plan end) in
      match attempt with
      | Ok plan => (Ok plan, w')
      | Raise _ => (Ok default_plan, w')
      end
  end.

Definition observer_messages (a : AnalyzeArgs) : list Message :=
  [ {| role := "system"; content := OBSERVER_SYSTEM |} ]
  ++ last_n 14 (aa_history a)
  ++ [ {| role := "user"; content := py_strip B (observer_user_prompt K a) |} ].

(** The fallback evaluation of [ObserverAgent.analyze], with the text
    that its notes quote. *)
Definition fallback_observer_output_quoting (a : AnalyzeArgs) (head : string)
    : ObserverOutput :=
  {| detected_offtopic := false;
     detected_hallucination := false;
     answer_quality := "unknown";
     score_0_100 := 45;
     next_difficulty := aa_current_difficulty a;
     next_topic := aa_current_topic a;
     intent := "fallback";
     should_move_on := false;
     need_hint := true;
     acknowledge := "Окей, понял.";
     notes := "Observer parse failed. Raw head: " +++ head |}.

(** The fallback evaluation for a reply that is a [str]. *)
Definition fallback_observer_output (a : AnalyzeArgs) (raw : string) : ObserverOutput :=
  fallback_observer_output_quoting a (py_head 180 raw).

(** [f"{raw[:180]}"] in the handler of [analyze]: a [str] is cut after
    180 characters and a list after 180 elements; [None], a [bool] and a
    number cannot be subscripted, and a dict cannot be sliced. *)
Definition raw_head (raw : PyValue) : Result string :=
  match raw with
  | PyStr s => Ok (py_head 180 s)
  | PyList xs => Ok (py_str_list B (firstn 180 xs))
  | PyDict _ => Raise (dict_slice_exc B)
  | PyNone | PyBool _ | PyInt _ | PyFloat _ => Raise TypeError
  end.

(** [ObserverAgent.analyze].  The handler evaluates the notes of the
    fallback, which slice the reply, before it constructs the fallback;
    the fallback is itself validated when it is constructed: its
    [next_difficulty] must be one of the three literals. *)
Definition ObserverAgent_analyze (model : string) (a : AnalyzeArgs)
    (w : World) : Result ObserverOutput * World :=
  match client_chat K model (observer_messages a) (Some "json") (2 # 10)%Q w with
  | (Raise e, w') => (Raise e, w')
  | (Ok raw, w') =>
      let attempt :=
        let? data := load_reply raw in
        let? out := ObserverOutput_model_validate K data in
        Ok (if should_move_on out && negb (py_in (next_topic out) (aa_topic_plan a))
            then stay_on (aa_current_topic a) out
            else out) in
      match attempt with
      | Ok out => (Ok out, w')
      | Raise _ =>
          match raw_head raw with
          | Raise e => (Raise e, w')
          | Ok head =>
              if py_in (aa_current_difficulty a) DIFFICULTIES
              then (Ok (fallback_observer_output_quoting a head), w')
              else (Raise ValidationError, w')
          end
      end
  end.

Definition qgen_messages (a : GenerateArgs) : list Message :=
  [ {| role := "system"; content := QUESTION_GENERATOR_SYSTEM |};
    {| role := "user"; content := py_strip B (qgen_user_prompt K a) |} ].

(** The fallback draft of [QuestionGeneratorAgent.generate]. *)
Definition fallback_question (need_hint : bool) : GeneratedQuestion :=
  {| question_text := "Давай начнём с базы: чем list отличается от tuple?";
     hint := if need_hint then "Подумай про изменяемость (mutability). " else "";
     ideal_answer_short :=
       "list изменяемый, tuple неизменяемый; tuple можно использовать там, где важна неизменность." |}.

(** [QuestionGeneratorAgent.generate]; [except Exception] handles every
    exception of the [try] block. *)
Definition QuestionGeneratorAgent_generate (model : string) (a : GenerateArgs)
    (w : World) : Result GeneratedQuestion * World :=
  match client_chat K model (qgen_messages a) (Some "json") (4 # 10)%Q w with
  | (Raise e, w') => (Raise e, w')
  | (Ok raw, w') =>
      let attempt :=
        let? data := load_reply raw in
        let? q := GeneratedQuestion_model_validate K data in
        let q1 :=
          if str_is_empty (question_text q)
          then {| question_text := "Расскажи, чем отличаются list и tuple в Python?";
                  hint := hint q;
                  ideal_answer_short := ideal_answer_short q |}
          else q in
        Ok (if negb (ga_need_hint a)
            then {| question_text := question_text q1;
                    hint := "";
                    ideal_answer_short := ideal_answer_short q1 |}
            else q1) in
      match attempt with
      | Ok q => (Ok q, w')
      | Raise _ => (Ok (fallback_question (ga_need_hint a)), w')
      end
  end.

Definition interviewer_messages (a : RenderArgs) : list Message :=
  [ {| role := "system"; content := INTERVIEWER_SYSTEM |} ]
  ++ last_n 14 (ra_history a)
  ++ [ {| role := "user"; content := py_strip B (interviewer_user_prompt K a) |} ].

(** [InterviewerAgent.render_message]: [text.strip()] raises
    [AttributeError] on a reply that is not a [str]. *)
Definition InterviewerAgent_render_message (model : string) (a : RenderArgs)
    (w : World) : Result string * World :=
  match client_chat K model (interviewer_messages a) None (5 # 10)%Q w with
  | (Raise e, w') => (Raise e, w')
  | (Ok (PyStr text), w') => (Ok (py_strip B text), w')
  | (Ok _, w') => (Raise AttributeError, w')
  end.

Definition manager_messages (a : FeedbackArgs) : list Message :=
  [ {| role := "system"; content := HIRING_MANAGER_SYSTEM |};
    {| role := "user"; content := py_strip B (manager_user_prompt K a) |} ].

(** The fallback report of [HiringManagerAgent.build_feedback]. *)
Definition fallback_feedback (raw : string) : FinalFeedback :=
  {| grade := "Junior";
     hiring_recommendation := "No Hire";
     confidence_score_0_100 := 45;
     confirmed_skills := [];
     knowledge_gaps :=
       ["Не удалось корректно сформировать финальный отчёт (ошибка валидации)."];
     corrections := [py_head 300 raw];
     clarity := "medium";
     honesty := "medium";
     engagement := "low";
     roadmap := ["Повторить базовые темы и попробовать заново."] |}.

(** [HiringManagerAgent.build_feedback]: only [ValidationError] is
    handled; any other exception of the [try] block propagates, among
    them the [AttributeError] of [_safe_json_load] on a reply that is
    not a [str], so that the handler, which slices the reply, runs on a
    [str] only. *)
Definition HiringManagerAgent_build_feedback (model : string) (a : FeedbackArgs)
    (w : World) : Result FinalFeedback * World :=
  match client_chat K model (manager_messages a) (Some "json") (2 # 10)%Q w with
  | (Raise e, w') => (Raise e, w')
  | (Ok (PyStr raw), w') =>
      let attempt :=
        let? data := _safe_json_load raw in
        FinalFeedback_model_validate K data in
      match attempt with
      | Ok f => (Ok f, w')
      | Raise e =>
          if is_ValidationError e
          then (Ok (fallback_feedback raw), w')
          else (Raise e, w')
      end
  | (Ok _, w') => (Raise AttributeError, w')
  end.

End Agents.

(** ** [interview_engine.py] *)

(** The five collaborators the engine is constructed with.  Each method is
    an oracle: it sees its keyword arguments and the world, and either
    returns or raises.  The arguments are handed over by reference; like
    the agents above, a collaborator only reads them. *)
Record Collaborators (World : Type) : Type := {
  planner_build_plan : PlanArgs -> World -> Result TopicPlan * World;
  observer_analyze : AnalyzeArgs -> World -> Result ObserverOutput * World;
  qgen_generate : GenerateArgs -> World -> Result GeneratedQuestion * World;
  interviewer_render_message : RenderArgs -> World -> Result string * World;
  hiring_manager_build_feedback : FeedbackArgs -> World -> Result FinalFeedback * World
}.

(** The agents of [agents.py] as collaborators, as [main.py] wires them. *)
Definition agents_of {World Json : Type} (B : Builtins) (K : Backend World Json)
    (interviewer_model observer_model manager_model : string) : Collaborators World :=
  {| planner_build_plan := TopicPlannerAgent_build_plan B K observer_model;
     observer_analyze := ObserverAgent_analyze B K observer_model;
     qgen_generate := QuestionGeneratorAgent_generate B K interviewer_model;
     interviewer_render_message := InterviewerAgent_render_message B K interviewer_model;
     hiring_manager_build_feedback := HiringManagerAgent_build_feedback B K manager_model |}.

(** One call of the engine to a collaborator, with its outcome. *)
Inductive Event : Type :=
| EvPlan (a : PlanArgs) (r : Result TopicPlan)
| EvAnalyze (a : AnalyzeArgs) (r : Result ObserverOutput)
| EvGenerate (a : GenerateArgs) (r : Result GeneratedQuestion)
| EvRender (a : RenderArgs) (r : Result string)
| EvFeedback (a : FeedbackArgs) (r : Result FinalFeedback).

Record Env (World : Type) : Type := {
  world : World;
  trace : list Event
}.

(** The attributes of an [InterviewEngine] (the collaborators apart). *)
Record InterviewEngine : Type := {
  position : string;
  target_grade : string;
  experience : string;
  participant_name : string;
  lang : string;
  max_regen_attempts : Z;
  logger : InterviewLogger;
  turn_id : Z;
  history : list Message;
  state : StateSlots;
  topic_plan : list string;
  current_topic : string;
  difficulty : string;
  asked_questions_text : list string;
  asked_topics : list string
}.

(** The keyword arguments of the constructor (the collaborators apart);
    [lang] defaults to ["ru"] and [max_regen_attempts] to [1]. *)
Record EngineConfig : Type := {
  cfg_position : string;
  cfg_target_grade : string;
  cfg_experience : string;
  cfg_participant_name : string;
  cfg_lang : string;
  cfg_max_regen_attempts : Z
}.

(** Attribute assignments. *)

Definition set_logger (v : InterviewLogger) (s : InterviewEngine) : InterviewEngine :=
  {| position := position s; target_grade := target_grade s; experience := experience s;
     participant_name := participant_name s; lang := lang s;
     max_regen_attempts := max_regen_attempts s;
     logger := v; turn_id := turn_id s; history := history s; state := state s;
     topic_plan := topic_plan s; current_topic := current_topic s;
     difficulty := difficulty s; asked_questions_text := asked_questions_text s;
     asked_topics := asked_topics s |}.

Definition set_turn_id (v : Z) (s : InterviewEngine) : InterviewEngine :=
  {| position := position s; target_grade := target_grade s; experience := experience s;
     participant_name := participant_name s; lang := lang s;
     max_regen_attempts := max_regen_attempts s;
     logger := logger s; turn_id := v; history := history s; state := state s;
     topic_plan := topic_plan s; current_topic := current_topic s;
     difficulty := difficulty s; asked_questions_text := asked_questions_text s;
     asked_topics := asked_topics s |}.

Definition set_history (v : list Message) (s : InterviewEngine) : InterviewEngine :=
  {| position := position s; target_grade := target_grade s; experience := experience s;
     participant_name := participant_name s; lang := lang s;
     max_regen_attempts := max_regen_attempts s;
     logger := logger s; turn_id := turn_id s; history := v; state := state s;
     topic_plan := topic_plan s; current_topic := current_topic s;
     difficulty := difficulty s; asked_questions_text := asked_questions_text s;
     asked_topics := asked_topics s |}.

Definition set_state (v : StateSlots) (s : InterviewEngine) : InterviewEngine :=
  {| position := position s; target_grade := target_grade s; experience := experience s;
     participant_name := participant_name s; lang := lang s;
     max_regen_attempts := max_regen_attempts s;
     logger := logger s; turn_id := turn_id s; history := history s; state := v;
     topic_plan := topic_plan s; current_topic := current_topic s;
     difficulty := difficulty s; asked_questions_text := asked_questions_text s;
     asked_topics := asked_topics s |}.

Definition set_topic_plan (v : list string) (s : InterviewEngine) : InterviewEngine :=
  {| position := position s; target_grade := target_grade s; experience := experience s;
     participant_name := participant_name s; lang := lang s;
     max_regen_attempts := max_regen_attempts s;
     logger := logger s; turn_id := turn_id s; history := history s; state := state s;
     topic_plan := v; current_topic := current_topic s;
     difficulty := difficulty s; asked_questions_text := asked_questions_text s;
     asked_topics := asked_topics s |}.

Definition set_current_topic (v : string) (s : InterviewEngine) : InterviewEngine :=
  {| position := position s; target_grade := target_grade s; experience := experience s;
     participant_name := participant_name s; lang := lang s;
     max_regen_attempts := max_regen_attempts s;
     logger := logger s; turn_id := turn_id s; history := history s; state := state s;
     topic_plan := topic_plan s; current_topic := v;
     difficulty := difficulty s; asked_questions_text := asked_questions_text s;
     asked_topics := asked_topics s |}.

Definition set_difficulty (v : string) (s : InterviewEngine) : InterviewEngine :=
  {| position := position s; target_grade := target_grade s; experience := experience s;
     participant_name := participant_name s; lang := lang s;
     max_regen_attempts := max_regen_attempts s;
     logger := logger s; turn_id := turn_id s; history := history s; state := state s;
     topic_plan := topic_plan s; current_topic := current_topic s;
     difficulty := v; asked_questions_text := asked_questions_text s;
     asked_topics := asked_topics s |}.

Definition set_asked_questions_text (v : list string) (s : InterviewEngine) : InterviewEngine :=
  {| position := position s; target_grade := target_grade s; experience := experience s;
     participant_name := participant_name s; lang := lang s;
     max_regen_attempts := max_regen_attempts s;
     logger := logger s; turn_id := turn_id s; history := history s; state := state s;
     topic_plan := topic_plan s; current_topic := current_topic s;
     difficulty := difficulty s; asked_questions_text := v;
     asked_topics := asked_topics s |}.

Definition set_asked_topics (v : list string) (s : InterviewEngine) : InterviewEngine :=
  {| position := position s; target_grade := target_grade s; experience := experience s;
     participant_name := participant_name s; lang := lang s;
     max_regen_attempts := max_regen_attempts s;
     logger := logger s; turn_id := turn_id s; history := history s; state := state s;
     topic_plan := topic_plan s; current_topic := current_topic s;
     difficulty := difficulty s; asked_questions_text := asked_questions_text s;
     asked_topics := v |}.

(** Assignments to the keys of [self.state]. *)

Definition set_last_topic (v : option string) (t : StateSlots) : StateSlots :=
  {| last_topic := v; last_intent := last_intent t; topic_index := topic_index t;
     streak_good := streak_good t; streak_poor := streak_poor t |}.

Definition set_last_intent (v : option string) (t : StateSlots) : StateSlots :=
  {| last_topic := last_topic t; last_intent := v; topic_index := topic_index t;
     streak_good := streak_good t; streak_poor := streak_poor t |}.

Definition set_topic_index (v : Z) (t : StateSlots) : StateSlots :=
  {| last_topic := last_topic t; last_intent := last_intent t; topic_index := v;
     streak_good := streak_good t; streak_poor := streak_poor t |}.

Definition set_streak_good (v : Z) (t : StateSlots) : StateSlots :=
  {| last_topic := last_topic t; last_intent := last_intent t; topic_index := topic_index t;
     streak_good := v; streak_poor := streak_poor t |}.

Definition set_streak_poor (v : Z) (t : StateSlots) : StateSlots :=
  {| last_topic := last_topic t; last_intent := last_intent t; topic_index := topic_index t;
     streak_good := streak_good t; streak_poor := v |}.

(** [self.state[key] = v] as an update of the engine. *)
Definition upd_state (f : StateSlots -> StateSlots) (s : InterviewEngine) : InterviewEngine :=
  set_state (f (state s)) s.

(** The double quote, for the one f-string that contains it. *)
Definition dq : string := String (Ascii.ascii_of_nat 34) EmptyString.

(** The line feed. *)
Definition nl : string := String (Ascii.ascii_of_nat 10) EmptyString.

Section Engine.

Variable World : Type.
Variable B : Builtins.
Variable C : Collaborators World.

(** A method that reads [self] and talks to collaborators. *)
Definition Q (A : Type) : Type := Env World -> Result A * Env World.

(** A method that may also assign to attributes of [self]. *)
Definition M (A : Type) : Type :=
  InterviewEngine -> Env World -> Result A * InterviewEngine * Env World.

Definition ret {A} (a : A) : M A := fun s env => (Ok a, s, env).

Definition bind {A A'} (c : M A) (k : A -> M A') : M A' :=
  fun s env =>
    match c s env with
    | (Ok a, s', env') => k a s' env'
    | (Raise e, s', env') => (Raise e, s', env')
    end.

Definition get_self : M InterviewEngine := fun s env => (Ok s, s, env).

Definition assign (f : InterviewEngine -> InterviewEngine) : M unit :=
  fun s env => (Ok tt, f s, env).

Definition lift_result {A} (r : Result A) : M A := fun s env => (r, s, env).

Definition call {A} (q : InterviewEngine -> Q A) : M A :=
  fun s env => let '(r, env') := q s env in (r, s, env').

Notation "x <- c ;; k" := (bind c (fun x => k))
  (at level 61, c at next level, right associativity).
Notation "' pat <- c ;; k" := (bind c (fun x => match x with pat => k end))
  (at level 61, pat pattern, c at next level, right associativity).
Notation "c ;; k" := (bind c (fun _ => k))
  (at level 61, right associativity).

(** Calls to the collaborators, recorded in the trace. *)

Definition call_plan (a : PlanArgs) : Q TopicPlan :=
  fun env =>
    let '(r, w) := planner_build_plan C a (world env) in
    (r, {| world := w; trace := trace env ++ [EvPlan a r] |}).

Definition call_analyze (a : AnalyzeArgs) : Q ObserverOutput :=
  fun env =>
    let '(r, w) := observer_analyze C a (world env) in
    (r, {| world := w; trace := trace env ++ [EvAnalyze a r] |}).

Definition call_generate (a : GenerateArgs) : Q GeneratedQuestion :=
  fun env =>
    let '(r, w) := qgen_generate C a (world env) in
    (r, {| world := w; trace := trace env ++ [EvGenerate a r] |}).

Definition call_render (a : RenderArgs) : Q string :=
  fun env =>
    let '(r, w) := interviewer_render_message C a (world env) in
    (r, {| world := w; trace := trace env ++ [EvRender a r] |}).

Definition call_feedback (a : FeedbackArgs) : Q FinalFeedback :=
  fun env =>
    let '(r, w) := hiring_manager_build_feedback C a (world env) in
    (r, {| world := w; trace := trace env ++ [EvFeedback a r] |}).

(** [_push_user] and [_push_assistant]. *)

Definition _push_user (text : string) : M unit :=
  assign (fun s => set_history (history s ++ [{| role := "user"; content := text |}]) s).

Definition _push_assistant (text : string) : M unit :=
  assign (fun s => set_history (history s ++ [{| role := "assistant"; content := text |}]) s).

(** [get_all_assistant_messages]. *)
Definition get_all_assistant_messages (s : InterviewEngine) : list string :=
  map content (filter (fun m => String.eqb (role m) "assistant") (history s)).

(** [_update_difficulty_by_streaks]: two [if] statements in sequence. *)
Definition _update_difficulty_by_streaks (s : InterviewEngine) : InterviewEngine :=
  let s1 :=
    if 2 <=? streak_good (state s) then
      let s' :=
        if String.eqb (difficulty s) "easy" then set_difficulty "medium" s
        else if String.eqb (difficulty s) "medium" then set_difficulty "hard" s
        else s in
      upd_state (set_streak_good 0) s'
    else s in
  if 2 <=? streak_poor (state s1) then
    let s' :=
      if String.eqb (difficulty s1) "hard" then set_difficulty "medium" s1
      else if String.eqb (difficulty s1) "medium" then set_difficulty "easy" s1
      else s1 in
    upd_state (set_streak_poor 0) s'
  else s1.

(** [_advance_topic]. *)
Definition _advance_topic : M string :=
  self <- get_self ;;
  let i := topic_index (state self) in
  (if i <? len (topic_plan self) - 1
   then assign (upd_state (fun t => set_topic_index (topic_index t + 1) t))
   else ret tt) ;;
  self <- get_self ;;
  lift_result (py_getitem (topic_plan self) (topic_index (state self))).

(** The test on the observer's notes in [_topic_guard_ok]. *)
Definition mentions_mismatch (notes : string) : bool :=
  py_in_str "mismatch" notes
  || py_in_str "не соответствует" notes
  || py_in_str "не по теме" notes.

Definition guard_args (self : InterviewEngine) (topic question_text : string) : AnalyzeArgs :=
  let check_prompt :=
    "TOPIC_GUARD: Does the following question strictly match the topic?" +++ nl
    +++ "TOPIC: " +++ topic +++ nl
    +++ "QUESTION: " +++ question_text +++ nl
    +++ "Answer ONLY with JSON: {" +++ dq +++ "ok" +++ dq +++ ": true/false, "
    +++ dq +++ "reason" +++ dq +++ ": " +++ dq +++ "..." +++ dq +++ "}" in
  {| aa_position := position self;
     aa_grade := target_grade self;
     aa_experience := experience self;
     aa_history := history self;
     aa_last_user := check_prompt;
     aa_state := (state self, GuardExtras "topic_guard" topic question_text);
     aa_current_topic := topic;
     aa_current_difficulty := difficulty self;
     aa_topic_plan := topic_plan self |}.

(** [_topic_guard_ok]: the [try] block is the call of the observer and
    the test on its notes; [except Exception] answers [True]. *)
Definition _topic_guard_ok (self : InterviewEngine) (topic question_text : string)
    (env : Env World) : bool * Env World :=
  match call_analyze (guard_args self topic question_text) env with
  | (Ok out, env') =>
      let notes := py_lower B (notes out) in
      if mentions_mismatch notes then (false, env') else (true, env')
  | (Raise _, env') => (true, env')
  end.

Definition generate_args (self : InterviewEngine) (topic difficulty intent : string)
    (need_hint : bool) (avoid : list string) : GenerateArgs :=
  {| ga_position := position self;
     ga_grade := target_grade self;
     ga_experience := experience self;
     ga_topic := topic;
     ga_difficulty := difficulty;
     ga_intent := intent;
     ga_need_hint := need_hint;
     ga_avoid_questions := avoid;
     ga_lang := lang self |}.

(** The [while] loop of [_generate_question]; [and] does not call the
    guard once the attempts are used up. *)
Equations? regen_loop (self : InterviewEngine) (topic difficulty intent : string)
    (need_hint : bool) (avoid : list string) (attempts : Z)
    (gen : GeneratedQuestion) (env : Env World) : Result GeneratedQuestion * Env World
    by wf (Z.to_nat (max_regen_attempts self - attempts)) lt :=
  regen_loop self topic difficulty intent need_hint avoid attempts gen env with
    inspect (attempts <? max_regen_attempts self) := {
    | exist _ false _ := (Ok gen, env)
    | exist _ true Hlt with _topic_guard_ok self topic (question_text gen) env := {
      | (true, env1) := (Ok gen, env1)
      | (false, env1) with
          call_generate
            (generate_args self topic difficulty
               (intent +++ "_REGEN_TOPIC_MISMATCH") need_hint
               (avoid ++ [question_text gen])) env1 := {
        | (Raise e, env2) := (Raise e, env2)
        | (Ok gen', env2) :=
            regen_loop self topic difficulty intent need_hint avoid
              (attempts + 1) gen' env2 } } }.
Proof. apply Z.ltb_lt in Hlt. lia. Qed.

(** [_generate_question]; the dict returned has the three fields of the
    last draft. *)
Definition _generate_question (self : InterviewEngine) (topic difficulty intent : string)
    (need_hint : bool) : Q GeneratedQuestion :=
  fun env =>
    let avoid := last_n 8 (asked_questions_text self) in
    match call_generate (generate_args self topic difficulty intent need_hint avoid) env with
    | (Raise e, env1) => (Raise e, env1)
    | (Ok gen, env1) =>
        match regen_loop self topic difficulty intent need_hint avoid 0 gen env1 with
        | (Raise e, env2) => (Raise e, env2)
        | (Ok gen', env2) =>
            (Ok {| question_text := question_text gen';
                   hint := hint gen';
                   ideal_answer_short := ideal_answer_short gen' |}, env2)
        end
    end.

(** [step], statement 1: the call of the observer. *)
Definition step_analyze_args (self : InterviewEngine) (user_message : string) : AnalyzeArgs :=
  {| aa_position := position self;
     aa_grade := target_grade self;
     aa_experience := experience self;
     aa_history := history self;
     aa_last_user := user_message;
     aa_state := (state self,
                  StepExtras (last_n 8 (asked_topics self))
                             (last_n 5 (asked_questions_text self)));
     aa_current_topic := current_topic self;
     aa_current_difficulty := difficulty self;
     aa_topic_plan := topic_plan self |}.

(** [step], statement 2: the streaks. *)
Definition update_streaks (plan : ObserverOutput) (s : InterviewEngine) : InterviewEngine :=
  if 75 <=? score_0_100 plan then
    upd_state (set_streak_poor 0)
      (upd_state (fun t => set_streak_good (streak_good t + 1) t) s)
  else if (score_0_100 plan <=? 45) || py_in (answer_quality plan) ["poor"; "unknown"] then
    upd_state (set_streak_good 0)
      (upd_state (fun t => set_streak_poor (streak_poor t + 1) t) s)
  else s.

(** [step], statement 3: the planned topic of this turn, and the
    evaluation as it is after [plan.need_hint = True]. *)
Definition decide_topic (plan : ObserverOutput) : M (string * ObserverOutput) :=
  if negb (should_move_on plan) then
    self <- get_self ;;
    let planned_topic := current_topic self in
    if score_0_100 plan <=? 45 then
      assign (set_difficulty "easy") ;;
      ret (planned_topic, set_need_hint true plan)
    else ret (planned_topic, plan)
  else
    self <- get_self ;;
    if py_in (next_topic plan) (topic_plan self) then
      let planned_topic := next_topic plan in
      idx <- lift_result (py_index (topic_plan self) (next_topic plan)) ;;
      assign (upd_state (set_topic_index idx)) ;;
      ret (planned_topic, plan)
    else
      planned_topic <- _advance_topic ;;
      self <- get_self ;;
      idx <- lift_result (py_index (topic_plan self) planned_topic) ;;
      assign (upd_state (set_topic_index idx)) ;;
      ret (planned_topic, plan).

(** [step], statement 5: the internal log line. *)
Definition internal_line (planned_topic : string) (plan : ObserverOutput)
    (difficulty_now : string) : string :=
  "[Observer] planned_topic=" +++ planned_topic
  +++ ", quality=" +++ answer_quality plan
  +++ ", score=" +++ str_of_int (score_0_100 plan) +++ ", "
  +++ "offtopic=" +++ str_of_bool (detected_offtopic plan)
  +++ ", hallucination=" +++ str_of_bool (detected_hallucination plan) +++ ", "
  +++ "should_move_on=" +++ str_of_bool (should_move_on plan)
  +++ ", need_hint=" +++ str_of_bool (need_hint plan)
  +++ ", difficulty_now=" +++ difficulty_now +++ ". "
  +++ "notes=" +++ notes plan.

(** [step]. *)
Definition step (user_message : string) : M string :=
  assign (fun s => set_turn_id (turn_id s + 1) s) ;;
  _push_user user_message ;;
  plan <- call (fun self => call_analyze (step_analyze_args self user_message)) ;;
  assign (update_streaks plan) ;;
  assign _update_difficulty_by_streaks ;;
  ' (planned_topic, plan) <- decide_topic plan ;;
  assign (set_current_topic planned_topic) ;;
  gen <- call (fun self =>
           _generate_question self planned_topic (difficulty self)
             (intent plan) (need_hint plan)) ;;
  assign (fun s => set_asked_questions_text (asked_questions_text s ++ [question_text gen]) s) ;;
  assign (fun s => set_asked_topics (asked_topics s ++ [planned_topic]) s) ;;
  self <- get_self ;;
  let internal := internal_line planned_topic plan (difficulty self) in
  visible <- call (fun self =>
               call_render {| ra_history := history self;
                              ra_observer_plan := plan;
                              ra_last_user := user_message;
                              ra_question_text := question_text gen;
                              ra_hint := hint gen |}) ;;
  _push_assistant visible ;;
  assign (fun s =>
    set_logger
      (add_turn {| tl_turn_id := turn_id s;
                   tl_topic := planned_topic;
                   tl_difficulty := difficulty s;
                   tl_score_0_100 := score_0_100 plan;
                   tl_ideal_answer_short := ideal_answer_short gen;
                   tl_agent_visible_message := visible;
                   tl_user_message := user_message;
                   tl_internal_thoughts := internal |} (logger s)) s) ;;
  assign (upd_state (set_last_topic (Some planned_topic))) ;;
  assign (upd_state (set_last_intent (Some (intent plan)))) ;;
  ret visible.

Definition feedback_args (self : InterviewEngine) : FeedbackArgs :=
  {| fa_position := position self;
     fa_target_grade := target_grade self;
     fa_experience := experience self;
     fa_turns := turns (logger self);
     fa_transcript := history self |}.

(** [finish]. *)
Definition finish : M FinalFeedback :=
  feedback <- call (fun self => call_feedback (feedback_args self)) ;;
  assign (fun s => set_logger (set_final_feedback feedback (logger s)) s) ;;
  ret feedback.

(** The object as [__init__] has it when it calls the planner; the five
    attributes assigned after that call do not exist yet and are given
    empty values here. *)
Definition pre_engine (cfg : EngineConfig) : InterviewEngine :=
  {| position := cfg_position cfg;
     target_grade := cfg_target_grade cfg;
     experience := cfg_experience cfg;
     participant_name := cfg_participant_name cfg;
     lang := cfg_lang cfg;
     max_regen_attempts := cfg_max_regen_attempts cfg;
     logger := new_logger (cfg_participant_name cfg);
     turn_id := 0;
     history := [];
     state := {| last_topic := None; last_intent := None; topic_index := 0;
                 streak_good := 0; streak_poor := 0 |};
     topic_plan := [];
     current_topic := "";
     difficulty := "";
     asked_questions_text := [];
     asked_topics := [] |}.

(** [__init__], from the call of the planner on; the assignments before
    that call give [pre_engine]. *)
Definition __init__ : M unit :=
  plan <- call (fun self =>
            call_plan {| pa_position := position self;
                         pa_grade := target_grade self;
                         pa_experience := experience self;
                         pa_lang := lang self |}) ;;
  assign (set_topic_plan
            (match topics plan with [] => DEFAULT_TOPICS | ts => ts end)) ;;
  self <- get_self ;;
  first_topic <- lift_result (py_getitem (topic_plan self) 0) ;;
  assign (set_current_topic first_topic) ;;
  assign (set_difficulty "easy") ;;
  assign (set_asked_questions_text []) ;;
  assign (set_asked_topics []) ;;
  self <- get_self ;;
  let intro :=
    build_interviewer_intro (position self) (target_grade self) (experience self) in
  _push_assistant intro ;;
  first_q <- call (fun self =>
               _generate_question self (current_topic self) (difficulty self)
                 "warmup" false) ;;
  assign (fun s =>
    set_asked_questions_text (asked_questions_text s ++ [question_text first_q]) s) ;;
  assign (fun s => set_asked_topics (asked_topics s ++ [current_topic s]) s) ;;
  _push_assistant (question_text first_q).

(** [InterviewEngine(...)] in a world [w]: on [Ok] the engine returned
    is the constructed object; on [Raise] the caller gets no object. *)
Definition new_engine (cfg : EngineConfig) (w : World)
    : Result unit * InterviewEngine * Env World :=
  __init__ (pre_engine cfg) {| world := w; trace := [] |}.

(** One [step] for each user message, as the loop of [main.py] drives
    the engine; it stops at the first call that raises. *)
Fixpoint steps (msgs : list string) : M (list string) :=
  match msgs with
  | [] => ret []
  | msg :: rest =>
      visible <- step msg ;;
      more <- steps rest ;;
      ret (visible :: more)
  end.

End Engine.

(** ** Notions used to state the properties *)

Section Notions.

Context {World : Type}.
Variable B : Builtins.
Variable C : Collaborators World.

(** The engine once [step] has counted the turn and stored the user's
    message, which is all it does before it calls the observer. *)
Definition after_user (user_message : string) (s : InterviewEngine) : InterviewEngine :=
  set_history (history s ++ [{| role := "user"; content := user_message |}])
    (set_turn_id (turn_id s + 1) s).

(** The states of an engine object: the one a constructor call that
    returned has built, and the ones calls of [step] leave behind,
    whether they return or raise. *)
Inductive reachable : InterviewEngine -> Env World -> Prop :=
| reach_new (cfg : EngineConfig) (w : World) s env :
    new_engine B C cfg w = (Ok tt, s, env) -> reachable s env
| reach_step (msg : string) s env r s' env' :
    reachable s env -> step B C msg s env = (r, s', env') -> reachable s' env'.

(** The plan cursor is an offset into the plan, and the plan entry
    there is the current topic. *)
Definition cursor_ok (s : InterviewEngine) : Prop :=
  0 <= topic_index (state s) < len (topic_plan s)
  /\ py_getitem (topic_plan s) (topic_index (state s)) = Ok (current_topic s).

Definition streaks_ok (s : InterviewEngine) : Prop :=
  (streak_good (state s) = 0 \/ streak_poor (state s) = 0)
  /\ 0 <= streak_good (state s) <= 1
  /\ 0 <= streak_poor (state s) <= 1.

Definition engine_ok (s : InterviewEngine) : Prop :=
  cursor_ok s /\ streaks_ok s /\ In (difficulty s) DIFFICULTIES.

(** A collaborator method that returns on every call. *)
Definition never_raises {A R : Type} (f : A -> World -> Result R * World) : Prop :=
  forall a w, exists r w', f a w = (Ok r, w').

(** An observer whose answer to every guard call reports a mismatch. *)
Definition guard_always_mismatch : Prop :=
  forall self topic question w,
    exists out w',
      observer_analyze C (guard_args self topic question) w = (Ok out, w')
      /\ mentions_mismatch (py_lower B (notes out)) = true.

End Notions.

(** The intermediate states of a call of [step], named after the
    statement that has just run. *)

Definition after_generate (planned_topic : string) (gen : GeneratedQuestion)
    (s : InterviewEngine) : InterviewEngine :=
  set_asked_topics (asked_topics s ++ [planned_topic])
    (set_asked_questions_text (asked_questions_text s ++ [question_text gen]) s).

Definition render_args (user_message : string) (plan : ObserverOutput)
    (gen : GeneratedQuestion) (s : InterviewEngine) : RenderArgs :=
  {| ra_history := history s;
     ra_observer_plan := plan;
     ra_last_user := user_message;
     ra_question_text := question_text gen;
     ra_hint := hint gen |}.

Definition logged_turn (user_message planned_topic : string) (plan : ObserverOutput)
    (gen : GeneratedQuestion) (visible : string) (s : InterviewEngine) : TurnLog :=
  {| tl_turn_id := turn_id s;
     tl_topic := planned_topic;
     tl_difficulty := difficulty s;
     tl_score_0_100 := score_0_100 plan;
     tl_ideal_answer_short := ideal_answer_short gen;
     tl_agent_visible_message := visible;
     tl_user_message := user_message;
     tl_internal_thoughts := internal_line planned_topic plan (difficulty s) |}.

Definition after_render (user_message planned_topic : string) (plan : ObserverOutput)
    (gen : GeneratedQuestion) (visible : string) (s : InterviewEngine) : InterviewEngine :=
  let s1 := set_history (history s ++ [{| role := "assistant"; content := visible |}]) s in
  upd_state (set_last_intent (Some (intent plan)))
    (upd_state (set_last_topic (Some planned_topic))
       (set_logger
          (add_turn (logged_turn user_message planned_topic plan gen visible s1) (logger s1))
          s1)).

(** The two attributes the topic decision may assign. *)
Definition commit_policy (d : string) (idx : Z) (s : InterviewEngine) : InterviewEngine :=
  set_difficulty d (upd_state (set_topic_index idx) s).

(** What the policy of a turn reads and writes. *)
Definition policy_view (s : InterviewEngine) : list string * Z * string * Z * Z * string :=
  (topic_plan s, topic_index (state s), current_topic s,
   streak_good (state s), streak_poor (state s), difficulty s).

(** The outcome of the topic decision of a turn, for a plan [ts] with
    cursor [i], current topic [cur] and difficulty [d0]: the planned
    topic, the evaluation handed on, the difficulty and the cursor. *)
Definition topic_decision (plan : ObserverOutput) (ts : list string) (i : Z)
    (cur d0 planned : string) (plan' : ObserverOutput) (d : string) (idx : Z) : Prop :=
  0 <= idx < len ts
  /\ py_getitem ts idx = Ok planned
  /\ (d = d0 \/ d = "easy")
  /\ (plan' = plan \/ plan' = set_need_hint true plan)
  /\ (should_move_on plan = false ->
      planned = cur /\ idx = i
      /\ (score_0_100 plan <= 45 -> d = "easy" /\ plan' = set_need_hint true plan)
      /\ (45 < score_0_100 plan -> d = d0 /\ plan' = plan))
  /\ (should_move_on plan = true ->
      d = d0 /\ plan' = plan
      /\ py_index ts planned = Ok idx
      /\ (py_in (next_topic plan) ts = true -> planned = next_topic plan)
      /\ (py_in (next_topic plan) ts = false ->
          py_getitem ts (Z.min (i + 1) (len ts - 1)) = Ok planned)).

(** A retry of the generator repeats the topic, difficulty and hint flag
    and marks the intent. *)
Definition retry_call (topic difficulty intent : string) (need_hint : bool)
    (c : GenerateArgs * Result GeneratedQuestion) : Prop :=
  ga_topic (fst c) = topic /\ ga_difficulty (fst c) = difficulty
  /\ ga_need_hint (fst c) = need_hint
  /\ ga_intent (fst c) = intent +++ "_REGEN_TOPIC_MISMATCH".

(** The states of the constructor: before the warm-up question is
    generated, and when it returns. *)

Definition plan_args (cfg : EngineConfig) : PlanArgs :=
  {| pa_position := cfg_position cfg;
     pa_grade := cfg_target_grade cfg;
     pa_experience := cfg_experience cfg;
     pa_lang := cfg_lang cfg |}.

Definition before_warmup (cfg : EngineConfig) (ts : list string) (first_topic : string)
    : InterviewEngine :=
  {| position := cfg_position cfg;
     target_grade := cfg_target_grade cfg;
     experience := cfg_experience cfg;
     participant_name := cfg_participant_name cfg;
     lang := cfg_lang cfg;
     max_regen_attempts := cfg_max_regen_attempts cfg;
     logger := new_logger (cfg_participant_name cfg);
     turn_id := 0;
     history :=
       [{| role := "assistant";
           content := build_interviewer_intro (cfg_position cfg) (cfg_target_grade cfg)
                        (cfg_experience cfg) |}];
     state := {| last_topic := None; last_intent := None; topic_index := 0;
                 streak_good := 0; streak_poor := 0 |};
     topic_plan := ts;
     current_topic := first_topic;
     difficulty := "easy";
     asked_questions_text := [];
     asked_topics := [] |}.

Definition after_warmup (first_q : GeneratedQuestion) (s : InterviewEngine) : InterviewEngine :=
  set_history (history s ++ [{| role := "assistant"; content := question_text first_q |}])
    (set_asked_topics (asked_topics s ++ [current_topic s])
       (set_asked_questions_text (asked_questions_text s ++ [question_text first_q]) s)).

(** [plan.topics or [...]]. *)
Definition topics_or_default (plan : TopicPlan) : list string :=
  match topics plan with [] => DEFAULT_TOPICS | ts => ts end.

Definition generate_calls (tr : list Event) : list (GenerateArgs * Result GeneratedQuestion) :=
  flat_map (fun ev => match ev with EvGenerate a r => [(a, r)] | _ => [] end) tr.

(** The outcome of the last call in [calls], [r0] if there is none. *)
Definition last_outcome (r0 : Result GeneratedQuestion)
    (calls : list (GenerateArgs * Result GeneratedQuestion)) : Result GeneratedQuestion :=
  fold_left (fun _ c => snd c) calls r0.

(** Each retry is told to avoid [base] and then the draft that the call
    before it returned. *)
Fixpoint retries_avoid (base : list string) (prev : Result GeneratedQuestion)
    (calls : list (GenerateArgs * Result GeneratedQuestion)) : Prop :=
  match calls with
  | [] => True
  | (a, r) :: rest =>
      (exists g, prev = Ok g /\ ga_avoid_questions a = base ++ [question_text g])
      /\ retries_avoid base r rest
  end.

(** The history entries of completed turns. *)
Fixpoint dialogue (msgs visibles : list string) : list Message :=
  match msgs, visibles with
  | m :: ms, v :: vs =>
      {| role := "user"; content := m |} :: {| role := "assistant"; content := v |}
      :: dialogue ms vs
  | _, _ => []
  end.

(** ** The difficulty rule as the specification words it

    Streaks first: a score of 75 or more counts as good and clears the poor
    streak; otherwise a score of 45 or less, or a quality of poor or
    unknown, counts as poor and clears the good streak; otherwise nothing
    changes.  Then the transition: a good streak of 2 promotes and is
    reset, else a poor streak of 2 demotes and is reset. *)

Definition spec_streaks (score : Z) (quality : string) (good poor : Z) : Z * Z :=
  if 75 <=? score then (good + 1, 0)
  else if (score <=? 45) || String.eqb quality "poor" || String.eqb quality "unknown"
       then (0, poor + 1)
       else (good, poor).

Definition spec_promote (d : string) : string :=
  if String.eqb d "easy" then "medium"
  else if String.eqb d "medium" then "hard"
  else d.

Definition spec_demote (d : string) : string :=
  if String.eqb d "hard" then "medium"
  else if String.eqb d "medium" then "easy"
  else d.

Definition spec_transition (d : string) (good poor : Z) : string * Z * Z :=
  if 2 <=? good then (spec_promote d, 0, poor)
  else if 2 <=? poor then (spec_demote d, good, 0)
  else (d, good, poor).

(** ** Sample collaborators

    Small stand-ins for the agents, used to run the engine on concrete
    sessions.  The world is a script of evaluations still to be returned
    and a counter of the drafts generated so far. *)

Definition ascii_lower_char (c : ascii) : ascii :=
  let n := nat_of_ascii c in
  if ((65 <=? n) && (n <=? 90))%nat then ascii_of_nat (n + 32) else c.

(** [str.lower] on ASCII text. *)
Fixpoint ascii_lower (s : string) : string :=
  match s with
  | EmptyString => EmptyString
  | String c s' => String (ascii_lower_char c) (ascii_lower s')
  end.

Definition is_ascii_space (c : ascii) : bool :=
  let n := nat_of_ascii c in
  (((9 <=? n) && (n <=? 13)) || ((28 <=? n) && (n <=? 32)))%nat.

Fixpoint lstrip (s : string) : string :=
  match s with
  | String c s' => if is_ascii_space c then lstrip s' else s
  | EmptyString => EmptyString
  end.

Fixpoint rstrip (s : string) : string :=
  match s with
  | EmptyString => EmptyString
  | String c s' =>
      match rstrip s' with
      | EmptyString => if is_ascii_space c then EmptyString else String c EmptyString
      | r => String c r
      end
  end.

(** [str.strip] on ASCII text. *)
Definition ascii_strip (s : string) : string := rstrip (lstrip s).

(** The builtins for the sample sessions, an interpreter before Python
    3.12; [str] is exact on the empty list, the only list a sample
    formats. *)
Definition ascii_builtins : Builtins :=
  {| py_strip := ascii_strip;
     py_lower := ascii_lower;
     py_str_list := fun xs => match xs with [] => "[]" | _ => "[...]" end;
     dict_slice_exc := TypeError |}.

(** An evaluation with the given score, quality, move-on flag, next topic
    and hint flag. *)
Definition evaluation (score : Z) (quality : string) (move_on : bool)
    (next : string) (hint_flag : bool) : ObserverOutput :=
  {| detected_offtopic := false;
     detected_hallucination := false;
     answer_quality := quality;
     score_0_100 := score;
     next_difficulty := "easy";
     next_topic := next;
     intent := "check_basics";
     should_move_on := move_on;
     need_hint := hint_flag;
     acknowledge := "Ok.";
     notes := "" |}.

Definition SampleWorld : Type := (list ObserverOutput * Z)%type.

(** A planner that returns the given topics. *)
Definition sample_planner (ts : list string) (a : PlanArgs) (w : SampleWorld)
    : Result TopicPlan * SampleWorld :=
  (Ok {| topics := ts |}, w).

(** An observer that answers a guard call with the given notes and any
    other call with the next evaluation of the script; it raises when the
    script is used up. *)
Definition sample_observer (guard_notes : string) (a : AnalyzeArgs) (w : SampleWorld)
    : Result ObserverOutput * SampleWorld :=
  match snd (aa_state a) with
  | GuardExtras _ _ _ =>
      (Ok {| detected_offtopic := false;
             detected_hallucination := false;
             answer_quality := "unknown";
             score_0_100 := 50;
             next_difficulty := "easy";
             next_topic := aa_current_topic a;
             intent := "guard";
             should_move_on := false;
             need_hint := false;
             acknowledge := "";
             notes := guard_notes |}, w)
  | StepExtras _ _ =>
      match fst w with
      | [] => (Raise RequestException, w)
      | o :: rest => (Ok o, (rest, snd w))
      end
  end.

(** A generator whose n-th draft is ["q" + str(n)], with a hint exactly
    when one is asked for. *)
Definition sample_qgen (a : GenerateArgs) (w : SampleWorld)
    : Result GeneratedQuestion * SampleWorld :=
  (Ok {| question_text := "q" +++ str_of_int (snd w);
         hint := if ga_need_hint a then "think" else "";
         ideal_answer_short := "ideal" |}, (fst w, snd w + 1)).

(** An interviewer that says the acknowledgment and the question. *)
Definition sample_interviewer (a : RenderArgs) (w : SampleWorld)
    : Result string * SampleWorld :=
  (Ok (acknowledge (ra_observer_plan a) +++ " " +++ ra_question_text a), w).

(** A hiring manager whose backend is unreachable. *)
Definition sample_manager (a : FeedbackArgs) (w : SampleWorld)
    : Result FinalFeedback * SampleWorld :=
  (Raise RequestException, w).

(** An observer that gives the same evaluation to every call. *)
Definition constant_observer (o : ObserverOutput) (a : AnalyzeArgs) (w : SampleWorld)
    : Result ObserverOutput * SampleWorld :=
  (Ok o, w).

Definition sample_collaborators (ts : list string)
    (obs : AnalyzeArgs -> SampleWorld -> Result ObserverOutput * SampleWorld)
    : Collaborators SampleWorld :=
  {| planner_build_plan := sample_planner ts;
     observer_analyze := obs;
     qgen_generate := sample_qgen;
     interviewer_render_message := sample_interviewer;
     hiring_manager_build_feedback := sample_manager |}.

Definition sample_config (attempts : Z) : EngineConfig :=
  {| cfg_position := "Backend Developer";
     cfg_target_grade := "Junior";
     cfg_experience := "Python";
     cfg_participant_name := "Candidate";
     cfg_lang := "ru";
     cfg_max_regen_attempts := attempts |}.

(** The session with the sample collaborators: the constructor, then one
    step for each message, the observer following the script. *)
Definition sample_session (ts : list string) (guard_notes : string) (attempts : Z)
    (script : list ObserverOutput) (msgs : list string)
    : Result (list string) * InterviewEngine * Env SampleWorld :=
  let C := sample_collaborators ts (sample_observer guard_notes) in
  match new_engine ascii_builtins C (sample_config attempts) (script, 0) with
  | (Ok _, s, env) => steps ascii_builtins C msgs s env
  | (Raise e, s, env) => (Raise e, s, env)
  end.

(** The three components of what a method call leaves. *)
Definition session_result {A W : Type} (x : Result A * InterviewEngine * Env W)
    : Result A := fst (fst x).
Definition session_engine {A W : Type} (x : Result A * InterviewEngine * Env W)
    : InterviewEngine := snd (fst x).
Definition session_env {A W : Type} (x : Result A * InterviewEngine * Env W)
    : Env W := snd x.

(** A backend for the agents that replays scripted replies and decodes
    only the empty JSON object; it raises when the script is used up.
    On [{}] pydantic fills in the defaults of [TopicPlan] and
    [ObserverOutput] and rejects the two schemas with required fields. *)
Inductive ToyJson : Type := EmptyObject.

Definition toy_backend : Backend (list string) ToyJson :=
  {| client_chat := fun _ _ _ _ w =>
       match w with
       | [] => (Raise RequestException, [])
       | reply :: rest => (Ok (PyStr reply), rest)
       end;
     json_loads := fun s =>
       if String.eqb s "{}" then Ok EmptyObject else Raise JSONDecodeError;
     TopicPlan_model_validate := fun _ => Ok {| topics := [] |};
     ObserverOutput_model_validate := fun _ =>
       Ok {| detected_offtopic := false;
             detected_hallucination := false;
             answer_quality := "unknown";
             score_0_100 := 50;
             next_difficulty := "easy";
             next_topic := "general_basics";
             intent := "check_basics";
             should_move_on := true;
             need_hint := false;
             acknowledge := "Понял.";
             notes := "" |};
     GeneratedQuestion_model_validate := fun _ => Raise ValidationError;
     FinalFeedback_model_validate := fun _ => Raise ValidationError;
     planner_user_prompt := fun _ => "plan";
     observer_user_prompt := fun _ => "analyze";
     qgen_user_prompt := fun _ => "generate";
     interviewer_user_prompt := fun _ => "render";
     manager_user_prompt := fun _ => "feedback" |}.

Definition toy_agents : Collaborators (list string) :=
  agents_of ascii_builtins toy_backend "m" "m" "m".

(** ** Sample sessions *)

Definition plan_abc : list string := ["a"; "b"; "c"].

Definition plan_aba : list string := ["a"; "b"; "a"].

(** Collaborators whose guard accepts every draft. *)
Definition relaxed (ts : list string) : Collaborators SampleWorld :=
  sample_collaborators ts (sample_observer "").

(** Collaborators whose guard rejects every draft. *)
Definition strict (ts : list string) : Collaborators SampleWorld :=
  sample_collaborators ts (sample_observer "Topic MISMATCH.").

(** An observer that rejects every draft, moves on to topic b on every
    answer, and never raises. *)
Definition steady_mismatch : ObserverOutput :=
  {| detected_offtopic := false;
     detected_hallucination := false;
     answer_quality := "partial";
     score_0_100 := 60;
     next_difficulty := "easy";
     next_topic := "b";
     intent := "check_basics";
     should_move_on := true;
     need_hint := false;
     acknowledge := "Ok.";
     notes := "Topic MISMATCH." |}.

Definition steady : Collaborators SampleWorld :=
  sample_collaborators plan_abc (constant_observer steady_mismatch).

(** The session these collaborators start. *)
Definition steady_start : Result unit * InterviewEngine * Env SampleWorld :=
  new_engine ascii_builtins steady (sample_config 1) ([], 0).

(** A reply of the backend that holds no JSON. *)
Definition no_json : string := "Sorry, I cannot produce a report.".

(** One more call of [step] on what a session has left. *)
Definition next_step {A : Type} (C : Collaborators SampleWorld) (msg : string)
    (x : Result A * InterviewEngine * Env SampleWorld)
    : Result string * InterviewEngine * Env SampleWorld :=
  step ascii_builtins C msg (session_engine x) (session_env x).

(** A session that has just been constructed, the observer holding one
    evaluation: a weak answer, stay on the topic. *)
Definition weak_stay : ObserverOutput := evaluation 30 "poor" false "a" false.

Definition fresh_weak_stay : Result (list string) * InterviewEngine * Env SampleWorld :=
  sample_session plan_abc "" 1 [weak_stay] [].

(** Two strong answers, which promote to medium, then a weak answer on
    which the observer says to move on. *)
Definition weak_move : ObserverOutput := evaluation 30 "poor" true "a" false.

Definition promoted : Result (list string) * InterviewEngine * Env SampleWorld :=
  sample_session plan_abc "" 1
    [evaluation 80 "good" true "b" false; evaluation 80 "good" true "c" false; weak_move]
    ["m1"; "m2"].

(** Eight turns under a guard that rejects every draft. *)
Definition so_so : ObserverOutput := evaluation 60 "partial" false "a" false.

Definition eight_turns : Result (list string) * InterviewEngine * Env SampleWorld :=
  sample_session plan_abc "Topic MISMATCH." 1 (repeat so_so 8)
    ["m1"; "m2"; "m3"; "m4"; "m5"; "m6"; "m7"; "m8"].

(** A plan with a repeated entry: one turn moves to b, then the observer
    recommends a topic outside the plan. *)
Definition off_plan : ObserverOutput := evaluation 60 "partial" true "zzz" false.

Definition on_b_of_aba : Result (list string) * InterviewEngine * Env SampleWorld :=
  sample_session plan_aba "" 1 [evaluation 80 "good" true "b" false; off_plan] ["m1"].

(** The same with the plan a, b, c. *)
Definition on_b_of_abc : Result (list string) * InterviewEngine * Env SampleWorld :=
  sample_session plan_abc "" 1 [evaluation 80 "good" true "b" false; off_plan] ["m1"].

(** Eight turns with the agents of [agents.py] on a backend whose every
    reply is the same sentence, which is not JSON and mentions a
    mismatch: each agent falls back, and the observer's fallback notes
    quote the reply, so the guard rejects every draft. *)
Definition eight_turns_unparsable : Result (list string) * InterviewEngine * Env (list string) :=
  match new_engine ascii_builtins toy_agents (sample_config 1)
          (repeat "topic mismatch" 44) with
  | (Ok _, s, env) =>
      steps ascii_builtins toy_agents
        ["m1"; "m2"; "m3"; "m4"; "m5"; "m6"; "m7"; "m8"] s env
  | (Raise e, s, env) => (Raise e, s, env)
  end.

(** One more run of the question-generation step after the eight turns. *)
Definition ninth_run : Result GeneratedQuestion * Env SampleWorld :=
  _generate_question ascii_builtins (strict plan_abc) (session_engine eight_turns)
    "a" "easy" "check_basics" false (session_env eight_turns).

(** Two completed turns. *)
Definition two_turns : Result (list string) * InterviewEngine * Env SampleWorld :=
  sample_session plan_abc "" 1
    [evaluation 80 "good" true "b" false; evaluation 50 "partial" false "b" false; so_so]
    ["m1"; "m2"].

(** An observer whose backend cannot be reached while the candidate's
    message is [offline], and which follows the script otherwise. *)
Definition outage_observer (a : AnalyzeArgs) (w : SampleWorld)
    : Result ObserverOutput * SampleWorld :=
  if String.eqb (aa_last_user a) "offline"
  then (Raise RequestException, w)
  else sample_observer "" a w.

Definition flaky : Collaborators SampleWorld :=
  sample_collaborators plan_abc outage_observer.

(** A session in which the first call of [step] raises and the second
    returns. *)
Definition flaky_start : Result unit * InterviewEngine * Env SampleWorld :=
  new_engine ascii_builtins flaky (sample_config 1) ([so_so], 0).

Definition after_outage : Result string * InterviewEngine * Env SampleWorld :=
  next_step flaky "offline" flaky_start.

Definition after_recovery : Result string * InterviewEngine * Env SampleWorld :=
  next_step flaky "m2" after_outage.

(** * The rest of the program *)

(** ** Further builtins *)

(** [c in s] for a one-character pattern. *)
Fixpoint occurs (c : ascii) (s : string) : bool :=
  match s with
  | EmptyString => false
  | String c' s' => Ascii.eqb c c' || occurs c s'
  end.

(** [len(s)] for a string: the bytes that start a character. *)
Fixpoint char_count (s : string) : nat :=
  match s with
  | EmptyString => 0
  | String c s' => if is_continuation c then char_count s' else S (char_count s')
  end.

(** [s.rstrip("/")]. *)
Fixpoint rstrip_slash (s : string) : string :=
  match s with
  | EmptyString => EmptyString
  | String c s' =>
      match rstrip_slash s' with
      | EmptyString => if Ascii.eqb c "/" then EmptyString else String c EmptyString
      | r => String c r
      end
  end.

(** ["/" * k]. *)
Fixpoint slashes (k : nat) : string :=
  match k with
  | O => EmptyString
  | S k' => String "/" (slashes k')
  end.

(** ** [logger.py]: the export *)

(** [dataclasses.asdict] of a [TurnLog]: the fields in declaration order. *)
Definition asdict (t : TurnLog) : PyValue :=
  PyDict [ ("turn_id", PyInt (tl_turn_id t));
           ("topic", PyStr (tl_topic t));
           ("difficulty", PyStr (tl_difficulty t));
           ("score_0_100", PyInt (tl_score_0_100 t));
           ("ideal_answer_short", PyStr (tl_ideal_answer_short t));
           ("agent_visible_message", PyStr (tl_agent_visible_message t));
           ("user_message", PyStr (tl_user_message t));
           ("internal_thoughts", PyStr (tl_internal_thoughts t)) ].

(** [FinalFeedback.model_dump], which [finish] applies to the report
    before it stores it in the logger and returns it. *)
Definition model_dump (f : FinalFeedback) : PyValue :=
  PyDict [ ("grade", PyStr (grade f));
           ("hiring_recommendation", PyStr (hiring_recommendation f));
           ("confidence_score_0_100", PyInt (confidence_score_0_100 f));
           ("confirmed_skills", PyList (map PyStr (confirmed_skills f)));
           ("knowledge_gaps", PyList (map PyStr (knowledge_gaps f)));
           ("corrections", PyList (map PyStr (corrections f)));
           ("clarity", PyStr (clarity f));
           ("honesty", PyStr (honesty f));
           ("engagement", PyStr (engagement f));
           ("roadmap", PyList (map PyStr (roadmap f))) ].

(** [InterviewLogger.to_dict]. *)
Definition to_dict (l : InterviewLogger) : PyValue :=
  PyDict [ ("participant_name", PyStr (lg_participant_name l));
           ("turns", PyList (map asdict (turns l)));
           ("final_feedback",
            match final_feedback l with
            | Some f => model_dump f
            | None => PyNone
            end) ].

(** ** [ollama_client.py] *)

Record OllamaClient : Type := {
  base_url : string;
  timeout : Z
}.

(** [OllamaClient.__init__]; the defaults are ["http://localhost:11434"]
    and [300]. *)
Definition OllamaClient_init (base_url : string) (timeout : Z) : OllamaClient :=
  {| base_url := rstrip_slash base_url; timeout := timeout |}.

(** What [chat] can raise: an exception of the [requests] library (from
    [post], [raise_for_status] or [json]), or the [KeyError] or the
    [TypeError] of a subscript. *)
Inductive ChatExc (LibExc : Type) : Type :=
| RequestsExc (e : LibExc)
| SubscriptExc (e : PyExc).
Arguments SubscriptExc {LibExc} e.

(** A [requests.Response], by what the two methods called on it do:
    [raise_for_status] returns or raises, [json] raises or returns the
    decoded body. *)
Record Response (LibExc : Type) : Type := {
  raise_for_status : option LibExc;
  json : LibExc + PyValue
}.

Definition message_dict (m : Message) : PyValue :=
  PyDict [("role", PyStr (role m)); ("content", PyStr (content m))].

(** The request body of [chat]: the keys [format] and [options] are
    added when the arguments are truthy. *)
Definition chat_payload (model : string) (messages : list Message)
    (format : option string) (options : option (list (string * PyValue)))
    : list (string * PyValue) :=
  [ ("model", PyStr model);
    ("messages", PyList (map message_dict messages));
    ("stream", PyBool false) ]
  ++ match format with
     | Some f => if str_is_empty f then [] else [("format", PyStr f)]
     | None => []
     end
  ++ match options with
     | Some (b :: bs) => [("options", PyDict (b :: bs))]
     | _ => []
     end.

(** [v[key]] for a string key: a [dict] is looked up, anything else
    cannot be subscripted by a string. *)
Definition py_subscript {LibExc : Type} (v : PyValue) (key : string)
    : ChatExc LibExc + PyValue :=
  match v with
  | PyDict kvs =>
      match dict_get key kvs with
      | Some x => inr x
      | None => inl (SubscriptExc KeyError)
      end
  | _ => inl (SubscriptExc TypeError)
  end.

Section Client.

(** The network and the server behind [requests.post], and the
    exceptions of the [requests] library. *)
Variables Net LibExc : Type.
Variable requests_post :
  string -> list (string * PyValue) -> Z -> Net -> (LibExc + Response LibExc) * Net.

(** [OllamaClient.chat].  The value returned is whatever the response
    holds under [message] and [content]. *)
Definition OllamaClient_chat (self : OllamaClient) (model : string)
    (messages : list Message) (format : option string)
    (options : option (list (string * PyValue))) (n : Net)
    : (ChatExc LibExc + PyValue) * Net :=
  let payload := chat_payload model messages format options in
  let url := base_url self +++ "/api/chat" in
  match requests_post url payload (timeout self) n with
  | (inl e, n') => (inl (RequestsExc e), n')
  | (inr resp, n') =>
      match raise_for_status resp with
      | Some e => (inl (RequestsExc e), n')
      | None =>
          match json resp with
          | inl e => (inl (RequestsExc e), n')
          | inr data =>
              (match py_subscript data "message" with
               | inl e => inl e
               | inr message => py_subscript message "content"
               end, n')
          end
      end
  end.

End Client.

(** ** [main.py]: the interactive mode *)

(** The parsed command line of the interactive mode. *)
Record Args : Type := {
  arg_ollama_url : string;
  arg_interviewer_model : string;
  arg_observer_model : string;
  arg_manager_model : string;
  arg_name : string;
  arg_position : string;
  arg_grade : string;
  arg_experience : string
}.

(** What a run can raise: an exception of the engine, the [EOFError] of
    [input] at the end of the input, or the [OSError] of [save]. *)
Inductive MainExc : Type :=
| EngineExc (e : PyExc)
| EOFError
| OSError.

Definition STOP_WORDS : list string := ["стоп"; "stop"; "стоп интервью"].

(** [print(x)]: the text and a line feed are written to the terminal. *)
Definition py_print (x : string) (stdout : list string) : list string :=
  stdout ++ [x +++ nl].

(** What a run leaves: the exception raised if any, the engine and the
    backend, the text written to the terminal, the lines of the input
    not read, and the disk. *)
Record Run (World Disk : Type) : Type := {
  run_raised : option MainExc;
  run_engine : InterviewEngine;
  run_env : Env World;
  run_stdout : list string;
  run_unread : list string;
  run_disk : Disk
}.

Section Main.

Variables World Json Disk : Type.
Variable B : Builtins.

(** The client constructed for a base URL, with the JSON decoder, the
    schemas and the prompt templates the agents use. *)
Variable backend_at : string -> Backend World Json.

(** [json.dumps(v, ensure_ascii=False, indent=2)]. *)
Variable json_dumps : PyValue -> string.

(** The effect on the disk of creating the parent directories of a path
    and writing the text of a value to it: the flag tells whether the
    calls returned or one of them raised [OSError], and the disk is the
    one they leave in either case. *)
Variable write_json : string -> PyValue -> Disk -> bool * Disk.

(** [InterviewLogger.save]. *)
Definition InterviewLogger_save (self : InterviewLogger) (path : string) (disk : Disk)
    : bool * Disk :=
  write_json path (to_dict self) disk.

(** The [while True] loop of [run_interactive], over the lines that
    [input] has still to return; [input] writes its prompt and raises
    [EOFError] when no line is left. *)
Fixpoint interactive_loop (C : Collaborators World) (lines : list string)
    (engine : InterviewEngine) (env : Env World) (stdout : list string)
    : option MainExc * InterviewEngine * Env World * list string * list string :=
  match lines with
  | [] => (Some EOFError, engine, env, stdout ++ ["YOU> "], [])
  | line :: rest =>
      let stdout := stdout ++ ["YOU> "] in
      let user_msg := py_strip B line in
      if str_is_empty user_msg then interactive_loop C rest engine env stdout
      else if py_in (py_lower B user_msg) STOP_WORDS then (None, engine, env, stdout, rest)
      else
        match step B C user_msg engine env with
        | (Raise e, engine', env') => (Some (EngineExc e), engine', env', stdout, rest)
        | (Ok bot_msg, engine', env') =>
            interactive_loop C rest engine' env'
              (py_print (nl +++ "BOT> " +++ bot_msg +++ nl) stdout)
        end
  end.

(** [run_interactive]; [now] is what
    [datetime.now().strftime("%Y%m%d_%H%M%S")] returns. *)
Definition run_interactive (args : Args) (now : string) (lines : list string)
    (w : World) (disk : Disk) : Run World Disk :=
  let C := agents_of B (backend_at (arg_ollama_url args))
             (arg_interviewer_model args) (arg_observer_model args)
             (arg_manager_model args) in
  let cfg := {| cfg_position := arg_position args;
                cfg_target_grade := arg_grade args;
                cfg_experience := arg_experience args;
                cfg_participant_name := arg_name args;
                cfg_lang := "ru";
                cfg_max_regen_attempts := 1 |} in
  match new_engine B C cfg w with
  | (Raise e, engine, env) =>
      {| run_raised := Some (EngineExc e); run_engine := engine; run_env := env;
         run_stdout := []; run_unread := lines; run_disk := disk |}
  | (Ok _, engine, env) =>
      let stdout := py_print (nl +++ "=== Interview started ===") [] in
      let stdout :=
        py_print (String.concat nl (get_all_assistant_messages engine)) stdout in
      let stdout :=
        py_print ("Напишите " +++ dq +++ "стоп" +++ dq +++ " чтобы завершить." +++ nl)
          stdout in
      match interactive_loop C lines engine env stdout with
      | (Some e, engine, env, stdout, rest) =>
          {| run_raised := Some e; run_engine := engine; run_env := env;
             run_stdout := stdout; run_unread := rest; run_disk := disk |}
      | (None, engine, env, stdout, rest) =>
          match finish C engine env with
          | (Raise e, engine, env) =>
              {| run_raised := Some (EngineExc e); run_engine := engine; run_env := env;
                 run_stdout := stdout; run_unread := rest; run_disk := disk |}
          | (Ok feedback, engine, env) =>
              let stdout := py_print (nl +++ "=== FINAL FEEDBACK (JSON) ===") stdout in
              let stdout := py_print (json_dumps (model_dump feedback)) stdout in
              let out_path := "logs/interview_" +++ now +++ ".json" in
              match InterviewLogger_save (logger engine) out_path disk with
              | (false, disk') =>
                  {| run_raised := Some OSError; run_engine := engine; run_env := env;
                     run_stdout := stdout; run_unread := rest; run_disk := disk' |}
              | (true, disk') =>
                  {| run_raised := None; run_engine := engine; run_env := env;
                     run_stdout := py_print (nl +++ "Saved log to: " +++ out_path) stdout;
                     run_unread := rest; run_disk := disk' |}
              end
          end
      end
  end.

End Main.

(** ** Further notions used to state the properties *)

(** The engine once a call of [step] has stored the user's message, run
    the streak phase and committed the topic of the turn: the streaks
    [g] and [p], the difficulty [d], the cursor [idx] and the topic
    [planned] are all that has changed since [after_user]. *)
Definition after_decision (msg d : string) (g p idx : Z) (planned : string)
    (s : InterviewEngine) : InterviewEngine :=
  set_current_topic planned
    (set_difficulty d
       (upd_state (fun t => set_topic_index idx (set_streak_poor p (set_streak_good g t)))
          (after_user msg s))).

(** The messages of a history that have the given role. *)
Definition with_role (r : string) (h : list Message) : list Message :=
  filter (fun m => String.eqb (role m) r) h.

(** The rank of a difficulty: easy 0, medium 1, hard 2. *)
Definition level (d : string) : Z :=
  if String.eqb d "easy" then 0 else if String.eqb d "medium" then 1 else 2.

(** A chat client that returns a text, that is a [str], to every
    request. *)
Definition chat_always_returns_text {World Json : Type} (K : Backend World Json) : Prop :=
  forall model msgs fmt temperature w,
    exists raw w', client_chat K model msgs fmt temperature w = (Ok (PyStr raw), w').

(** A line of the input that ends the interview: stripped, it is not
    empty and, in lower case, it is a stop word. *)
Definition is_stop_line (B : Builtins) (line : string) : bool :=
  negb (str_is_empty (py_strip B line))
  && py_in (py_lower B (py_strip B line)) STOP_WORDS.

(** The answers among the lines: stripped, the ones that are not blank. *)
Definition answers (B : Builtins) (lines : list string) : list string :=
  filter (fun m => negb (str_is_empty m)) (map (py_strip B) lines).

(** ** Further sample sessions *)

(** A reply that wraps the empty JSON object in prose. *)
Definition wrapped_reply : string := "Sure: {} ok".

(** The session that the agents of [agents.py] start on the scripted
    backend. *)
Definition toy_start (replies : list string)
    : Result unit * InterviewEngine * Env (list string) :=
  new_engine ascii_builtins toy_agents (sample_config 1) replies.

(** Seven replies that are the empty JSON object; the constructor uses
    three of them (the plan, the warm-up draft, the guard). *)
Definition toy_json_start : Result unit * InterviewEngine * Env (list string) :=
  toy_start (repeat "{}" 7).

(** Seven replies that are not JSON. *)
Definition toy_noise_start : Result unit * InterviewEngine * Env (list string) :=
  toy_start (repeat "nonsense" 7).

(** One more call of [step] with the agents of [agents.py]. *)
Definition toy_step {A : Type} (msg : string)
    (x : Result A * InterviewEngine * Env (list string))
    : Result string * InterviewEngine * Env (list string) :=
  step ascii_builtins toy_agents msg (session_engine x) (session_env x).

(** The evaluation that validation makes of the empty JSON object: the
    defaults of [ObserverOutput]. *)
Definition toy_evaluation : ObserverOutput :=
  {| detected_offtopic := false;
     detected_hallucination := false;
     answer_quality := "unknown";
     score_0_100 := 50;
     next_difficulty := "easy";
     next_topic := "general_basics";
     intent := "check_basics";
     should_move_on := true;
     need_hint := false;
     acknowledge := "Понял.";
     notes := "" |}.

(** A backend whose client replies with the empty JSON object to every
    request. *)
Definition replying_backend : Backend unit ToyJson :=
  {| client_chat := fun _ _ _ _ w => (Ok (PyStr "{}"), w);
     json_loads := json_loads toy_backend;
     TopicPlan_model_validate := TopicPlan_model_validate toy_backend;
     ObserverOutput_model_validate := ObserverOutput_model_validate toy_backend;
     GeneratedQuestion_model_validate := GeneratedQuestion_model_validate toy_backend;
     FinalFeedback_model_validate := FinalFeedback_model_validate toy_backend;
     planner_user_prompt := planner_user_prompt toy_backend;
     observer_user_prompt := observer_user_prompt toy_backend;
     qgen_user_prompt := qgen_user_prompt toy_backend;
     interviewer_user_prompt := interviewer_user_prompt toy_backend;
     manager_user_prompt := manager_user_prompt toy_backend |}.

(** A backend like [toy_backend] whose scripted replies are any JSON
    values. *)
Definition scripted_backend : Backend (list PyValue) ToyJson :=
  {| client_chat := fun _ _ _ _ w =>
       match w with
       | [] => (Raise RequestException, [])
       | reply :: rest => (Ok reply, rest)
       end;
     json_loads := json_loads toy_backend;
     TopicPlan_model_validate := TopicPlan_model_validate toy_backend;
     ObserverOutput_model_validate := ObserverOutput_model_validate toy_backend;
     GeneratedQuestion_model_validate := GeneratedQuestion_model_validate toy_backend;
     FinalFeedback_model_validate := FinalFeedback_model_validate toy_backend;
     planner_user_prompt := planner_user_prompt toy_backend;
     observer_user_prompt := observer_user_prompt toy_backend;
     qgen_user_prompt := qgen_user_prompt toy_backend;
     interviewer_user_prompt := interviewer_user_prompt toy_backend;
     manager_user_prompt := manager_user_prompt toy_backend |}.

Definition scripted_agents : Collaborators (list PyValue) :=
  agents_of ascii_builtins scripted_backend "m" "m" "m".

(** A session on that backend: three text replies for the constructor,
    then a null reply to the evaluation request of the first turn. *)
Definition null_reply_start : Result unit * InterviewEngine * Env (list PyValue) :=
  new_engine ascii_builtins scripted_agents (sample_config 1)
    [PyStr "{}"; PyStr "{}"; PyStr "{}"; PyNone].

Definition null_reply_step : Result string * InterviewEngine * Env (list PyValue) :=
  step ascii_builtins scripted_agents "m1"
    (session_engine null_reply_start) (session_env null_reply_start).

(** A session constructed with [max_regen_attempts = 0] under a guard
    that would reject every draft. *)
Definition no_retry_start : Result (list string) * InterviewEngine * Env SampleWorld :=
  sample_session plan_abc "Topic MISMATCH." 0 [] [].

(** A session whose observer has no evaluation left: the next call of
    [step] raises. *)
Definition silent_start : Result (list string) * InterviewEngine * Env SampleWorld :=
  sample_session plan_abc "" 1 [] [].

(** The script of the session of two completed turns. *)
Definition two_turns_script : list ObserverOutput :=
  [evaluation 80 "good" true "b" false; evaluation 50 "partial" false "b" false; so_so].

(** An interactive run on the scripted backend, with a disk that keeps
    every document written. *)
Definition sample_args : Args :=
  {| arg_ollama_url := "http://localhost:11434/";
     arg_interviewer_model := "m";
     arg_observer_model := "m";
     arg_manager_model := "m";
     arg_name := "Candidate";
     arg_position := "Backend Developer";
     arg_grade := "Junior";
     arg_experience := "Python" |}.

Definition sample_disk : Type := list (string * PyValue).

Definition sample_write (path : string) (v : PyValue) (disk : sample_disk)
    : bool * sample_disk :=
  (true, (path, v) :: disk).

Definition sample_run (lines replies : list string) : Run (list string) sample_disk :=
  run_interactive ascii_builtins (fun _ => toy_backend) (fun _ => "{}") sample_write
    sample_args "20260101_120000" lines replies [].

(** One answer, a blank line, the stop word in upper case, and a line
    that is never read. *)
Definition sample_lines : list string := ["hello"; "  "; "STOP"; "ignored"].

(** * Properties *)

Unset Implicit Arguments.

(** ** Lists and offsets *)

Lemma py_in_In x xs : py_in x xs = true <-> In x xs.
Proof.
  unfold py_in. rewrite existsb_exists. split.
  - intros (y & Hy & E). apply String.eqb_eq in E. now subst.
  - intros H. exists x. split; [assumption | apply String.eqb_refl].
Qed.

Lemma len_nonneg {A} (xs : list A) : 0 <= len xs.
Proof. unfold len. lia. Qed.

Lemma len_app {A} (xs ys : list A) : len (xs ++ ys) = len xs + len ys.
Proof. unfold len. rewrite length_app. lia. Qed.

Lemma py_getitem_nonneg {A} (xs : list A) (i : Z) :
  0 <= i < len xs ->
  exists x, py_getitem xs i = Ok x /\ nth_error xs (Z.to_nat i) = Some x.
Proof.
  intros H. unfold py_getitem.
  destruct (i <? 0) eqn:E1; [apply Z.ltb_lt in E1; lia |].
  rewrite E1. simpl.
  destruct (len xs <=? i) eqn:E2; [apply Z.leb_le in E2; lia |].
  destruct (nth_error xs (Z.to_nat i)) as [x |] eqn:E3.
  - exists x. split; reflexivity.
  - apply nth_error_None in E3. unfold len in H. lia.
Qed.

Lemma py_getitem_In {A} (xs : list A) (i : Z) (x : A) :
  py_getitem xs i = Ok x -> In x xs.
Proof.
  unfold py_getitem.
  destruct ((_ <? 0) || _); [discriminate |].
  destruct (nth_error xs _) eqn:E; [| discriminate].
  intros H. injection H as <-. eapply nth_error_In. exact E.
Qed.

Lemma index_from_spec x xs pos idx :
  index_from x xs pos = Ok idx ->
  pos <= idx < pos + len xs /\ nth_error xs (Z.to_nat (idx - pos)) = Some x.
Proof.
  revert pos. induction xs as [| y ys IH]; intros pos; simpl.
  - discriminate.
  - destruct (String.eqb_spec y x) as [-> | Hne].
    + intros H. injection H as <-. unfold len. simpl length.
      replace (pos - pos) with 0 by lia. simpl. split; [lia | reflexivity].
    + intros H. apply IH in H. destruct H as [Hr Hn]. unfold len in *. simpl length.
      split; [lia |].
      replace (Z.to_nat (idx - pos)) with (S (Z.to_nat (idx - (pos + 1)))) by lia.
      exact Hn.
Qed.

Lemma index_from_In x xs pos :
  In x xs -> exists idx, index_from x xs pos = Ok idx.
Proof.
  revert pos. induction xs as [| y ys IH]; intros pos H; simpl.
  - contradiction.
  - destruct (String.eqb_spec y x) as [-> | Hne].
    + now exists pos.
    + destruct H as [-> | H]; [congruence |]. now apply IH.
Qed.

Lemma py_index_spec xs x idx :
  py_index xs x = Ok idx -> 0 <= idx < len xs /\ py_getitem xs idx = Ok x.
Proof.
  unfold py_index. intros H. apply index_from_spec in H.
  destruct H as [Hr Hn]. replace (idx - 0) with idx in Hn by lia.
  split; [lia |].
  destruct (@py_getitem_nonneg _ xs idx) as (y & Hy & Hn'); [lia |].
  congruence.
Qed.

Lemma py_index_In xs x :
  In x xs -> exists idx, py_index xs x = Ok idx.
Proof. apply index_from_In. Qed.



Lemma last_n_suffix {A} (n : nat) (xs : list A) :
  exists older, xs = older ++ last_n n xs.
Proof. exists (firstn (length xs - n) xs). unfold last_n. symmetry. apply firstn_skipn. Qed.

Lemma last_n_length {A} (n : nat) (xs : list A) :
  length (last_n n xs) = Nat.min n (length xs).
Proof. unfold last_n. rewrite length_skipn. lia. Qed.



(** ** Traces *)

Lemma generate_calls_app tr1 tr2 :
  generate_calls (tr1 ++ tr2) = generate_calls tr1 ++ generate_calls tr2.
Proof. unfold generate_calls. apply flat_map_app. Qed.

Lemma in_generate_calls a res evs :
  In (EvGenerate a res) evs -> In (a, res) (generate_calls evs).
Proof.
  intros H. unfold generate_calls. apply in_flat_map.
  exists (EvGenerate a res). split; [exact H | left; reflexivity].
Qed.

Lemma retries_avoid_length base r0 retries :
  retries_avoid base r0 retries ->
  forall a res, In (a, res) retries ->
    length (ga_avoid_questions a) = S (length base).
Proof.
  revert r0. induction retries as [| [a0 res0] rest IH]; intros r0 H a res Hin.
  - contradiction.
  - destruct H as [(g & _ & Ha) Hrest]. destruct Hin as [Hin | Hin].
    + injection Hin as <- _. rewrite Ha, length_app. simpl. lia.
    + eapply IH; eassumption.
Qed.

(** ** The streak phase of a turn *)

Ltac case_if :=
  match goal with
  | |- context [if ?c then _ else _] =>
      lazymatch c with
      | context [if _ then _ else _] => fail
      | _ => destruct c
      end
  end.

Lemma In_difficulties d :
  In d DIFFICULTIES <-> d = "easy" \/ d = "medium" \/ d = "hard".
Proof. unfold DIFFICULTIES. simpl. intuition congruence. Qed.

Lemma py_in_quality q :
  py_in q ["poor"; "unknown"] = String.eqb q "poor" || String.eqb q "unknown".
Proof. unfold py_in. simpl. now rewrite orb_false_r. Qed.

(** The streak statement of [step] computes the streaks of the
    specification. *)
Lemma update_streaks_spec plan s :
  (streak_good (state (update_streaks plan s)), streak_poor (state (update_streaks plan s)))
  = spec_streaks (score_0_100 plan) (answer_quality plan)
      (streak_good (state s)) (streak_poor (state s)).
Proof.
  unfold update_streaks, spec_streaks. rewrite py_in_quality, orb_assoc.
  destruct (75 <=? score_0_100 plan); [reflexivity |].
  destruct (_ || _ || _); reflexivity.
Qed.

Lemma update_streaks_frame plan s :
  let s' := update_streaks plan s in
  difficulty s' = difficulty s /\ topic_plan s' = topic_plan s
  /\ current_topic s' = current_topic s
  /\ topic_index (state s') = topic_index (state s)
  /\ history s' = history s /\ turn_id s' = turn_id s /\ logger s' = logger s
  /\ asked_questions_text s' = asked_questions_text s
  /\ max_regen_attempts s' = max_regen_attempts s.
Proof.
  unfold update_streaks.
  destruct (75 <=? _); [| destruct (_ || _)]; simpl; repeat split; reflexivity.
Qed.

(** With at most one streak at 2, the two [if] statements of
    [_update_difficulty_by_streaks] are the if / else-if of the
    specification. *)
Lemma update_difficulty_spec s :
  streak_good (state s) < 2 \/ streak_poor (state s) < 2 ->
  (difficulty (_update_difficulty_by_streaks s),
   streak_good (state (_update_difficulty_by_streaks s)),
   streak_poor (state (_update_difficulty_by_streaks s)))
  = spec_transition (difficulty s) (streak_good (state s)) (streak_poor (state s)).
Proof.
  intros H. unfold _update_difficulty_by_streaks, spec_transition, spec_promote, spec_demote.
  destruct (2 <=? streak_good (state s)) eqn:Eg.
  - apply Z.leb_le in Eg.
    assert (Ep : (2 <=? streak_poor (state s)) = false) by (apply Z.leb_gt; lia).
    destruct (String.eqb (difficulty s) "easy");
      [| destruct (String.eqb (difficulty s) "medium")]; simpl; rewrite Ep; reflexivity.
  - destruct (2 <=? streak_poor (state s)) eqn:Ep; [| reflexivity].
    destruct (String.eqb (difficulty s) "hard");
      [| destruct (String.eqb (difficulty s) "medium")]; reflexivity.
Qed.

Lemma update_difficulty_frame s :
  let s' := _update_difficulty_by_streaks s in
  topic_plan s' = topic_plan s /\ current_topic s' = current_topic s
  /\ topic_index (state s') = topic_index (state s)
  /\ history s' = history s /\ turn_id s' = turn_id s /\ logger s' = logger s
  /\ asked_questions_text s' = asked_questions_text s
  /\ max_regen_attempts s' = max_regen_attempts s.
Proof.
  unfold _update_difficulty_by_streaks.
  repeat (case_if; simpl); repeat split; reflexivity.
Qed.

Lemma spec_transition_difficulty d good poor :
  In d DIFFICULTIES -> In (fst (fst (spec_transition d good poor))) DIFFICULTIES.
Proof.
  rewrite !In_difficulties. unfold spec_transition, spec_promote, spec_demote.
  intros [-> | [-> | ->]]; destruct (2 <=? good); simpl; auto;
    destruct (2 <=? poor); simpl; auto.
Qed.

(** The streak phase of a turn keeps the streaks and the difficulty in
    range. *)
Lemma streak_phase_ok plan s :
  streaks_ok s -> In (difficulty s) DIFFICULTIES ->
  let s' := _update_difficulty_by_streaks (update_streaks plan s) in
  streaks_ok s' /\ In (difficulty s') DIFFICULTIES.
Proof.
  intros (Hone & Hg & Hp) Hd. intros s'.
  pose proof (update_streaks_spec plan s) as Hs.
  destruct (update_streaks_frame plan s) as (Hd1 & _).
  assert (Hlt : streak_good (state (update_streaks plan s)) < 2
                \/ streak_poor (state (update_streaks plan s)) < 2).
  { unfold spec_streaks in Hs.
    destruct (75 <=? _); [| destruct (_ || _ || _)]; injection Hs as Hs1 Hs2; lia. }
  pose proof (update_difficulty_spec _ Hlt) as Ht. fold s' in Ht.
  rewrite Hd1 in Ht.
  pose proof (spec_transition_difficulty (difficulty s)
                (streak_good (state (update_streaks plan s)))
                (streak_poor (state (update_streaks plan s))) Hd) as Hd'.
  rewrite <- Ht in Hd'. simpl in Hd'. split; [| exact Hd'].
  unfold spec_transition in Ht. unfold spec_streaks in Hs. unfold streaks_ok.
  destruct (75 <=? _); [| destruct (_ || _ || _)]; injection Hs as Hs1 Hs2;
    rewrite Hs1, Hs2 in Ht;
    match type of Ht with
    | context [2 <=? ?g] => destruct (2 <=? g) eqn:Eg
    end;
    try match type of Ht with
    | context [2 <=? ?p] => destruct (2 <=? p) eqn:Ep
    end;
    injection Ht as _ Hg' Hp'; rewrite Hg', Hp';
    try apply Z.leb_le in Eg; try apply Z.leb_gt in Eg;
    try apply Z.leb_le in Ep; try apply Z.leb_gt in Ep; lia.
Qed.

(** The streak phase reads and writes the policy view only. *)

Ltac view_cbn :=
  cbn [state difficulty streak_good streak_poor topic_plan topic_index current_topic
       set_difficulty set_state set_streak_good set_streak_poor upd_state].

Lemma update_streaks_view plan s t :
  policy_view s = policy_view t ->
  policy_view (update_streaks plan s) = policy_view (update_streaks plan t).
Proof.
  unfold policy_view, update_streaks. intros H. injection H as H1 H2 H3 H4 H5 H6.
  destruct (75 <=? score_0_100 plan); [| destruct (_ || _)]; view_cbn; congruence.
Qed.

Lemma update_difficulty_view s t :
  policy_view s = policy_view t ->
  policy_view (_update_difficulty_by_streaks s) = policy_view (_update_difficulty_by_streaks t).
Proof.
  unfold policy_view, _update_difficulty_by_streaks.
  intros H. injection H as H1 H2 H3 H4 H5 H6. rewrite ?H4, ?H5, ?H6.
  repeat (case_if; view_cbn; rewrite ?H4, ?H5, ?H6); view_cbn; congruence.
Qed.

Lemma streak_phase_view plan s t :
  policy_view s = policy_view t ->
  policy_view (_update_difficulty_by_streaks (update_streaks plan s))
  = policy_view (_update_difficulty_by_streaks (update_streaks plan t)).
Proof. intros H. apply update_difficulty_view, update_streaks_view, H. Qed.

(** ** The engine's methods *)
Lemma engine_ok_view s s' :
  policy_view s = policy_view s' -> engine_ok s -> engine_ok s'.
Proof.
  unfold policy_view, engine_ok, cursor_ok, streaks_ok.
  intros H. injection H as -> -> -> -> -> ->. tauto.
Qed.

Lemma commit_policy_same s :
  commit_policy (difficulty s) (topic_index (state s)) s = s.
Proof. destruct s as [? ? ? ? ? ? ? ? ? [? ? ? ? ?] ? ? ? ? ?]. reflexivity. Qed.

Lemma commit_policy_easy s :
  commit_policy "easy" (topic_index (state s)) s = set_difficulty "easy" s.
Proof. destruct s as [? ? ? ? ? ? ? ? ? [? ? ? ? ?] ? ? ? ? ?]. reflexivity. Qed.

Lemma commit_policy_index idx s :
  commit_policy (difficulty s) idx s = upd_state (set_topic_index idx) s.
Proof. destruct s as [? ? ? ? ? ? ? ? ? [? ? ? ? ?] ? ? ? ? ?]. reflexivity. Qed.

Section EngineFacts.

Context {World : Type} (B : Builtins) (C : Collaborators World).

Lemma decide_topic_stay plan s (env : Env World) :
  should_move_on plan = false ->
  decide_topic plan s env =
    (Ok (current_topic s, if score_0_100 plan <=? 45 then set_need_hint true plan else plan),
     (if score_0_100 plan <=? 45 then set_difficulty "easy" s else s), env).
Proof.
  intros H. unfold decide_topic. rewrite H. simpl.
  unfold bind, get_self. destruct (score_0_100 plan <=? 45); reflexivity.
Qed.

Lemma decide_topic_jump plan s (env : Env World) :
  should_move_on plan = true ->
  py_in (next_topic plan) (topic_plan s) = true ->
  exists idx,
    py_index (topic_plan s) (next_topic plan) = Ok idx
    /\ decide_topic plan s env =
         (Ok (next_topic plan, plan), upd_state (set_topic_index idx) s, env).
Proof.
  intros Hm Hin. apply py_in_In in Hin.
  destruct (py_index_In _ _ Hin) as [idx Hidx]. exists idx. split; [exact Hidx |].
  unfold decide_topic. rewrite Hm. simpl. unfold bind at 1, get_self.
  apply py_in_In in Hin. rewrite Hin. unfold bind, lift_result. rewrite Hidx. reflexivity.
Qed.

Lemma decide_topic_advance plan s (env : Env World) :
  should_move_on plan = true ->
  py_in (next_topic plan) (topic_plan s) = false ->
  0 <= topic_index (state s) < len (topic_plan s) ->
  exists t idx,
    py_getitem (topic_plan s)
      (Z.min (topic_index (state s) + 1) (len (topic_plan s) - 1)) = Ok t
    /\ py_index (topic_plan s) t = Ok idx
    /\ decide_topic plan s env =
         (Ok (t, plan), upd_state (set_topic_index idx) s, env).
Proof.
  intros Hm Hin Hc.
  set (j := Z.min (topic_index (state s) + 1) (len (topic_plan s) - 1)).
  destruct (py_getitem_nonneg (topic_plan s) j) as (t & Ht & _); [lia |].
  destruct (py_index_In _ _ (py_getitem_In _ _ _ Ht)) as [idx Hidx].
  exists t, idx. split; [exact Ht |]. split; [exact Hidx |].
  unfold decide_topic. rewrite Hm. simpl. unfold bind at 1, get_self.
  rewrite Hin. unfold _advance_topic, bind, get_self, lift_result, assign, ret.
  destruct (topic_index (state s) <? len (topic_plan s) - 1) eqn:E.
  - apply Z.ltb_lt in E. simpl.
    replace (topic_index (state s) + 1) with j by lia.
    rewrite Ht. simpl. rewrite Hidx. reflexivity.
  - apply Z.ltb_ge in E. replace (topic_index (state s)) with j by lia.
    rewrite Ht. simpl. rewrite Hidx. reflexivity.
Qed.

Lemma guard_trace self topic q (env : Env World) ok env' :
  _topic_guard_ok B C self topic q env = (ok, env') ->
  exists evs, trace env' = trace env ++ evs /\ generate_calls evs = [].
Proof.
  unfold _topic_guard_ok, call_analyze.
  destruct (observer_analyze C _ _) as [[out | e] w].
  - destruct (mentions_mismatch _); intros H; injection H as _ <-;
      eexists; (split; reflexivity).
  - intros H; injection H as _ <-. eexists; (split; reflexivity).
Qed.

Lemma call_generate_trace a (env : Env World) r env' :
  call_generate C a env = (r, env') -> trace env' = trace env ++ [EvGenerate a r].
Proof.
  unfold call_generate. destruct (qgen_generate C a (world env)) as [r0 w].
  intros H. injection H as <- <-. reflexivity.
Qed.

Lemma regen_loop_spec self topic level tag flag avoid attempts gen
    (env : Env World) r env' :
  regen_loop B C self topic level tag flag avoid attempts gen env = (r, env') ->
  exists evs,
    trace env' = trace env ++ evs
    /\ Z.of_nat (length (generate_calls evs)) <= Z.max 0 (max_regen_attempts self - attempts)
    /\ Forall (retry_call topic level tag flag) (generate_calls evs)
    /\ retries_avoid avoid (Ok gen) (generate_calls evs)
    /\ r = last_outcome (Ok gen) (generate_calls evs).
Proof.
  revert r env'.
  funelim (regen_loop B C self topic level tag flag avoid attempts gen env);
    intros r env'.
  all: try rewrite <- Heqcall.
  - intros E. injection E as <- <-. exists []. rewrite app_nil_r. simpl.
    repeat split; [lia | constructor].
  - intros E. injection E as <- <-.
    match goal with
    | Hg : _topic_guard_ok _ _ _ _ _ _ = _ |- _ =>
        destruct (guard_trace _ _ _ _ _ _ Hg) as (evs & Ht & Hc)
    end.
    exists evs. rewrite Hc. simpl. repeat split; [exact Ht | lia | constructor].
  - intros E.
    match goal with
    | IH : forall r env', _ -> _ |- _ => destruct (IH _ _ E) as (evs & Ht & Hl & Hf & Hr & Ho)
    end.
    match goal with
    | Hg : _topic_guard_ok _ _ _ _ _ _ = _ |- _ =>
        destruct (guard_trace _ _ _ _ _ _ Hg) as (evs0 & Ht0 & Hc0)
    end.
    match goal with
    | Hc : call_generate _ _ _ = _ |- _ => pose proof (call_generate_trace _ _ _ _ Hc) as Ht1
    end.
    pose proof (proj1 (Z.ltb_lt _ _) Hlt) as Hlt'.
    match goal with
    | Hc : call_generate _ ?a _ = (?r0, _) |- _ => exists (evs0 ++ [EvGenerate a r0] ++ evs)
    end.
    rewrite !generate_calls_app, Hc0. simpl.
    split; [rewrite Ht, Ht1, Ht0, <- !app_assoc; reflexivity |].
    split; [lia |].
    split; [constructor; [repeat split | exact Hf] |].
    split; [split; [exists gen; split; reflexivity | exact Hr] |].
    exact Ho.
  - intros E. injection E as <- <-.
    match goal with
    | Hg : _topic_guard_ok _ _ _ _ _ _ = _ |- _ =>
        destruct (guard_trace _ _ _ _ _ _ Hg) as (evs0 & Ht0 & Hc0)
    end.
    match goal with
    | Hc : call_generate _ _ _ = _ |- _ => pose proof (call_generate_trace _ _ _ _ Hc) as Ht1
    end.
    pose proof (proj1 (Z.ltb_lt _ _) Hlt) as Hlt'.
    match goal with
    | Hc : call_generate _ ?a _ = (?r0, _) |- _ => exists (evs0 ++ [EvGenerate a r0])
    end.
    rewrite !generate_calls_app, Hc0. simpl.
    split; [rewrite Ht1, Ht0, <- !app_assoc; reflexivity |].
    split; [lia |].
    split; [constructor; [repeat split | constructor] |].
    split; [split; [exists gen; split; reflexivity | exact I] |].
    reflexivity.
Qed.

Lemma generated_question_eta g :
  {| question_text := question_text g; hint := hint g;
     ideal_answer_short := ideal_answer_short g |} = g.
Proof. destruct g; reflexivity. Qed.

(** What one run of [_generate_question] does: a first call with the
    base avoid-list, then the retries. *)
Lemma generate_question_spec self topic level tag flag
    (env : Env World) r env' :
  _generate_question B C self topic level tag flag env = (r, env') ->
  exists evs r0 retries,
    trace env' = trace env ++ evs
    /\ generate_calls evs =
         (generate_args self topic level tag flag
            (last_n 8 (asked_questions_text self)), r0) :: retries
    /\ Z.of_nat (length retries) <= Z.max 0 (max_regen_attempts self)
    /\ Forall (retry_call topic level tag flag) retries
    /\ retries_avoid (last_n 8 (asked_questions_text self)) r0 retries
    /\ r = last_outcome r0 retries.
Proof.
  unfold _generate_question.
  destruct (call_generate C _ env) as [[gen | e] env1] eqn:E1;
    pose proof (call_generate_trace _ _ _ _ E1) as Ht1.
  - destruct (regen_loop B C self topic level tag flag _ 0 gen env1)
      as [r1 env2] eqn:E2.
    destruct (regen_loop_spec _ _ _ _ _ _ _ _ _ _ _ E2) as (evs & Ht & Hl & Hf & Hr & Ho).
    intros H.
    assert (r = r1 /\ env' = env2) as [-> ->].
    { destruct r1; injection H as <- <-; [rewrite generated_question_eta |]; split; reflexivity. }
    exists ([EvGenerate (generate_args self topic level tag flag (last_n 8 (asked_questions_text self))) (Ok gen)] ++ evs), (Ok gen), (generate_calls evs).
    rewrite generate_calls_app. simpl.
    split; [rewrite Ht, Ht1, <- app_assoc; reflexivity |].
    split; [reflexivity |].
    split; [replace (max_regen_attempts self - 0) with (max_regen_attempts self) in Hl by lia;
            exact Hl |].
    repeat split; assumption.
  - intros H. injection H as <- <-.
    exists [EvGenerate (generate_args self topic level tag flag (last_n 8 (asked_questions_text self))) (Raise e)], (Raise e), [].
    simpl. repeat split; [exact Ht1 | lia | constructor].
Qed.

Lemma step_eq msg s (env : Env World) :
  step B C msg s env =
    let s0 := after_user msg s in
    match call_analyze C (step_analyze_args s0 msg) env with
    | (Raise e, env1) => (Raise e, s0, env1)
    | (Ok plan, env1) =>
        let s2 := _update_difficulty_by_streaks (update_streaks plan s0) in
        match decide_topic plan s2 env1 with
        | (Raise e, s3, env1') => (Raise e, s3, env1')
        | (Ok (planned_topic, plan'), s3, env1') =>
            let s4 := set_current_topic planned_topic s3 in
            match _generate_question B C s4 planned_topic (difficulty s4)
                    (intent plan') (need_hint plan') env1' with
            | (Raise e, env2) => (Raise e, s4, env2)
            | (Ok gen, env2) =>
                let s5 := after_generate planned_topic gen s4 in
                match call_render C (render_args msg plan' gen s5) env2 with
                | (Raise e, env3) => (Raise e, s5, env3)
                | (Ok visible, env3) =>
                    (Ok visible, after_render msg planned_topic plan' gen visible s5, env3)
                end
            end
        end
    end.
Proof.
  unfold step, bind, assign, _push_user, _push_assistant, call, get_self, ret. simpl.
  fold (after_user msg s).
  destruct (call_analyze C _ env) as [[plan | e] env1]; [| reflexivity].
  destruct (decide_topic plan _ env1) as [[[[planned plan'] | e] s3] env1']; [| reflexivity].
  destruct (_generate_question B C _ planned _ _ _ env1') as [[gen | e] env2]; [| reflexivity].
  destruct (call_render C _ env2) as [[visible | e] env3]; reflexivity.
Qed.

(** The topic decision never raises on an engine whose cursor is in
    range; it assigns the difficulty and the cursor only. *)
Lemma decide_topic_ok plan s (env : Env World) :
  cursor_ok s ->
  exists planned plan' d idx,
    decide_topic plan s env = (Ok (planned, plan'), commit_policy d idx s, env)
    /\ topic_decision plan (topic_plan s) (topic_index (state s)) (current_topic s)
         (difficulty s) planned plan' d idx.
Proof.
  intros [Hr Hc]. unfold topic_decision.
  destruct (should_move_on plan) eqn:Hm.
  - destruct (py_in (next_topic plan) (topic_plan s)) eqn:Hin.
    + destruct (decide_topic_jump plan s env Hm Hin) as (idx & Hidx & E).
      destruct (py_index_spec _ _ _ Hidx) as [Hi Hg].
      exists (next_topic plan), plan, (difficulty s), idx.
      rewrite commit_policy_index.
      repeat split; try assumption; try lia; auto; try discriminate.
    + destruct (decide_topic_advance plan s env Hm Hin Hr) as (t & idx & Ht & Hidx & E).
      destruct (py_index_spec _ _ _ Hidx) as [Hi Hg].
      exists t, plan, (difficulty s), idx.
      rewrite commit_policy_index.
      repeat split; try assumption; try lia; auto; try discriminate.
  - rewrite (decide_topic_stay plan s env Hm).
    destruct (score_0_100 plan <=? 45) eqn:Es.
    + apply Z.leb_le in Es.
      exists (current_topic s), (set_need_hint true plan), "easy", (topic_index (state s)).
      rewrite commit_policy_easy.
      repeat split; try assumption; try lia; auto; try discriminate.
    + apply Z.leb_gt in Es.
      exists (current_topic s), plan, (difficulty s), (topic_index (state s)).
      rewrite commit_policy_same.
      repeat split; try assumption; try lia; auto; try discriminate.
Qed.

Lemma cursor_ok_after_user msg s : cursor_ok s <-> cursor_ok (after_user msg s).
Proof. reflexivity. Qed.

Lemma engine_ok_after_user msg s : engine_ok s -> engine_ok (after_user msg s).
Proof. apply engine_ok_view. reflexivity. Qed.

Lemma engine_ok_streak_phase plan s :
  engine_ok s -> engine_ok (_update_difficulty_by_streaks (update_streaks plan s)).
Proof.
  intros (Hc & Hs & Hd).
  destruct (streak_phase_ok plan s Hs Hd) as [Hs' Hd'].
  destruct (update_streaks_frame plan s) as (_ & P1 & P2 & P3 & _).
  destruct (update_difficulty_frame (update_streaks plan s)) as (Q1 & Q2 & Q3 & _).
  split; [| split; assumption].
  unfold cursor_ok in *. rewrite Q1, Q2, Q3, P1, P2, P3. exact Hc.
Qed.

Lemma engine_ok_commit d idx planned s :
  engine_ok s ->
  0 <= idx < len (topic_plan s) ->
  py_getitem (topic_plan s) idx = Ok planned ->
  d = difficulty s \/ d = "easy" ->
  engine_ok (set_current_topic planned (commit_policy d idx s)).
Proof.
  intros (Hc & Hs & Hd) Hi Hg Hdd.
  split; [| split].
  - split; simpl; assumption.
  - exact Hs.
  - simpl. destruct Hdd as [-> | ->]; [exact Hd | apply In_difficulties; auto].
Qed.

Lemma cursor_ok_streak_phase plan s :
  cursor_ok s -> cursor_ok (_update_difficulty_by_streaks (update_streaks plan s)).
Proof.
  intros Hc.
  destruct (update_streaks_frame plan s) as (_ & P1 & P2 & P3 & _).
  destruct (update_difficulty_frame (update_streaks plan s)) as (Q1 & Q2 & Q3 & _).
  unfold cursor_ok in *. rewrite Q1, Q2, Q3, P1, P2, P3. exact Hc.
Qed.

(** Where a call of [step] can stop, and what it has done by then: the
    observer raises; or it returns [plan], the streak phase gives [s2],
    the topic decision commits [planned], [d] and [idx], giving [s4], and
    then the generator raises, or the interviewer raises, or the call
    returns. *)
Lemma step_cases msg s (env : Env World) r s' env' :
  cursor_ok s ->
  step B C msg s env = (r, s', env') ->
  let s0 := after_user msg s in
  (exists e, r = Raise e /\ s' = s0
             /\ call_analyze C (step_analyze_args s0 msg) env = (Raise e, env'))
  \/ exists plan env1 planned plan' d idx s2 s4,
      call_analyze C (step_analyze_args s0 msg) env = (Ok plan, env1)
      /\ s2 = _update_difficulty_by_streaks (update_streaks plan s0)
      /\ topic_decision plan (topic_plan s) (topic_index (state s)) (current_topic s)
           (difficulty s2) planned plan' d idx
      /\ s4 = set_current_topic planned (commit_policy d idx s2)
      /\ ((exists e, r = Raise e /\ s' = s4
             /\ _generate_question B C s4 planned d (intent plan')
                  (need_hint plan') env1 = (Raise e, env'))
          \/ exists gen env2,
               _generate_question B C s4 planned d (intent plan')
                 (need_hint plan') env1 = (Ok gen, env2)
               /\ ((exists e, r = Raise e /\ s' = after_generate planned gen s4
                      /\ call_render C (render_args msg plan' gen
                                          (after_generate planned gen s4)) env2
                         = (Raise e, env'))
                   \/ exists visible,
                        r = Ok visible
                        /\ s' = after_render msg planned plan' gen visible
                                  (after_generate planned gen s4)
                        /\ call_render C (render_args msg plan' gen
                                            (after_generate planned gen s4)) env2
                           = (Ok visible, env'))).
Proof.
  intros Hc. rewrite step_eq. cbv zeta.
  destruct (call_analyze C _ env) as [[plan | e] env1] eqn:Ea.
  2: { intros H. injection H as <- <- <-. left. exists e. auto. }
  pose proof (cursor_ok_streak_phase plan _ (proj1 (cursor_ok_after_user msg s) Hc)) as Hc2.
  destruct (decide_topic_ok plan _ env1 Hc2) as (planned & plan' & d & idx & Ed & Htd).
  rewrite Ed.
  destruct (update_streaks_frame plan (after_user msg s)) as (_ & P1 & P2 & P3 & _).
  destruct (update_difficulty_frame (update_streaks plan (after_user msg s)))
    as (Q1 & Q2 & Q3 & _).
  rewrite Q1, Q2, Q3, P1, P2, P3 in Htd. simpl in Htd.
  intros H. right. exists plan, env1, planned, plan', d, idx. do 2 eexists.
  split; [reflexivity |]. split; [reflexivity |]. split; [exact Htd |].
  split; [reflexivity |].
  change (difficulty (set_current_topic planned (commit_policy d idx
            (_update_difficulty_by_streaks (update_streaks plan (after_user msg s))))))
    with d in H.
  destruct (_generate_question B C _ planned _ _ _ env1) as [[gen | e] env2] eqn:Eg.
  2: { injection H as <- <- <-. left. exists e. auto. }
  right. exists gen, env2. split; [reflexivity |].
  destruct (call_render C _ env2) as [[visible | e] env3] eqn:Er.
  - injection H as <- <- <-. right. exists visible. auto.
  - injection H as <- <- <-. left. exists e. auto.
Qed.

End EngineFacts.

Section SessionFacts.

Context {World : Type} (B : Builtins) (C : Collaborators World).

Lemma engine_ok_after_generate planned gen s :
  engine_ok s -> engine_ok (after_generate planned gen s).
Proof. apply engine_ok_view. reflexivity. Qed.

Lemma engine_ok_after_render msg planned plan gen visible s :
  engine_ok s -> engine_ok (after_render msg planned plan gen visible s).
Proof. apply engine_ok_view. reflexivity. Qed.

(** Every call of [step], returning or raising, keeps the engine
    well-formed and leaves the plan alone. *)
Lemma step_engine_ok msg s (env : Env World) r s' env' :
  engine_ok s ->
  step B C msg s env = (r, s', env') ->
  engine_ok s' /\ topic_plan s' = topic_plan s
  /\ max_regen_attempts s' = max_regen_attempts s.
Proof.
  intros Hok Hstep.
  destruct (step_cases B C msg s env r s' env' (proj1 Hok) Hstep)
    as [(e & -> & -> & _)
       | (plan & env1 & planned & plan' & d & idx & s2 & s4 & _ & Es2 & Htd & Es4 & Hrest)].
  - split; [apply engine_ok_after_user; exact Hok | split; reflexivity].
  - assert (Hok2 : engine_ok s2).
    { subst s2. apply engine_ok_streak_phase, engine_ok_after_user, Hok. }
    assert (Hp2 : topic_plan s2 = topic_plan s /\ max_regen_attempts s2 = max_regen_attempts s).
    { subst s2.
      destruct (update_streaks_frame plan (after_user msg s)) as (_ & P1 & _ & _ & _ & _ & _ & _ & P2).
      destruct (update_difficulty_frame (update_streaks plan (after_user msg s)))
        as (Q1 & _ & _ & _ & _ & _ & _ & Q2).
      rewrite Q1, Q2, P1, P2. split; reflexivity. }
    destruct Hp2 as [Hp2 Hm2].
    destruct Htd as (Hi & Hg & Hd & _).
    assert (Hok4 : engine_ok s4).
    { subst s4. apply engine_ok_commit; rewrite ?Hp2; assumption. }
    assert (Hp4 : topic_plan s4 = topic_plan s /\ max_regen_attempts s4 = max_regen_attempts s).
    { subst s4. simpl. split; assumption. }
    destruct Hrest as [(e & -> & -> & _) | (gen & env2 & _ & [(e & -> & -> & _) | (v & -> & -> & _)])].
    + split; [exact Hok4 | exact Hp4].
    + split; [apply engine_ok_after_generate; exact Hok4 | exact Hp4].
    + split; [apply engine_ok_after_render, engine_ok_after_generate; exact Hok4 | exact Hp4].
Qed.

Lemma topics_or_default_nonempty plan :
  exists t rest, topics_or_default plan = t :: rest.
Proof.
  unfold topics_or_default. destruct (topics plan) as [| t rest].
  - unfold DEFAULT_TOPICS. eauto.
  - eauto.
Qed.

Lemma call_plan_trace a (env : Env World) r env' :
  call_plan C a env = (r, env') -> trace env' = trace env ++ [EvPlan a r].
Proof.
  unfold call_plan. destruct (planner_build_plan C a (world env)) as [r0 w].
  intros H. injection H as <- <-. reflexivity.
Qed.

(** The constructor, statement by statement. *)
Lemma new_engine_eq cfg (w : World) :
  new_engine B C cfg w =
    match call_plan C (plan_args cfg) {| world := w; trace := [] |} with
    | (Raise e, env1) => (Raise e, pre_engine cfg, env1)
    | (Ok plan, env1) =>
        let ts := topics_or_default plan in
        match py_getitem ts 0 with
        | Raise e => (Raise e, set_topic_plan ts (pre_engine cfg), env1)
        | Ok first_topic =>
            let s1 := before_warmup cfg ts first_topic in
            match _generate_question B C s1 first_topic "easy" "warmup" false env1 with
            | (Raise e, env2) => (Raise e, s1, env2)
            | (Ok first_q, env2) => (Ok tt, after_warmup first_q s1, env2)
            end
        end
    end.
Proof.
  unfold new_engine, __init__, bind, assign, _push_assistant, call, get_self, ret, lift_result.
  simpl. fold (plan_args cfg).
  destruct (call_plan C _ _) as [[plan | e] env1]; [| reflexivity].
  fold (topics_or_default plan). cbv zeta.
  destruct (py_getitem (topics_or_default plan) 0) as [t0 | e]; [| reflexivity].
  simpl. fold (before_warmup cfg (topics_or_default plan) t0).
  destruct (_generate_question B C _ t0 _ _ _ env1) as [[q | e] env2]; reflexivity.
Qed.

(** What a constructor call that returns has done. *)
Lemma new_engine_ok_cases cfg (w : World) s env :
  new_engine B C cfg w = (Ok tt, s, env) ->
  exists plan w1 first_topic rest first_q,
    planner_build_plan C (plan_args cfg) w = (Ok plan, w1)
    /\ topics_or_default plan = first_topic :: rest
    /\ _generate_question B C (before_warmup cfg (first_topic :: rest) first_topic)
         first_topic "easy" "warmup" false
         {| world := w1; trace := [EvPlan (plan_args cfg) (Ok plan)] |}
       = (Ok first_q, env)
    /\ s = after_warmup first_q (before_warmup cfg (first_topic :: rest) first_topic).
Proof.
  rewrite new_engine_eq. unfold call_plan. simpl.
  destruct (planner_build_plan C (plan_args cfg) w) as [[plan | e] w1] eqn:Ep;
    [| discriminate].
  cbv zeta.
  destruct (topics_or_default_nonempty plan) as (t & rest & Ets). rewrite Ets.
  change (py_getitem (t :: rest) 0) with (if (len (t :: rest) <=? 0) then @Raise string IndexError else Ok t).
  destruct (len (t :: rest) <=? 0) eqn:El.
  { apply Z.leb_le in El. unfold len in El. simpl in El. lia. }
  destruct (_generate_question B C _ t _ _ _ _) as [[q | e] env2] eqn:Eg; [| discriminate].
  intros H. injection H as <- <-.
  exists plan, w1, t, rest, q. repeat split; assumption.
Qed.

Lemma new_engine_engine_ok cfg (w : World) s env :
  new_engine B C cfg w = (Ok tt, s, env) -> engine_ok s.
Proof.
  intros H.
  destruct (new_engine_ok_cases cfg w s env H) as (plan & w1 & t & rest & q & _ & _ & _ & ->).
  split; [| split].
  - split; simpl.
    + unfold len. simpl. lia.
    + reflexivity.
  - unfold streaks_ok. simpl. lia.
  - simpl. auto.
Qed.

Lemma reachable_engine_ok s (env : Env World) :
  reachable B C s env -> engine_ok s.
Proof.
  induction 1 as [cfg w s env H | msg s env r s' env' _ IH H].
  - eapply new_engine_engine_ok; exact H.
  - eapply step_engine_ok; eassumption.
Qed.

Lemma steps_reachable msgs s (env : Env World) r s' env' :
  reachable B C s env -> steps B C msgs s env = (r, s', env') -> reachable B C s' env'.
Proof.
  revert s env r s' env'. induction msgs as [| msg rest IH]; intros s env r s' env' Hr.
  - simpl. unfold ret. intros H. injection H as _ <- <-. exact Hr.
  - simpl. unfold bind at 1.
    destruct (step B C msg s env) as [[[v | e] s1] env1] eqn:Es.
    + unfold bind at 1.
      destruct (steps B C rest s1 env1) as [[[vs | e] s2] env2] eqn:Er.
      * unfold ret. intros H. injection H as _ <- <-.
        eapply IH; [| exact Er]. eapply reach_step; eassumption.
      * intros H. injection H as _ <- <-.
        eapply IH; [| exact Er]. eapply reach_step; eassumption.
    + intros H. injection H as _ <- <-. eapply reach_step; eassumption.
Qed.

Lemma decide_topic_frame plan s (env : Env World) r s' env' :
  decide_topic plan s env = (r, s', env') ->
  history s' = history s /\ turn_id s' = turn_id s /\ logger s' = logger s
  /\ asked_questions_text s' = asked_questions_text s /\ env' = env.
Proof.
  unfold decide_topic, _advance_topic, bind, get_self, assign, ret, lift_result.
  repeat (case_if; simpl);
    repeat match goal with
           | |- context [match ?x with Ok _ => _ | Raise _ => _ end] => destruct x; simpl
           end;
    intros H; injection H as _ <- <-; repeat split; reflexivity.
Qed.

(** What a call of [step] that returns has done to the history, the
    turn counter and the log. *)
Lemma step_returns msg s (env : Env World) visible s' env' :
  step B C msg s env = (Ok visible, s', env') ->
  history s' = history s ++ [{| role := "user"; content := msg |};
                             {| role := "assistant"; content := visible |}]
  /\ turn_id s' = turn_id s + 1
  /\ exists t,
       turns (logger s') = turns (logger s) ++ [t]
       /\ tl_turn_id t = turn_id s + 1
       /\ tl_user_message t = msg
       /\ tl_agent_visible_message t = visible
       /\ tl_topic t = current_topic s'
       /\ tl_difficulty t = difficulty s'.
Proof.
  rewrite step_eq. cbv zeta.
  destruct (call_analyze C _ env) as [[plan | e] env1]; [| discriminate].
  destruct (decide_topic plan _ env1) as [[[[planned plan'] | e] s3] env1'] eqn:Ed;
    [| discriminate].
  destruct (decide_topic_frame _ _ _ _ _ _ Ed) as (Hh & Ht & Hl & _).
  destruct (update_difficulty_frame (update_streaks plan (after_user msg s)))
    as (_ & _ & _ & Qh & Qt & Ql & _).
  destruct (update_streaks_frame plan (after_user msg s))
    as (_ & _ & _ & _ & Ph & Pt & Pl & _).
  rewrite Qh, Ph in Hh. rewrite Qt, Pt in Ht. rewrite Ql, Pl in Hl.
  simpl in Hh, Ht, Hl.
  destruct (_generate_question B C _ planned _ _ _ env1') as [[gen | e] env2];
    [| discriminate].
  destruct (call_render C _ env2) as [[v | e] env3]; [| discriminate].
  intros H. injection H as <- <- <-.
  unfold after_render, after_generate, logged_turn. simpl. rewrite Hh, Hl.
  split; [rewrite <- app_assoc; reflexivity |]. split; [exact Ht |].
  eexists. split; [reflexivity |]. simpl. rewrite ?Ht. repeat split; reflexivity.
Qed.

Lemma steps_returns msgs s (env : Env World) visibles s' env' :
  steps B C msgs s env = (Ok visibles, s', env') ->
  length visibles = length msgs
  /\ history s' = history s ++ dialogue msgs visibles
  /\ turn_id s' = turn_id s + len msgs
  /\ exists ts,
       turns (logger s') = turns (logger s) ++ ts
       /\ map tl_turn_id ts = map (fun k => turn_id s + Z.of_nat k) (seq 1 (length msgs))
       /\ map tl_user_message ts = msgs
       /\ map tl_agent_visible_message ts = visibles.
Proof.
  revert s env visibles s' env'.
  induction msgs as [| msg rest IH]; intros s env visibles s' env'.
  - simpl. unfold ret. intros H. injection H as <- <- <-.
    rewrite app_nil_r. unfold len. simpl.
    repeat split; [lia |]. exists []. rewrite app_nil_r. repeat split.
  - simpl. unfold bind at 1.
    destruct (step B C msg s env) as [[[v | e] s1] env1] eqn:Es; [| discriminate].
    unfold bind at 1.
    destruct (steps B C rest s1 env1) as [[[vs | e] s2] env2] eqn:Er; [| discriminate].
    unfold ret. intros H. injection H as <- <- <-.
    destruct (step_returns _ _ _ _ _ _ Es) as (Hh & Ht & t & Hl & Hid & Hu & Hv & _).
    destruct (IH _ _ _ _ _ Er) as (Hn & Hh' & Ht' & ts & Hl' & Hids & Hus & Hvs).
    split; [simpl; congruence |].
    split; [rewrite Hh', Hh, <- app_assoc; reflexivity |].
    split; [rewrite Ht', Ht; unfold len; simpl length; lia |].
    exists (t :: ts).
    split; [rewrite Hl', Hl, <- app_assoc; reflexivity |].
    split.
    { simpl. rewrite Hid, Hids, Ht. f_equal.
      rewrite <- (seq_shift (length rest) 1), map_map. apply map_ext. intros k. lia. }
    simpl. split; congruence.
Qed.

(** The streaks a call of [step] leaves are those of the streak phase;
    the difficulty is that of the streak phase, or easy. *)
Lemma step_policy_after msg s (env : Env World) plan w1 r s' env' :
  cursor_ok s ->
  observer_analyze C (step_analyze_args (after_user msg s) msg) (world env) = (Ok plan, w1) ->
  step B C msg s env = (r, s', env') ->
  let s2 := _update_difficulty_by_streaks (update_streaks plan s) in
  streak_good (state s') = streak_good (state s2)
  /\ streak_poor (state s') = streak_poor (state s2)
  /\ (difficulty s' = difficulty s2 \/ difficulty s' = "easy").
Proof.
  intros Hc Ha Hstep s2.
  destruct (step_cases B C msg s env r s' env' Hc Hstep)
    as [(e & _ & _ & Ea)
       | (plan0 & env1 & planned & plan' & d & idx & t2 & s4 & Ea & Et2 & Htd & Es4 & Hrest)].
  { unfold call_analyze in Ea. rewrite Ha in Ea. discriminate. }
  unfold call_analyze in Ea. rewrite Ha in Ea. injection Ea as <- _.
  subst s4 t2.
  set (u := _update_difficulty_by_streaks (update_streaks plan (after_user msg s))) in *.
  assert (Hs' : streak_good (state s') = streak_good (state u)
                /\ streak_poor (state s') = streak_poor (state u)
                /\ difficulty s' = d).
  { destruct Hrest as [(e & _ & -> & _)
                      | (gen & env2 & _ & [(e & _ & -> & _) | (v & _ & -> & _)])];
      simpl; repeat split; reflexivity. }
  destruct Hs' as (-> & -> & ->).
  assert (Hview : policy_view u = policy_view s2).
  { unfold u, s2. apply streak_phase_view. reflexivity. }
  unfold policy_view in Hview. injection Hview as _ _ _ Hg2 Hp2 Hd2.
  rewrite Hg2, Hp2, <- Hd2.
  destruct Htd as (_ & _ & [-> | ->] & _); auto.
Qed.

Lemma call_render_trace a (env : Env World) r env' :
  call_render C a env = (r, env') -> trace env' = trace env ++ [EvRender a r].
Proof.
  unfold call_render. destruct (interviewer_render_message C a (world env)) as [r0 w].
  intros H. injection H as <- <-. reflexivity.
Qed.

Lemma call_analyze_trace a (env : Env World) r env' :
  call_analyze C a env = (r, env') -> trace env' = trace env ++ [EvAnalyze a r].
Proof.
  unfold call_analyze. destruct (observer_analyze C a (world env)) as [r0 w].
  intros H. injection H as <- <-. reflexivity.
Qed.

(** Every call of the generator in one run of [_generate_question] is
    for the topic, the difficulty and the hint flag of the run. *)
Lemma generate_question_calls self topic level tag flag (env : Env World) r env' :
  _generate_question B C self topic level tag flag env = (r, env') ->
  exists evs,
    trace env' = trace env ++ evs
    /\ (forall a res, In (EvGenerate a res) evs ->
          ga_topic a = topic /\ ga_difficulty a = level /\ ga_need_hint a = flag).
Proof.
  intros Hg.
  destruct (generate_question_spec B C _ _ _ _ _ _ _ _ Hg)
    as (evs & r0 & retries & Ht & Hcalls & _ & Hf & _).
  exists evs. split; [exact Ht |].
  intros a res Hin. apply in_generate_calls in Hin.
  rewrite Hcalls in Hin. destruct Hin as [Hin | Hin].
  - injection Hin as <- _. repeat split; reflexivity.
  - rewrite Forall_forall in Hf. destruct (Hf _ Hin) as (Ht' & Hd & Hh & _).
    repeat split; assumption.
Qed.

(** The calls of the generator in one call of [step]: all of them are
    made by the one run of [_generate_question], for the planned topic
    and with the difficulty and the hint flag the topic decision left. *)
Lemma step_generate_calls msg s (env : Env World) r s' env' :
  cursor_ok s ->
  step B C msg s env = (r, s', env') ->
  exists evs,
    trace env' = trace env ++ evs
    /\ forall a res, In (EvGenerate a res) evs ->
         exists plan w1 planned plan' d idx,
           observer_analyze C (step_analyze_args (after_user msg s) msg) (world env)
             = (Ok plan, w1)
           /\ topic_decision plan (topic_plan s) (topic_index (state s)) (current_topic s)
                (difficulty (_update_difficulty_by_streaks
                               (update_streaks plan (after_user msg s))))
                planned plan' d idx
           /\ ga_topic a = planned /\ ga_difficulty a = d
           /\ ga_need_hint a = need_hint plan'.
Proof.
  intros Hc Hstep.
  destruct (step_cases B C msg s env r s' env' Hc Hstep)
    as [(e & _ & _ & Ea)
       | (plan & env1 & planned & plan' & d & idx & t2 & s4 & Ea & -> & Htd & -> & Hcases)].
  { exists [EvAnalyze (step_analyze_args (after_user msg s) msg) (Raise e)].
    split; [apply call_analyze_trace; exact Ea |].
    intros a res [Hin | []]. discriminate. }
  pose proof (call_analyze_trace _ _ _ _ Ea) as Hta.
  assert (Ha : exists w1, observer_analyze C (step_analyze_args (after_user msg s) msg)
                            (world env) = (Ok plan, w1)).
  { unfold call_analyze in Ea.
    destruct (observer_analyze C _ (world env)) as [r0 w1].
    injection Ea as -> _. exists w1. reflexivity. }
  destruct Ha as [w1 Ha].
  assert (Hgen : forall rg envg,
            _generate_question B C
              (set_current_topic planned
                 (commit_policy d idx
                    (_update_difficulty_by_streaks (update_streaks plan (after_user msg s)))))
              planned d (intent plan') (need_hint plan') env1 = (rg, envg) ->
            exists evs, trace envg = trace env ++ evs
              /\ (forall a res, In (EvGenerate a res) evs ->
                    ga_topic a = planned /\ ga_difficulty a = d
                    /\ ga_need_hint a = need_hint plan')).
  { intros rg envg Hg.
    destruct (generate_question_calls _ _ _ _ _ _ _ _ Hg) as (evs & Ht & Hall).
    exists ([EvAnalyze (step_analyze_args (after_user msg s) msg) (Ok plan)] ++ evs).
    split; [rewrite Ht, Hta, <- app_assoc; reflexivity |].
    intros a res [Hin | Hin]; [discriminate | eapply Hall; exact Hin]. }
  assert (Hfin : forall evs,
            (forall a res, In (EvGenerate a res) evs ->
               ga_topic a = planned /\ ga_difficulty a = d
               /\ ga_need_hint a = need_hint plan') ->
            forall a res, In (EvGenerate a res) evs ->
              exists plan0 w0 planned0 plan0' d0 idx0,
                observer_analyze C (step_analyze_args (after_user msg s) msg) (world env)
                  = (Ok plan0, w0)
                /\ topic_decision plan0 (topic_plan s) (topic_index (state s))
                     (current_topic s)
                     (difficulty (_update_difficulty_by_streaks
                                    (update_streaks plan0 (after_user msg s))))
                     planned0 plan0' d0 idx0
                /\ ga_topic a = planned0 /\ ga_difficulty a = d0
                /\ ga_need_hint a = need_hint plan0').
  { intros evs Hall a res Hin. destruct (Hall a res Hin) as (H1 & H2 & H3).
    exists plan, w1, planned, plan', d, idx.
    split; [exact Ha |]. split; [exact Htd |]. repeat split; assumption. }
  destruct Hcases as [(e & _ & _ & Hg)
                     | (gen & env2 & Hg & [(e & _ & _ & Hr) | (v & _ & _ & Hr)])].
  - destruct (Hgen _ _ Hg) as (evs & Ht & Hall).
    exists evs. split; [exact Ht | apply Hfin; exact Hall].
  - destruct (Hgen _ _ Hg) as (evs & Ht & Hall).
    pose proof (call_render_trace _ _ _ _ Hr) as Htr.
    eexists. split; [rewrite Htr, Ht, <- app_assoc; reflexivity |].
    apply Hfin. intros a res Hin. apply in_app_or in Hin.
    destruct Hin as [Hin | [Hin | []]]; [eapply Hall; exact Hin | discriminate].
  - destruct (Hgen _ _ Hg) as (evs & Ht & Hall).
    pose proof (call_render_trace _ _ _ _ Hr) as Htr.
    eexists. split; [rewrite Htr, Ht, <- app_assoc; reflexivity |].
    apply Hfin. intros a res Hin. apply in_app_or in Hin.
    destruct Hin as [Hin | [Hin | []]]; [eapply Hall; exact Hin | discriminate].
Qed.

Lemma call_generate_ok a (env : Env World) r env' :
  never_raises (qgen_generate C) ->
  call_generate C a env = (r, env') -> exists g, r = Ok g.
Proof.
  intros Hn. unfold call_generate.
  destruct (Hn a (world env)) as (g & w & ->).
  intros H. injection H as <- _. exists g. reflexivity.
Qed.

Lemma guard_mismatch_false self topic q (env : Env World) ok env' :
  guard_always_mismatch B C ->
  _topic_guard_ok B C self topic q env = (ok, env') -> ok = false.
Proof.
  intros Hg. unfold _topic_guard_ok, call_analyze.
  destruct (Hg self topic q (world env)) as (out & w & -> & Hm).
  rewrite Hm. intros H. injection H as <- _. reflexivity.
Qed.

Lemma regen_loop_returns self topic level tag flag avoid attempts gen
    (env : Env World) r env' :
  never_raises (qgen_generate C) ->
  regen_loop B C self topic level tag flag avoid attempts gen env = (r, env') ->
  exists g, r = Ok g.
Proof.
  intros Hn. revert r env'.
  funelim (regen_loop B C self topic level tag flag avoid attempts gen env);
    intros r env'; try rewrite <- Heqcall.
  - intros E. injection E as <- _. eauto.
  - intros E. injection E as <- _. eauto.
  - intros E.
    match goal with
    | IH : _ -> forall r env', _ -> exists g, _ |- _ => exact (IH Hn _ _ E)
    end.
  - match goal with
    | Hc : call_generate _ _ _ = (Raise _, _) |- _ =>
        destruct (call_generate_ok _ _ _ _ Hn Hc) as (g & Hg); discriminate
    end.
Qed.

Lemma generate_question_returns self topic level tag flag (env : Env World) r env' :
  never_raises (qgen_generate C) ->
  _generate_question B C self topic level tag flag env = (r, env') ->
  exists g, r = Ok g.
Proof.
  intros Hn. unfold _generate_question.
  destruct (call_generate C _ env) as [[gen | e] env1] eqn:E1.
  - destruct (regen_loop B C self topic level tag flag _ 0 gen env1) as [r1 env2] eqn:E2.
    destruct (regen_loop_returns _ _ _ _ _ _ _ _ _ _ _ Hn E2) as (g & ->).
    intros H. injection H as <- _. eauto.
  - destruct (call_generate_ok _ _ _ _ Hn E1) as (g & Hg). discriminate.
Qed.

(** With a guard that rejects every draft and a generator that always
    returns, the loop uses up its attempts. *)
Lemma regen_loop_count self topic level tag flag avoid attempts gen
    (env : Env World) r env' :
  guard_always_mismatch B C ->
  never_raises (qgen_generate C) ->
  regen_loop B C self topic level tag flag avoid attempts gen env = (r, env') ->
  length (generate_calls (trace env'))
  = (length (generate_calls (trace env))
     + Z.to_nat (max_regen_attempts self - attempts))%nat.
Proof.
  intros Hgm Hn. revert r env'.
  funelim (regen_loop B C self topic level tag flag avoid attempts gen env);
    intros r env'; try rewrite <- Heqcall.
  - intros E. injection E as _ <-.
    match goal with
    | Hf : (_ <? _) = false |- _ => pose proof (proj1 (Z.ltb_ge _ _) Hf)
    end. lia.
  - match goal with
    | Hg : _topic_guard_ok _ _ _ _ _ _ = (true, _) |- _ =>
        pose proof (guard_mismatch_false _ _ _ _ _ _ Hgm Hg); discriminate
    end.
  - intros E.
    match goal with
    | IH : _ -> _ -> forall r env', _ -> _ = _ |- _ => rewrite (IH Hgm Hn _ _ E)
    end.
    match goal with
    | Hg : _topic_guard_ok _ _ _ _ _ _ = _ |- _ =>
        destruct (guard_trace _ _ _ _ _ _ _ _ Hg) as (evs0 & Ht0 & Hc0)
    end.
    match goal with
    | Hc : call_generate _ _ _ = _ |- _ => rewrite (call_generate_trace _ _ _ _ _ Hc)
    end.
    rewrite Ht0, !generate_calls_app, Hc0, !length_app. simpl.
    pose proof (proj1 (Z.ltb_lt _ _) Hlt). lia.
  - match goal with
    | Hc : call_generate _ _ _ = (Raise _, _) |- _ =>
        destruct (call_generate_ok _ _ _ _ Hn Hc) as (g & Hg); discriminate
    end.
Qed.

Lemma generate_question_count self topic level tag flag (env : Env World) r env' :
  guard_always_mismatch B C ->
  never_raises (qgen_generate C) ->
  _generate_question B C self topic level tag flag env = (r, env') ->
  length (generate_calls (trace env'))
  = (length (generate_calls (trace env)) + 1
     + Z.to_nat (max_regen_attempts self))%nat.
Proof.
  intros Hgm Hn. unfold _generate_question.
  destruct (call_generate C _ env) as [[gen | e] env1] eqn:E1.
  - destruct (regen_loop B C self topic level tag flag _ 0 gen env1) as [r1 env2] eqn:E2.
    pose proof (regen_loop_count _ _ _ _ _ _ _ _ _ _ _ Hgm Hn E2) as Hc.
    rewrite (call_generate_trace _ _ _ _ _ E1), generate_calls_app, length_app in Hc.
    simpl in Hc. replace (max_regen_attempts self - 0) with (max_regen_attempts self) in Hc by lia.
    intros H. assert (env' = env2) as -> by (destruct r1; injection H as _ <-; reflexivity).
    exact Hc.
  - destruct (call_generate_ok _ _ _ _ Hn E1) as (g & Hg). discriminate.
Qed.

(** The other agents handle every exception of parsing and validation:
    on a reply that cannot be parsed they return their fallback values. *)
Lemma generate_fallback_on_unparsable {Json : Type} (K : Backend World Json)
    model a w raw w' e :
  client_chat K model (qgen_messages B K a) (Some "json") (4 # 10)%Q w = (Ok raw, w') ->
  load_reply B K raw = Raise e ->
  QuestionGeneratorAgent_generate B K model a w
  = (Ok (fallback_question (ga_need_hint a)), w').
Proof.
  intros Hc Hl. unfold QuestionGeneratorAgent_generate. rewrite Hc, Hl. reflexivity.
Qed.

Lemma analyze_fallback_on_unparsable {Json : Type} (K : Backend World Json)
    model a w raw w' e :
  client_chat K model (observer_messages B K a) (Some "json") (2 # 10)%Q w
  = (Ok (PyStr raw), w') ->
  _safe_json_load B K raw = Raise e ->
  py_in (aa_current_difficulty a) DIFFICULTIES = true ->
  ObserverAgent_analyze B K model a w = (Ok (fallback_observer_output a raw), w').
Proof.
  intros Hc Hl Hd. unfold ObserverAgent_analyze. rewrite Hc.
  cbn [load_reply raw_head]. rewrite Hl.
  cbn [bind_result]. rewrite Hd. reflexivity.
Qed.

(** [TopicPlannerAgent.build_plan] never hands an empty plan to the
    engine: when the backend replies, with a text or with any other
    value, it returns the default plan if the reply cannot be parsed,
    cannot be validated, or has no topics. *)
Lemma build_plan_fallback {Json : Type} (K : Backend World Json) model a w raw w' :
  client_chat K model (planner_messages B K a) (Some "json") (3 # 10)%Q w = (Ok raw, w') ->
  exists p,
    TopicPlannerAgent_build_plan B K model a w = (Ok p, w')
    /\ topics p <> []
    /\ ((exists e, load_reply B K raw = Raise e)
        \/ (exists data e, load_reply B K raw = Ok data
                           /\ TopicPlan_model_validate K data = Raise e)
        \/ (exists data p0, load_reply B K raw = Ok data
                            /\ TopicPlan_model_validate K data = Ok p0
                            /\ topics p0 = []) ->
        p = default_plan).
Proof.
  intros Hchat. unfold TopicPlannerAgent_build_plan. rewrite Hchat.
  destruct (load_reply B K raw) as [data | e] eqn:Ej; simpl.
  - destruct (TopicPlan_model_validate K data) as [p0 | e] eqn:Ev; simpl.
    + destruct (topics p0) as [| t ts] eqn:Et.
      * exists default_plan. split; [reflexivity |]. split; [discriminate | auto].
      * exists p0. split; [reflexivity |]. split; [congruence |].
        intros [(e & He) | [(d & e & Hd & He) | (d & p1 & Hd & Hp & Ht)]];
          congruence.
    + exists default_plan. split; [reflexivity |]. split; [discriminate | auto].
  - exists default_plan. split; [reflexivity |]. split; [discriminate | auto].
Qed.

(** The constructor returns when the planner and the generator do. *)
Lemma new_engine_returns cfg (w : World) :
  never_raises (planner_build_plan C) ->
  never_raises (qgen_generate C) ->
  exists s env, new_engine B C cfg w = (Ok tt, s, env).
Proof.
  intros Hp Hg. rewrite new_engine_eq. unfold call_plan. simpl.
  destruct (Hp (plan_args cfg) w) as (plan & w1 & ->). cbv zeta.
  destruct (topics_or_default_nonempty plan) as (t & rest & ->).
  change (py_getitem (t :: rest) 0)
    with (if (len (t :: rest) <=? 0) then @Raise string IndexError else Ok t).
  destruct (len (t :: rest) <=? 0) eqn:El.
  { apply Z.leb_le in El. unfold len in El. simpl in El. lia. }
  destruct (_generate_question B C _ t _ _ _ _) as [r env2] eqn:Eg.
  destruct (generate_question_returns _ _ _ _ _ _ _ _ Hg Eg) as (q & ->).
  eauto.
Qed.

End SessionFacts.

(** ** The properties of the specification *)

Section Specification.

Context {World : Type} (B : Builtins) (C : Collaborators World).

(** C1, as amended.  When the evaluation of the turn has a score of 45
    or less and says not to move on, then whatever the streaks are the
    turn commits the difficulty easy: the call of [step] leaves the
    difficulty easy, every call of the generator in that turn is given
    the difficulty easy and the hint flag set, and if the call returns
    the turn is logged as easy. *)
Theorem low_score_override_when_staying s (env : Env World) msg plan w1 r s' env'
    (Hcursor : cursor_ok s)
    (Heval : observer_analyze C (step_analyze_args (after_user msg s) msg) (world env)
             = (Ok plan, w1))
    (Hscore : score_0_100 plan <= 45)
    (Hstay : should_move_on plan = false)
    (Hstep : step B C msg s env = (r, s', env')) :
  difficulty s' = "easy"
  /\ (exists evs,
        trace env' = trace env ++ evs
        /\ forall a res, In (EvGenerate a res) evs ->
             ga_difficulty a = "easy" /\ ga_need_hint a = true)
  /\ (forall visible, r = Ok visible ->
        exists t, turns (logger s') = turns (logger s) ++ [t]
                  /\ tl_difficulty t = "easy").
Proof.
  assert (Hd : difficulty s' = "easy").
  { destruct (step_cases B C msg s env r s' env' Hcursor Hstep)
      as [(e & _ & _ & Ea)
         | (plan0 & env1 & planned & plan' & d & idx & t2 & s4 & Ea & -> & Htd & -> & Hcases)].
    { unfold call_analyze in Ea. rewrite Heval in Ea. discriminate. }
    unfold call_analyze in Ea. rewrite Heval in Ea. injection Ea as <- _.
    destruct Htd as (_ & _ & _ & _ & Hs & _).
    destruct (Hs Hstay) as (_ & _ & Hlow & _). destruct (Hlow Hscore) as (-> & _).
    destruct Hcases as [(e & _ & -> & _)
                       | (gen & env2 & _ & [(e & _ & -> & _) | (v & _ & -> & _)])];
      reflexivity. }
  split; [exact Hd |]. split.
  - destruct (step_generate_calls B C msg s env r s' env' Hcursor Hstep) as (evs & Ht & Hall).
    exists evs. split; [exact Ht |].
    intros a res Hin.
    destruct (Hall a res Hin) as (plan0 & w0 & planned & plan' & d & idx & Ha & Htd & _ & -> & ->).
    rewrite Heval in Ha. injection Ha as <- _.
    destruct Htd as (_ & _ & _ & _ & Hs & _).
    destruct (Hs Hstay) as (_ & _ & Hlow & _). destruct (Hlow Hscore) as (-> & ->).
    split; reflexivity.
  - intros visible ->.
    destruct (step_returns B C _ _ _ _ _ _ Hstep) as (_ & _ & t & Hl & _ & _ & _ & _ & Hdt).
    exists t. split; [exact Hl | congruence].
Qed.

(** C2.  The code does not keep the no-raise contract of finalization:
    when the reply of the backend is a text that cannot be decoded as
    JSON and contains no opening brace, [_safe_json_load] re-raises the
    decoder's [JSONDecodeError]; [build_feedback] handles
    [ValidationError] only, so it raises instead of returning the
    fallback report, and so does [finish].  The same holds for every
    exception of [_safe_json_load] that is not a [ValidationError], on
    any reply. *)
Theorem build_feedback_raises_on_unparsable_text {Json : Type} (K : Backend World Json)
    model a w raw w'
    (Hchat : client_chat K model (manager_messages B K a) (Some "json") (2 # 10)%Q w
             = (Ok (PyStr raw), w'))
    (Hjson : json_loads K (py_strip B raw) = Raise JSONDecodeError)
    (Hbrace : py_find (py_strip B raw) "{" = -1) :
  _safe_json_load B K raw = Raise JSONDecodeError
  /\ HiringManagerAgent_build_feedback B K model a w = (Raise JSONDecodeError, w')
  /\ (forall im om self tr,
        feedback_args self = a ->
        finish (agents_of B K im om model) self {| world := w; trace := tr |}
        = (Raise JSONDecodeError, self,
           {| world := w'; trace := tr ++ [EvFeedback a (Raise JSONDecodeError)] |}))
  /\ forall raw0 w0 w0' e,
       client_chat K model (manager_messages B K a) (Some "json") (2 # 10)%Q w0
         = (Ok raw0, w0') ->
       load_reply B K raw0 = Raise e ->
       is_ValidationError e = false ->
       HiringManagerAgent_build_feedback B K model a w0 = (Raise e, w0').
Proof.
  assert (Hload : _safe_json_load B K raw = Raise JSONDecodeError).
  { unfold _safe_json_load. rewrite Hjson, Hbrace. reflexivity. }
  assert (Hany : forall raw0 w0 w0' e,
            client_chat K model (manager_messages B K a) (Some "json") (2 # 10)%Q w0
              = (Ok raw0, w0') ->
            load_reply B K raw0 = Raise e ->
            is_ValidationError e = false ->
            HiringManagerAgent_build_feedback B K model a w0 = (Raise e, w0')).
  { intros raw0 w0 w0' e Hc Hl He.
    unfold HiringManagerAgent_build_feedback. rewrite Hc.
    destruct raw0 as [| b | z | q | s0 | xs | kvs]; cbn [load_reply] in Hl;
      try (injection Hl as <-; reflexivity).
    rewrite Hl. simpl. rewrite He. reflexivity. }
  pose proof (Hany (PyStr raw) w w' JSONDecodeError Hchat Hload eq_refl) as Hfb.
  split; [exact Hload |]. split; [exact Hfb |]. split; [| exact Hany].
  intros im om self tr Ha.
  unfold finish, bind, call, call_feedback. simpl. rewrite Ha, Hfb. reflexivity.
Qed.

(** C3.  Per turn the streaks are updated first, as the specification
    words it: a score of 75 or more extends the good streak and clears
    the poor one; otherwise a score of 45 or less, or a quality of poor
    or unknown, extends the poor streak and clears the good one;
    otherwise both stay.  Then, in every reachable state, the two
    consecutive [if]s of [_update_difficulty_by_streaks] act as the
    specification's if / else-if: a good streak of 2 promotes one step
    (hard stays hard) and is reset, else a poor streak of 2 demotes one
    step (easy stays easy) and is reset.  The streaks a call of [step]
    leaves are those of that transition, and the difficulty is always
    one of easy, medium, hard. *)
Theorem streak_rule_follows_spec s (env : Env World) plan
    (Hreach : reachable B C s env) :
  let s1 := update_streaks plan s in
  let s2 := _update_difficulty_by_streaks s1 in
  (streak_good (state s1), streak_poor (state s1))
    = spec_streaks (score_0_100 plan) (answer_quality plan)
        (streak_good (state s)) (streak_poor (state s))
  /\ (difficulty s2, streak_good (state s2), streak_poor (state s2))
     = spec_transition (difficulty s) (streak_good (state s1)) (streak_poor (state s1))
  /\ In (difficulty s) DIFFICULTIES
  /\ In (difficulty s2) DIFFICULTIES
  /\ forall msg w1 r s' env',
       observer_analyze C (step_analyze_args (after_user msg s) msg) (world env)
         = (Ok plan, w1) ->
       step B C msg s env = (r, s', env') ->
       streak_good (state s') = streak_good (state s2)
       /\ streak_poor (state s') = streak_poor (state s2)
       /\ (difficulty s' = difficulty s2 \/ difficulty s' = "easy").
Proof.
  pose proof (reachable_engine_ok B C s env Hreach) as (Hc & Hs & Hd).
  intros s1 s2.
  assert (E1 : (streak_good (state s1), streak_poor (state s1))
               = spec_streaks (score_0_100 plan) (answer_quality plan)
                   (streak_good (state s)) (streak_poor (state s))).
  { unfold s1. rewrite update_streaks_spec. reflexivity. }
  assert (Hlt : streak_good (state s1) < 2 \/ streak_poor (state s1) < 2).
  { destruct Hs as (_ & Hg & Hp). unfold spec_streaks in E1.
    destruct (75 <=? _); [| destruct (_ || _ || _)]; injection E1 as -> ->; lia. }
  assert (E2 : (difficulty s2, streak_good (state s2), streak_poor (state s2))
               = spec_transition (difficulty s) (streak_good (state s1))
                   (streak_poor (state s1))).
  { unfold s2. rewrite (update_difficulty_spec s1 Hlt). unfold s1.
    destruct (update_streaks_frame plan s) as (-> & _). reflexivity. }
  split; [exact E1 |]. split; [exact E2 |]. split; [exact Hd |].
  split.
  { apply (streak_phase_ok plan s); assumption. }
  intros msg w1 r s' env' Ha Hstep.
  exact (step_policy_after B C msg s env plan w1 r s' env' Hc Ha Hstep).
Qed.

(** C4.  In every reachable state the current topic is an entry of the
    topic plan and [topic_index] is an offset into the plan (the entry
    there being the current topic).  Every call of [step] keeps the plan
    and commits a topic of the plan; when the evaluation says not to
    move on, the committed topic is the one committed before; the turn
    record carries the committed topic. *)
Theorem committed_topic_in_plan s (env : Env World)
    (Hreach : reachable B C s env) :
  (In (current_topic s) (topic_plan s)
   /\ 0 <= topic_index (state s) < len (topic_plan s)
   /\ py_getitem (topic_plan s) (topic_index (state s)) = Ok (current_topic s))
  /\ forall msg r s' env',
       step B C msg s env = (r, s', env') ->
       topic_plan s' = topic_plan s
       /\ In (current_topic s') (topic_plan s)
       /\ 0 <= topic_index (state s') < len (topic_plan s)
       /\ (forall plan w1,
             observer_analyze C (step_analyze_args (after_user msg s) msg) (world env)
               = (Ok plan, w1) ->
             should_move_on plan = false -> current_topic s' = current_topic s)
       /\ (forall visible, r = Ok visible ->
             exists t, turns (logger s') = turns (logger s) ++ [t]
                       /\ tl_topic t = current_topic s').
Proof.
  pose proof (reachable_engine_ok B C s env Hreach) as Hok.
  destruct Hok as ((Hr & Hg) & Hrest0).
  split.
  { split; [eapply py_getitem_In; exact Hg | split; assumption]. }
  intros msg r s' env' Hstep.
  destruct (step_engine_ok B C msg s env r s' env' (conj (conj Hr Hg) Hrest0) Hstep)
    as (((Hr' & Hg') & _) & Hplan & _).
  rewrite Hplan in Hr', Hg'.
  split; [exact Hplan |]. split; [eapply py_getitem_In; exact Hg' |].
  split; [exact Hr' |].
  destruct (step_cases B C msg s env r s' env' (conj Hr Hg) Hstep)
    as [(e & -> & -> & Ea)
       | (plan0 & env1 & planned & plan' & d & idx & t2 & s4 & Ea & -> & Htd & -> & Hcases)].
  - split.
    + intros plan w1 Ha _. reflexivity.
    + intros v Hv. discriminate.
  - assert (Hcur : current_topic s' = planned).
    { destruct Hcases as [(e & _ & -> & _)
                         | (gen & env2 & _ & [(e & _ & -> & _) | (v & _ & -> & _)])];
        reflexivity. }
    split.
    + intros plan w1 Ha Hstay.
      unfold call_analyze in Ea. rewrite Ha in Ea. injection Ea as <- _.
      destruct Htd as (_ & _ & _ & _ & Hs & _).
      destruct (Hs Hstay) as (-> & _). exact Hcur.
    + intros v ->.
      destruct (step_returns B C _ _ _ _ _ _ Hstep) as (_ & _ & t & Hl & _ & _ & _ & Ht & _).
      exists t. split; assumption.
Qed.

(** C5, as amended.  In every run of the question-generation step the
    first call of the generator is told to avoid the last 8 entries of
    the questions asked so far, in their order and with repetitions
    kept (all of them if there are fewer than 8); each retry that the
    consistency guard causes is told to avoid these same entries
    followed by the draft the guard has just rejected, hence at most 9
    entries. *)
Theorem avoid_list_shape self topic level tag flag (env : Env World) r env'
    (Hrun : _generate_question B C self topic level tag flag env = (r, env')) :
  let base := last_n 8 (asked_questions_text self) in
  (length base <= 8)%nat
  /\ length base = Nat.min 8 (length (asked_questions_text self))
  /\ (exists older, asked_questions_text self = older ++ base)
  /\ exists evs a0 r0 retries,
       trace env' = trace env ++ evs
       /\ generate_calls evs = (a0, r0) :: retries
       /\ ga_avoid_questions a0 = base
       /\ retries_avoid base r0 retries
       /\ forall a res, In (a, res) retries ->
            length (ga_avoid_questions a) = S (length base)
            /\ (length (ga_avoid_questions a) <= 9)%nat.
Proof.
  intros base.
  assert (Hlen : length base = Nat.min 8 (length (asked_questions_text self))).
  { unfold base. apply last_n_length. }
  split; [lia |]. split; [exact Hlen |].
  split; [unfold base; apply last_n_suffix |].
  destruct (generate_question_spec B C _ _ _ _ _ _ _ _ Hrun)
    as (evs & r0 & retries & Ht & Hcalls & _ & _ & Hr & _).
  exists evs, (generate_args self topic level tag flag base), r0, retries.
  split; [exact Ht |]. split; [exact Hcalls |]. split; [reflexivity |].
  split; [exact Hr |].
  intros a res Hin. pose proof (retries_avoid_length _ _ _ Hr a res Hin) as H.
  split; [exact H |]. unfold base in *. lia.
Qed.

(** C6.  From a reachable state with [max_regen_attempts = 1], with a
    guard that reports a mismatch for every draft and collaborators that
    return, a call of [step] returns a visible message after exactly two
    calls of the generator, the initial one and one retry; the draft of
    the retry, the last one, is the question handed to the interviewer,
    stored among the asked questions and logged.  For every value of
    [max_regen_attempts] one run of the question-generation step calls
    the generator at most once plus that number of times (once if the
    number is negative). *)
Theorem regeneration_bounded s (env : Env World) msg
    (Hreach : reachable B C s env)
    (Hmax : max_regen_attempts s = 1)
    (Hguard : guard_always_mismatch B C)
    (Hobs : never_raises (observer_analyze C))
    (Hgen : never_raises (qgen_generate C))
    (Hren : never_raises (interviewer_render_message C)) :
  (exists visible s' env' evs a1 g1 a2 g2 ar,
     step B C msg s env = (Ok visible, s', env')
     /\ trace env' = trace env ++ evs ++ [EvRender ar (Ok visible)]
     /\ generate_calls evs = [(a1, Ok g1); (a2, Ok g2)]
     /\ ra_question_text ar = question_text g2
     /\ asked_questions_text s' = asked_questions_text s ++ [question_text g2]
     /\ exists t, turns (logger s') = turns (logger s) ++ [t]
                  /\ tl_ideal_answer_short t = ideal_answer_short g2
                  /\ tl_agent_visible_message t = visible)
  /\ forall self topic level tag flag (env0 : Env World) r env1,
       _generate_question B C self topic level tag flag env0 = (r, env1) ->
       exists evs,
         trace env1 = trace env0 ++ evs
         /\ Z.of_nat (length (generate_calls evs)) <= 1 + Z.max 0 (max_regen_attempts self).
Proof.
  split.
  2: { intros self topic level tag flag env0 r env1 Hrun.
       destruct (generate_question_spec B C _ _ _ _ _ _ _ _ Hrun)
         as (evs & r0 & retries & Ht & Hcalls & Hl & _).
       exists evs. split; [exact Ht |]. rewrite Hcalls. simpl length. lia. }
  pose proof (reachable_engine_ok B C s env Hreach) as (Hc & _).
  destruct (step B C msg s env) as [[r s'] env'] eqn:Hstep.
  destruct (step_cases B C msg s env r s' env' Hc Hstep)
    as [(e & _ & _ & Ea)
       | (plan & env1 & planned & plan' & d & idx & t2 & s4 & Ea & -> & Htd & -> & Hcases)].
  { unfold call_analyze in Ea.
    destruct (Hobs (step_analyze_args (after_user msg s) msg) (world env)) as (p & w & Ho).
    rewrite Ho in Ea. discriminate. }
  pose proof (call_analyze_trace C _ _ _ _ Ea) as Hta.
  destruct Hcases as [(e & _ & _ & Hg) | (gen & env2 & Hg & Hcases)].
  { destruct (generate_question_returns B C _ _ _ _ _ _ _ _ Hgen Hg) as (g & Hr). discriminate. }
  destruct Hcases as [(e & _ & _ & Hr) | (visible & -> & -> & Hr)].
  { unfold call_render in Hr.
    destruct (Hren (render_args msg plan' gen
                      (after_generate planned gen
                         (set_current_topic planned
                            (commit_policy d idx
                               (_update_difficulty_by_streaks
                                  (update_streaks plan (after_user msg s)))))))
                   (world env2)) as (v & w & Ho).
    rewrite Ho in Hr. discriminate. }
  pose proof (call_render_trace C _ _ _ _ Hr) as Htr.
  destruct (generate_question_spec B C _ _ _ _ _ _ _ _ Hg)
    as (evs & r0 & retries & Ht & Hcalls & _ & _ & Hra & Hlast).
  pose proof (generate_question_count B C _ _ _ _ _ _ _ _ Hguard Hgen Hg) as Hcount.
  assert (Hm4 : max_regen_attempts
                  (set_current_topic planned
                     (commit_policy d idx
                        (_update_difficulty_by_streaks
                           (update_streaks plan (after_user msg s))))) = 1).
  { simpl.
    destruct (update_difficulty_frame (update_streaks plan (after_user msg s)))
      as (_ & _ & _ & _ & _ & _ & _ & ->).
    destruct (update_streaks_frame plan (after_user msg s))
      as (_ & _ & _ & _ & _ & _ & _ & _ & ->).
    exact Hmax. }
  rewrite Hm4, Ht, generate_calls_app, length_app, Hcalls in Hcount.
  simpl in Hcount.
  destruct retries as [| [a2 r2] [| c rest]]; simpl in Hcount; try lia.
  destruct Hra as [(g1 & -> & _) _].
  unfold last_outcome in Hlast. simpl in Hlast. subst r2.
  exists visible. do 2 eexists.
  exists ([EvAnalyze (step_analyze_args (after_user msg s) msg) (Ok plan)] ++ evs).
  do 2 eexists. exists a2, gen. eexists.
  split; [reflexivity |].
  split; [rewrite Htr, Ht, Hta, <- !app_assoc; reflexivity |].
  split; [rewrite generate_calls_app, Hcalls; reflexivity |].
  split; [reflexivity |].
  unfold after_render, after_generate. simpl.
  destruct (update_difficulty_frame (update_streaks plan (after_user msg s)))
    as (_ & _ & _ & _ & _ & -> & -> & _).
  destruct (update_streaks_frame plan (after_user msg s))
    as (_ & _ & _ & _ & _ & _ & -> & -> & _).
  simpl.
  split; [reflexivity |].
  eexists. split; [reflexivity |]. split; reflexivity.
Qed.



(** C8.  A constructor call that returns has asked the planner for a
    plan and uses the fixed 3-topic default plan if the plan returned is
    empty; the seed topic is the first plan entry, with the cursor on
    it; the difficulty is easy; one warm-up question has been generated
    (intent warmup, no hint, nothing to avoid) and its last draft is the
    second assistant message of the history, after the introduction, so
    that two assistant messages and no user message exist before any
    call of [step].  The planner of [agents.py] itself returns the
    default plan when the reply of the backend cannot be parsed or
    validated or has no topics, and the constructor returns whenever the
    planner and the generator do. *)
Theorem construction_contract cfg (w : World) s env
    (Hnew : new_engine B C cfg w = (Ok tt, s, env)) :
  (exists plan w1 first_q evs r0 retries,
     planner_build_plan C (plan_args cfg) w = (Ok plan, w1)
     /\ (topics plan = [] -> topic_plan s = DEFAULT_TOPICS)
     /\ (topics plan <> [] -> topic_plan s = topics plan)
     /\ py_getitem (topic_plan s) 0 = Ok (current_topic s)
     /\ topic_index (state s) = 0
     /\ difficulty s = "easy"
     /\ history s =
          [ {| role := "assistant";
               content := build_interviewer_intro (cfg_position cfg)
                            (cfg_target_grade cfg) (cfg_experience cfg) |};
            {| role := "assistant"; content := question_text first_q |} ]
     /\ get_all_assistant_messages s =
          [ build_interviewer_intro (cfg_position cfg) (cfg_target_grade cfg)
              (cfg_experience cfg);
            question_text first_q ]
     /\ asked_questions_text s = [question_text first_q]
     /\ turn_id s = 0 /\ turns (logger s) = []
     /\ trace env = EvPlan (plan_args cfg) (Ok plan) :: evs
     /\ generate_calls evs =
          ({| ga_position := cfg_position cfg;
              ga_grade := cfg_target_grade cfg;
              ga_experience := cfg_experience cfg;
              ga_topic := current_topic s;
              ga_difficulty := "easy";
              ga_intent := "warmup";
              ga_need_hint := false;
              ga_avoid_questions := [];
              ga_lang := cfg_lang cfg |}, r0) :: retries
     /\ last_outcome r0 retries = Ok first_q)
  /\ (forall (Json : Type) (K : Backend World Json) model a w0 raw w0',
        client_chat K model (planner_messages B K a) (Some "json") (3 # 10)%Q w0
          = (Ok raw, w0') ->
        exists p,
          TopicPlannerAgent_build_plan B K model a w0 = (Ok p, w0')
          /\ topics p <> []
          /\ ((exists e, load_reply B K raw = Raise e)
              \/ (exists data e, load_reply B K raw = Ok data
                                 /\ TopicPlan_model_validate K data = Raise e)
              \/ (exists data p0, load_reply B K raw = Ok data
                                  /\ TopicPlan_model_validate K data = Ok p0
                                  /\ topics p0 = []) ->
              p = default_plan))
  /\ (never_raises (planner_build_plan C) -> never_raises (qgen_generate C) ->
      forall cfg0 w0, exists s0 env0, new_engine B C cfg0 w0 = (Ok tt, s0, env0)).
Proof.
  split; [| split].
  - destruct (new_engine_ok_cases B C cfg w s env Hnew)
      as (plan & w1 & t & rest & q & Hp & Hts & Hg & ->).
    destruct (generate_question_spec B C _ _ _ _ _ _ _ _ Hg)
      as (evs & r0 & retries & Ht & Hcalls & _ & _ & _ & Hlast).
    exists plan, w1, q, evs, r0, retries.
    split; [exact Hp |].
    split; [intros He; unfold topics_or_default in Hts; rewrite He in Hts;
            simpl; symmetry; exact Hts |].
    split; [intros Hne; unfold topics_or_default in Hts;
            destruct (topics plan); [congruence | simpl; symmetry; exact Hts] |].
    repeat split; try reflexivity; try assumption.
    symmetry. exact Hlast.
  - intros Json K model a w0 raw w0' Hchat. eapply build_plan_fallback. exact Hchat.
  - intros Hp Hg cfg0 w0. apply new_engine_returns; assumption.
Qed.

(** C9, as amended.  In every reachable state at most one of
    [streak_good] and [streak_poor] is non-zero (the other having been
    reset on progress in the opposite direction), and each is 0 or 1;
    both are zero when the session starts.  A turn whose evaluation counts
    as good leaves the poor streak at zero, and a turn whose evaluation
    counts as poor leaves the good streak at zero. *)
Theorem streaks_never_both_nonzero s (env : Env World)
    (Hreach : reachable B C s env) :
  (streak_good (state s) = 0 \/ streak_poor (state s) = 0)
  /\ 0 <= streak_good (state s) <= 1
  /\ 0 <= streak_poor (state s) <= 1
  /\ (forall msg plan w1 r s' env',
        observer_analyze C (step_analyze_args (after_user msg s) msg) (world env)
          = (Ok plan, w1) ->
        step B C msg s env = (r, s', env') ->
        (75 <= score_0_100 plan -> streak_poor (state s') = 0)
        /\ (score_0_100 plan < 75 ->
            score_0_100 plan <= 45 \/ answer_quality plan = "poor"
            \/ answer_quality plan = "unknown" ->
            streak_good (state s') = 0))
  /\ forall cfg w s0 env0,
       new_engine B C cfg w = (Ok tt, s0, env0) ->
       streak_good (state s0) = 0 /\ streak_poor (state s0) = 0.
Proof.
  pose proof (reachable_engine_ok B C s env Hreach) as (Hc & (Hone & Hg & Hp) & _).
  split; [exact Hone |]. split; [exact Hg |]. split; [exact Hp |].
  split.
  2: { intros cfg w s0 env0 Hnew.
       destruct (new_engine_ok_cases B C cfg w s0 env0 Hnew)
         as (plan & w1 & t & rest & q & _ & _ & _ & ->).
       split; reflexivity. }
  intros msg plan w1 r s' env' Ha Hstep.
  destruct (step_policy_after B C msg s env plan w1 r s' env' Hc Ha Hstep) as (-> & -> & _).
  pose proof (update_streaks_spec plan s) as Hs.
  assert (Hlt : streak_good (state (update_streaks plan s)) < 2
                \/ streak_poor (state (update_streaks plan s)) < 2).
  { unfold spec_streaks in Hs.
    destruct (75 <=? _); [| destruct (_ || _ || _)]; injection Hs as -> ->; lia. }
  pose proof (update_difficulty_spec _ Hlt) as Ht.
  unfold spec_transition in Ht. unfold spec_streaks in Hs.
  split.
  - intros H75. apply Z.leb_le in H75. rewrite H75 in Hs. injection Hs as Hs1 Hs2.
    rewrite Hs1, Hs2 in Ht.
    destruct (2 <=? streak_good (state s) + 1); [| simpl in Ht];
      injection Ht as _ _ ->; reflexivity.
  - intros H75 Hpoor. apply Z.leb_gt in H75. rewrite H75 in Hs.
    assert (Hq : (score_0_100 plan <=? 45) || String.eqb (answer_quality plan) "poor"
                 || String.eqb (answer_quality plan) "unknown" = true).
    { destruct Hpoor as [H | [H | H]].
      - apply Z.leb_le in H. rewrite H. reflexivity.
      - rewrite H. simpl. rewrite orb_false_r. apply orb_true_r.
      - rewrite H. simpl. apply orb_true_r. }
    rewrite Hq in Hs. injection Hs as Hs1 Hs2. rewrite Hs1, Hs2 in Ht.
    simpl in Ht.
    destruct (2 <=? streak_poor (state s) + 1); injection Ht as _ -> _; reflexivity.
Qed.

End Specification.

(** ** The sample sessions *)

Lemma triple_eta {A B C : Type} (x : A * B * C) : x = (fst (fst x), snd (fst x), snd x).
Proof. destruct x as [[a b] c]. reflexivity. Qed.

Lemma sample_session_reachable ts notes k script msgs visibles :
  session_result (sample_session ts notes k script msgs) = Ok visibles ->
  reachable ascii_builtins (sample_collaborators ts (sample_observer notes))
    (session_engine (sample_session ts notes k script msgs))
    (session_env (sample_session ts notes k script msgs)).
Proof.
  unfold sample_session.
  destruct (new_engine ascii_builtins (sample_collaborators ts (sample_observer notes))
              (sample_config k) (script, 0)) as [[[[] | e] s0] env0] eqn:En.
  - intros _. eapply steps_reachable.
    + eapply reach_new. exact En.
    + apply triple_eta.
  - discriminate.
Qed.

(** The end-to-end scenario of the specification: plan a, b, c.  A first
    answer scored 80 with a recommendation to move on to b leaves a good
    streak of 1, the difficulty easy and the cursor on b; a second answer
    scored 80 promotes to medium and resets the streak. *)
Example end_to_end_scenario :
  (streak_good (state (session_engine on_b_of_abc)) = 1
   /\ difficulty (session_engine on_b_of_abc) = "easy"
   /\ current_topic (session_engine on_b_of_abc) = "b"
   /\ topic_index (state (session_engine on_b_of_abc)) = 1)
  /\ (streak_good (state (session_engine promoted)) = 0
      /\ difficulty (session_engine promoted) = "medium").
Proof. repeat split; vm_compute; reflexivity. Qed.

(** C1, counterexample.  After two strong answers the difficulty is
    medium.  The third evaluation has score 30 and says to move on: the
    turn is generated and logged at medium, without a hint. *)
Lemma low_score_moving_on_not_overridden :
  reachable ascii_builtins (relaxed plan_abc) (session_engine promoted) (session_env promoted)
  /\ observer_analyze (relaxed plan_abc)
       (step_analyze_args (after_user "m3" (session_engine promoted)) "m3")
       (world (session_env promoted)) = (Ok weak_move, ([], 3))
  /\ score_0_100 weak_move <= 45
  /\ should_move_on weak_move = true
  /\ session_result (next_step (relaxed plan_abc) "m3" promoted) = Ok "Ok. q3"
  /\ difficulty (session_engine (next_step (relaxed plan_abc) "m3" promoted)) = "medium"
  /\ map tl_difficulty (turns (logger (session_engine (next_step (relaxed plan_abc) "m3" promoted))))
     = ["easy"; "medium"; "medium"]
  /\ map (fun c => (ga_difficulty (fst c), ga_need_hint (fst c)))
       (generate_calls
          (skipn (length (trace (session_env promoted)))
             (trace (session_env (next_step (relaxed plan_abc) "m3" promoted)))))
     = [("medium", false)].
Proof.
  split.
  { apply (sample_session_reachable plan_abc "" 1 _ ["m1"; "m2"] ["Ok. q1"; "Ok. q2"]).
    vm_compute. reflexivity. }
  split; [vm_compute; reflexivity |].
  split; [vm_compute; discriminate |].
  repeat split; vm_compute; reflexivity.
Qed.

(** C1, witness: a fresh session, a weak answer, stay on the topic. *)
Lemma low_score_override_when_staying_witness :
  cursor_ok (session_engine fresh_weak_stay)
  /\ observer_analyze (relaxed plan_abc)
       (step_analyze_args (after_user "m1" (session_engine fresh_weak_stay)) "m1")
       (world (session_env fresh_weak_stay)) = (Ok weak_stay, ([], 1))
  /\ score_0_100 weak_stay <= 45
  /\ should_move_on weak_stay = false
  /\ difficulty (session_engine (next_step (relaxed plan_abc) "m1" fresh_weak_stay)) = "easy".
Proof.
  assert (Hc : cursor_ok (session_engine fresh_weak_stay)).
  { apply (reachable_engine_ok ascii_builtins (relaxed plan_abc) _ (session_env fresh_weak_stay)).
    apply (sample_session_reachable plan_abc "" 1 [weak_stay] [] []). reflexivity. }
  assert (Ha : observer_analyze (relaxed plan_abc)
                 (step_analyze_args (after_user "m1" (session_engine fresh_weak_stay)) "m1")
                 (world (session_env fresh_weak_stay)) = (Ok weak_stay, ([], 1)))
    by reflexivity.
  assert (Hs : score_0_100 weak_stay <= 45) by (simpl; lia).
  assert (Hm : should_move_on weak_stay = false) by reflexivity.
  split; [exact Hc |]. split; [exact Ha |]. split; [exact Hs |]. split; [exact Hm |].
  exact (proj1 (low_score_override_when_staying ascii_builtins (relaxed plan_abc)
                  (session_engine fresh_weak_stay) (session_env fresh_weak_stay) "m1"
                  weak_stay ([], 1) _ _ _ Hc Ha Hs Hm
                  (triple_eta (next_step (relaxed plan_abc) "m1" fresh_weak_stay)))).
Defined.

(** C2, witness: the backend replies with a sentence that holds no JSON;
    [build_feedback] raises [JSONDecodeError]. *)
Lemma build_feedback_raises_on_unparsable_text_witness :
  client_chat toy_backend "m"
    (manager_messages ascii_builtins toy_backend (feedback_args (session_engine two_turns)))
    (Some "json") (2 # 10)%Q [no_json] = (Ok (PyStr no_json), [])
  /\ json_loads toy_backend (py_strip ascii_builtins no_json) = Raise JSONDecodeError
  /\ py_find (py_strip ascii_builtins no_json) "{" = -1
  /\ HiringManagerAgent_build_feedback ascii_builtins toy_backend "m"
       (feedback_args (session_engine two_turns)) [no_json]
     = (Raise JSONDecodeError, []).
Proof.
  assert (H1 : client_chat toy_backend "m"
                 (manager_messages ascii_builtins toy_backend
                    (feedback_args (session_engine two_turns)))
                 (Some "json") (2 # 10)%Q [no_json] = (Ok (PyStr no_json), [])) by reflexivity.
  assert (H2 : json_loads toy_backend (py_strip ascii_builtins no_json)
               = Raise JSONDecodeError) by reflexivity.
  assert (H3 : py_find (py_strip ascii_builtins no_json) "{" = -1) by reflexivity.
  split; [exact H1 |]. split; [exact H2 |]. split; [exact H3 |].
  exact (proj1 (proj2 (build_feedback_raises_on_unparsable_text ascii_builtins toy_backend
                         "m" (feedback_args (session_engine two_turns)) [no_json] no_json []
                         H1 H2 H3))).
Defined.

(** C3, witness: the first turn of a fresh session. *)
Lemma streak_rule_follows_spec_witness :
  reachable ascii_builtins (relaxed plan_abc)
    (session_engine fresh_weak_stay) (session_env fresh_weak_stay)
  /\ (streak_good (state (update_streaks weak_stay (session_engine fresh_weak_stay))),
      streak_poor (state (update_streaks weak_stay (session_engine fresh_weak_stay))))
     = spec_streaks 30 "poor" 0 0.
Proof.
  assert (Hr : reachable ascii_builtins (relaxed plan_abc)
                 (session_engine fresh_weak_stay) (session_env fresh_weak_stay)).
  { apply (sample_session_reachable plan_abc "" 1 [weak_stay] [] []). reflexivity. }
  split; [exact Hr |].
  exact (proj1 (streak_rule_follows_spec ascii_builtins (relaxed plan_abc)
                  (session_engine fresh_weak_stay) (session_env fresh_weak_stay)
                  weak_stay Hr)).
Defined.

(** C4, witness: a fresh session. *)
Lemma committed_topic_in_plan_witness :
  reachable ascii_builtins (relaxed plan_abc)
    (session_engine fresh_weak_stay) (session_env fresh_weak_stay)
  /\ In (current_topic (session_engine fresh_weak_stay))
       (topic_plan (session_engine fresh_weak_stay))
  /\ 0 <= topic_index (state (session_engine fresh_weak_stay))
     < len (topic_plan (session_engine fresh_weak_stay)).
Proof.
  assert (Hr : reachable ascii_builtins (relaxed plan_abc)
                 (session_engine fresh_weak_stay) (session_env fresh_weak_stay)).
  { apply (sample_session_reachable plan_abc "" 1 [weak_stay] [] []). reflexivity. }
  split; [exact Hr |].
  destruct (committed_topic_in_plan ascii_builtins (relaxed plan_abc)
              (session_engine fresh_weak_stay) (session_env fresh_weak_stay) Hr)
    as ((Hin & Hidx & _) & _).
  split; [exact Hin | exact Hidx].
Defined.

(** C5, counterexample.  Eight turns under a guard that rejects every
    draft: the session completes, and in the eighth turn the first call
    of the generator is told to avoid eight questions and the retry
    nine.  With the agents of [agents.py] on a backend that never
    replies with JSON the same happens, and the nine entries are nine
    copies of the fallback question. *)
Lemma avoid_list_of_nine :
  (session_result eight_turns
   = Ok ["Ok. q3"; "Ok. q5"; "Ok. q7"; "Ok. q9"; "Ok. q11"; "Ok. q13"; "Ok. q15"; "Ok. q17"]
   /\ reachable ascii_builtins (strict plan_abc)
        (session_engine eight_turns) (session_env eight_turns)
   /\ map (fun c => (ga_intent (fst c), ga_avoid_questions (fst c)))
        (skipn 16 (generate_calls (trace (session_env eight_turns))))
      = [ ("check_basics",
           ["q1"; "q3"; "q5"; "q7"; "q9"; "q11"; "q13"; "q15"]);
          ("check_basics_REGEN_TOPIC_MISMATCH",
           ["q1"; "q3"; "q5"; "q7"; "q9"; "q11"; "q13"; "q15"; "q16"]) ]
   /\ map (fun c => length (ga_avoid_questions (fst c)))
        (generate_calls (trace (session_env eight_turns)))
      = [0; 1; 1; 2; 2; 3; 3; 4; 4; 5; 5; 6; 6; 7; 7; 8; 8; 9]%nat)
  /\ (session_result eight_turns_unparsable = Ok (repeat "topic mismatch" 8)
      /\ map (fun c => (ga_intent (fst c), ga_avoid_questions (fst c)))
           (skipn 16 (generate_calls (trace (session_env eight_turns_unparsable))))
         = [ ("fallback", repeat (question_text (fallback_question false)) 8);
             ("fallback_REGEN_TOPIC_MISMATCH",
              repeat (question_text (fallback_question false)) 9) ]).
Proof.
  assert (Hres : session_result eight_turns
                 = Ok ["Ok. q3"; "Ok. q5"; "Ok. q7"; "Ok. q9"; "Ok. q11"; "Ok. q13";
                       "Ok. q15"; "Ok. q17"]) by (vm_compute; reflexivity).
  split.
  - split; [exact Hres |].
    split.
    { exact (sample_session_reachable plan_abc "Topic MISMATCH." 1 _ _ _ Hres). }
    split; vm_compute; reflexivity.
  - split; vm_compute; reflexivity.
Qed.

(** C5, witness: one more run of the question-generation step after the
    eight turns. *)
Lemma avoid_list_shape_witness :
  ninth_run = (fst ninth_run, snd ninth_run)
  /\ length (last_n 8 (asked_questions_text (session_engine eight_turns)))
     = Nat.min 8 (length (asked_questions_text (session_engine eight_turns)))
  /\ exists evs a0 r0 retries,
       trace (snd ninth_run) = trace (session_env eight_turns) ++ evs
       /\ generate_calls evs = (a0, r0) :: retries
       /\ ga_avoid_questions a0 = last_n 8 (asked_questions_text (session_engine eight_turns))
       /\ retries_avoid (last_n 8 (asked_questions_text (session_engine eight_turns)))
            r0 retries.
Proof.
  assert (H : ninth_run = (fst ninth_run, snd ninth_run)) by apply surjective_pairing.
  split; [exact H |].
  destruct (avoid_list_shape ascii_builtins (strict plan_abc) (session_engine eight_turns)
              "a" "easy" "check_basics" false (session_env eight_turns) _ _ H)
    as (_ & Hlen & _ & evs & a0 & r0 & retries & Ht & Hc & Ha & Hr & _).
  split; [exact Hlen |].
  exists evs, a0, r0, retries. repeat split; assumption.
Defined.

(** C6, witness: the first turn of the session whose observer rejects
    every draft and never raises. *)
Lemma regeneration_bounded_witness :
  reachable ascii_builtins steady (session_engine steady_start) (session_env steady_start)
  /\ max_regen_attempts (session_engine steady_start) = 1
  /\ guard_always_mismatch ascii_builtins steady
  /\ never_raises (observer_analyze steady)
  /\ never_raises (qgen_generate steady)
  /\ never_raises (interviewer_render_message steady)
  /\ exists visible s' env' evs a1 g1 a2 g2 ar,
       step ascii_builtins steady "m1" (session_engine steady_start) (session_env steady_start)
       = (Ok visible, s', env')
       /\ trace env' = trace (session_env steady_start) ++ evs ++ [EvRender ar (Ok visible)]
       /\ generate_calls evs = [(a1, Ok g1); (a2, Ok g2)]
       /\ ra_question_text ar = question_text g2.
Proof.
  assert (Hr : reachable ascii_builtins steady
                 (session_engine steady_start) (session_env steady_start)).
  { apply (reach_new ascii_builtins steady (sample_config 1) ([], 0)).
    vm_compute. reflexivity. }
  assert (Hm : max_regen_attempts (session_engine steady_start) = 1) by reflexivity.
  assert (Hg : guard_always_mismatch ascii_builtins steady).
  { intros self topic question w. exists steady_mismatch, w. split; reflexivity. }
  assert (Ho : never_raises (observer_analyze steady)).
  { intros a w. exists steady_mismatch, w. reflexivity. }
  assert (Hq : never_raises (qgen_generate steady)).
  { intros a w. eexists. eexists. reflexivity. }
  assert (Hi : never_raises (interviewer_render_message steady)).
  { intros a w. eexists. eexists. reflexivity. }
  repeat (split; [assumption |]).
  destruct (proj1 (regeneration_bounded ascii_builtins steady (session_engine steady_start)
                     (session_env steady_start) "m1" Hr Hm Hg Ho Hq Hi))
    as (visible & s' & env' & evs & a1 & g1 & a2 & g2 & ar & Hs & Ht & Hc & Hq' & _).
  exists visible, s', env', evs, a1, g1, a2, g2, ar. repeat split; assumption.
Defined.

(** Outside the plans of the specification, a plan that repeats a topic
    id, which nothing in the code rejects: the plan is a, b, a and the
    cursor is on b.  The evaluation says to move on to a topic outside
    the plan: the turn commits the entry at position 2, and the cursor,
    re-derived with [index], is set to position 0, the first position of
    that entry. *)
Example duplicate_plan_cursor_falls_back :
  reachable ascii_builtins (relaxed plan_aba)
    (session_engine on_b_of_aba) (session_env on_b_of_aba)
  /\ topic_plan (session_engine on_b_of_aba) = ["a"; "b"; "a"]
  /\ topic_index (state (session_engine on_b_of_aba)) = 1
  /\ observer_analyze (relaxed plan_aba)
       (step_analyze_args (after_user "m2" (session_engine on_b_of_aba)) "m2")
       (world (session_env on_b_of_aba)) = (Ok off_plan, ([], 2))
  /\ should_move_on off_plan = true
  /\ py_in (next_topic off_plan) (topic_plan (session_engine on_b_of_aba)) = false
  /\ session_result (next_step (relaxed plan_aba) "m2" on_b_of_aba) = Ok "Ok. q2"
  /\ current_topic (session_engine (next_step (relaxed plan_aba) "m2" on_b_of_aba)) = "a"
  /\ topic_index (state (session_engine (next_step (relaxed plan_aba) "m2" on_b_of_aba))) = 0
  /\ topic_index (state (session_engine (next_step (relaxed plan_aba) "m2" on_b_of_aba)))
     <> Z.min (topic_index (state (session_engine on_b_of_aba)) + 1)
          (len (topic_plan (session_engine on_b_of_aba)) - 1).
Proof.
  split.
  { apply (sample_session_reachable plan_aba "" 1 _ ["m1"] ["Ok. q1"]).
    vm_compute. reflexivity. }
  repeat (split; [vm_compute; reflexivity |]).
  vm_compute. discriminate.
Qed.


(** C8, witness: the constructor with the sample collaborators. *)
Lemma construction_contract_witness :
  new_engine ascii_builtins steady (sample_config 1) ([], 0)
  = (Ok tt, session_engine steady_start, session_env steady_start)
  /\ difficulty (session_engine steady_start) = "easy"
  /\ py_getitem (topic_plan (session_engine steady_start)) 0
     = Ok (current_topic (session_engine steady_start))
  /\ exists first_q,
       get_all_assistant_messages (session_engine steady_start)
       = [ build_interviewer_intro "Backend Developer" "Junior" "Python";
           question_text first_q ].
Proof.
  assert (H : new_engine ascii_builtins steady (sample_config 1) ([], 0)
              = (Ok tt, session_engine steady_start, session_env steady_start))
    by (vm_compute; reflexivity).
  split; [exact H |].
  destruct (proj1 (construction_contract ascii_builtins steady (sample_config 1) ([], 0)
                     (session_engine steady_start) (session_env steady_start) H))
    as (plan & w1 & first_q & evs & r0 & retries & _ & _ & _ & Hseed & _ & Hd & _ & Hmsgs & _).
  split; [exact Hd |]. split; [exact Hseed |]. exists first_q. exact Hmsgs.
Defined.

(** C9, counterexample.  In a session that has just been constructed,
    which is a reachable state, both streaks are zero: neither is the one
    non-zero streak. *)
Lemma fresh_session_streaks_both_zero :
  reachable ascii_builtins (relaxed plan_abc)
    (session_engine fresh_weak_stay) (session_env fresh_weak_stay)
  /\ streak_good (state (session_engine fresh_weak_stay)) = 0
  /\ streak_poor (state (session_engine fresh_weak_stay)) = 0
  /\ ~ ((streak_good (state (session_engine fresh_weak_stay)) <> 0
         /\ streak_poor (state (session_engine fresh_weak_stay)) = 0)
        \/ (streak_good (state (session_engine fresh_weak_stay)) = 0
            /\ streak_poor (state (session_engine fresh_weak_stay)) <> 0)).
Proof.
  split.
  { apply (sample_session_reachable plan_abc "" 1 [weak_stay] [] []). reflexivity. }
  split; [reflexivity |]. split; [reflexivity |].
  intros [[H _] | [_ H]]; apply H; reflexivity.
Qed.

(** C9, witness: the session after two strong answers and a promotion. *)
Lemma streaks_never_both_nonzero_witness :
  reachable ascii_builtins (relaxed plan_abc) (session_engine promoted) (session_env promoted)
  /\ (streak_good (state (session_engine promoted)) = 0
      \/ streak_poor (state (session_engine promoted)) = 0).
Proof.
  assert (Hr : reachable ascii_builtins (relaxed plan_abc)
                 (session_engine promoted) (session_env promoted)).
  { apply (sample_session_reachable plan_abc "" 1 _ ["m1"; "m2"] ["Ok. q1"; "Ok. q2"]).
    vm_compute. reflexivity. }
  split; [exact Hr |].
  exact (proj1 (streaks_never_both_nonzero ascii_builtins (relaxed plan_abc)
                  (session_engine promoted) (session_env promoted) Hr)).
Defined.

(** * Further properties *)

(** ** Searching and slicing strings *)

Lemma prefix_char c s :
  String.prefix (String c EmptyString) s
  = match s with String c' _ => Ascii.eqb c c' | EmptyString => false end.
Proof.
  destruct s as [| c' s']; simpl; [reflexivity |].
  destruct (ascii_dec c c') as [-> | Hne].
  - rewrite Ascii.eqb_refl. destruct s'; reflexivity.
  - symmetry. apply Ascii.eqb_neq. exact Hne.
Qed.

Lemma str_length_append a b :
  String.length (a ++ b) = (String.length a + String.length b)%nat.
Proof. induction a as [| c a IH]; simpl; [reflexivity | now rewrite IH]. Qed.

Lemma str_append_assoc a b c : ((a ++ b) ++ c = a ++ (b ++ c))%string.
Proof. induction a as [| x a IH]; simpl; [reflexivity | now rewrite IH]. Qed.

Lemma occurs_append c a b : occurs c (a ++ b) = occurs c a || occurs c b.
Proof.
  induction a as [| x a IH]; simpl; [reflexivity |].
  rewrite IH. now rewrite orb_assoc.
Qed.

(** [find] of a one-character pattern: no occurrence, or the first one. *)
Lemma find_from_char c s pos :
  (occurs c s = false /\ find_from (String c EmptyString) s pos = -1)
  \/ exists pre rest,
       s = (pre ++ String c rest)%string /\ occurs c pre = false
       /\ find_from (String c EmptyString) s pos = Z.of_nat (pos + String.length pre).
Proof.
  revert pos. induction s as [| x s IH]; intros pos.
  - left. split; reflexivity.
  - cbn [find_from]. rewrite prefix_char. cbn [occurs].
    destruct (Ascii.eqb c x) eqn:E.
    + apply Ascii.eqb_eq in E. subst x. right. exists EmptyString, s.
      repeat split. simpl. f_equal. lia.
    + destruct (IH (S pos)) as [[Hn Hf] | (pre & rest & -> & Hn & Hf)].
      * left. split; [exact Hn | exact Hf].
      * right. exists (String x pre), rest. cbn [occurs]. rewrite E, Hn.
        repeat split. rewrite Hf. simpl. f_equal. lia.
Qed.

(** [rfind] of a one-character pattern: no occurrence, or the last one. *)
Lemma rfind_from_char c s pos best :
  (occurs c s = false /\ rfind_from (String c EmptyString) s pos best = best)
  \/ exists pre post,
       s = (pre ++ String c post)%string /\ occurs c post = false
       /\ rfind_from (String c EmptyString) s pos best = Z.of_nat (pos + String.length pre).
Proof.
  revert pos best. induction s as [| x s IH]; intros pos best.
  - left. split; reflexivity.
  - cbn [rfind_from]. rewrite prefix_char. cbn [occurs].
    destruct (Ascii.eqb c x) eqn:E.
    + apply Ascii.eqb_eq in E. subst x.
      destruct (IH (S pos) (Z.of_nat pos)) as [[Hn Hf] | (pre & post & -> & Hn & Hf)].
      * right. exists EmptyString, s. repeat split; [exact Hn |].
        rewrite Hf. simpl. f_equal. lia.
      * right. exists (String c pre), post. repeat split; [exact Hn |].
        rewrite Hf. simpl. f_equal. lia.
    + destruct (IH (S pos) best) as [[Hn Hf] | (pre & post & -> & Hn & Hf)].
      * left. split; [exact Hn | exact Hf].
      * right. exists (String x pre), post. repeat split; [exact Hn |].
        rewrite Hf. simpl. f_equal. lia.
Qed.

Lemma substring_middle pre mid post :
  String.substring (String.length pre) (String.length mid) (pre ++ mid ++ post) = mid.
Proof.
  induction pre as [| x pre IH]; simpl.
  - revert post. induction mid as [| y mid IHm]; intros post; simpl.
    + destruct post; reflexivity.
    + now rewrite IHm.
  - exact IH.
Qed.

(** Two factorings of one string at a character each, the first cut
    strictly before the second. *)
Lemma split_twice pre c r1 p2 d post :
  (pre ++ String c r1 = p2 ++ String d post)%string ->
  (String.length pre < String.length p2)%nat ->
  exists body, p2 = (pre ++ String c body)%string /\ r1 = (body ++ String d post)%string.
Proof.
  revert p2. induction pre as [| x pre IH]; intros p2 H Hl.
  - destruct p2 as [| y p2]; simpl in *; [lia |].
    injection H as -> ->. exists p2. split; reflexivity.
  - destruct p2 as [| y p2]; simpl in *; [lia |].
    injection H as -> H. destruct (IH p2 H) as (body & -> & ->); [lia |].
    exists body. split; reflexivity.
Qed.

Lemma occurs_first_unique c pre rest pre' rest' :
  (pre ++ String c rest = pre' ++ String c rest')%string ->
  occurs c pre = false -> occurs c pre' = false -> pre = pre'.
Proof.
  revert pre'. induction pre as [| x pre IH]; intros pre' H Hn Hn'.
  - destruct pre' as [| y pre']; [reflexivity |].
    simpl in *. injection H as -> _. rewrite Ascii.eqb_refl in Hn'. discriminate.
  - destruct pre' as [| y pre']; simpl in *.
    + injection H as -> _. rewrite Ascii.eqb_refl in Hn. discriminate.
    + injection H as -> H. apply orb_false_iff in Hn, Hn'.
      f_equal. apply IH with (1 := H); tauto.
Qed.

Lemma py_find_char c s pre rest :
  s = (pre ++ String c rest)%string -> occurs c pre = false ->
  py_find s (String c EmptyString) = Z.of_nat (String.length pre).
Proof.
  intros Hs Hn. unfold py_find.
  destruct (find_from_char c s 0) as [[Ho _] | (pre' & rest' & Hs' & Hn' & ->)].
  - subst s. rewrite occurs_append in Ho. simpl in Ho.
    rewrite Ascii.eqb_refl, orb_true_r in Ho. discriminate.
  - rewrite Hs in Hs'. rewrite (occurs_first_unique _ _ _ _ _ Hs' Hn Hn'). reflexivity.
Qed.

Lemma occurs_last_unique c pre post pre' post' :
  (pre ++ String c post = pre' ++ String c post')%string ->
  occurs c post = false -> occurs c post' = false -> pre = pre'.
Proof.
  intros H Hn Hn'.
  destruct (Nat.lt_trichotomy (String.length pre) (String.length pre')) as [Hl | [He | Hl]].
  - destruct (split_twice _ _ _ _ _ _ H Hl) as (body & _ & ->).
    rewrite occurs_append in Hn. simpl in Hn. rewrite Ascii.eqb_refl, orb_true_r in Hn.
    discriminate.
  - clear Hn Hn'. revert pre' H He. induction pre as [| x pre IH]; intros [| y pre'] H He;
      simpl in *; try lia; [reflexivity |].
    injection H as -> H. f_equal. apply IH; [exact H | lia].
  - symmetry in H. destruct (split_twice _ _ _ _ _ _ H Hl) as (body & _ & ->).
    rewrite occurs_append in Hn'. simpl in Hn'. rewrite Ascii.eqb_refl, orb_true_r in Hn'.
    discriminate.
Qed.

Lemma py_rfind_char c s pre post :
  s = (pre ++ String c post)%string -> occurs c post = false ->
  py_rfind s (String c EmptyString) = Z.of_nat (String.length pre).
Proof.
  intros Hs Hn. unfold py_rfind.
  destruct (rfind_from_char c s 0 (-1)) as [[Ho _] | (pre' & post' & Hs' & Hn' & ->)].
  - subst s. rewrite occurs_append in Ho. simpl in Ho.
    rewrite Ascii.eqb_refl, orb_true_r in Ho. discriminate.
  - rewrite Hs in Hs'. rewrite (occurs_last_unique _ _ _ _ _ Hs' Hn Hn'). reflexivity.
Qed.

Lemma py_in_str_char c s : py_in_str (String c EmptyString) s = occurs c s.
Proof.
  unfold py_in_str, py_find.
  destruct (find_from_char c s 0) as [[Hn ->] | (pre & rest & -> & Hn & ->)].
  - rewrite Hn. reflexivity.
  - rewrite occurs_append. simpl. rewrite Ascii.eqb_refl, orb_true_r.
    apply Z.leb_le. lia.
Qed.

(** The slice from the first opening brace to the last closing brace. *)
Lemma brace_slice pre body post :
  occurs "{" pre = false -> occurs "}" post = false ->
  let s := (pre ++ String "{" (body ++ String "}" post))%string in
  py_find s "{" = Z.of_nat (String.length pre)
  /\ py_rfind s "}" = Z.of_nat (String.length pre + S (String.length body))
  /\ py_slice s (py_find s "{") (py_rfind s "}" + 1) = String "{" (body ++ "}").
Proof.
  intros Hpre Hpost s.
  assert (Hstart : py_find s "{" = Z.of_nat (String.length pre)).
  { eapply py_find_char; [reflexivity | exact Hpre]. }
  assert (Hend : py_rfind s "}" = Z.of_nat (String.length pre + S (String.length body))).
  { rewrite (py_rfind_char "}" s (pre ++ String "{" body) post);
      [rewrite str_length_append; reflexivity | | exact Hpost].
    unfold s. rewrite str_append_assoc. reflexivity. }
  split; [exact Hstart |]. split; [exact Hend |].
  rewrite Hstart, Hend. unfold py_slice.
  replace (Z.to_nat (Z.of_nat (String.length pre + S (String.length body)) + 1
                     - Z.of_nat (String.length pre)))
    with (String.length (String "{" (body ++ "}")))
    by (simpl; rewrite str_length_append; simpl; lia).
  rewrite Nat2Z.id. unfold s.
  replace (String "{" (body ++ String "}" post))
    with ((String "{" (body ++ "}")) ++ post)%string
    by (simpl; rewrite str_append_assoc; reflexivity).
  apply substring_middle.
Qed.

Lemma py_head_prefix n s : exists rest, s = py_head n s +++ rest.
Proof.
  revert n. induction s as [| c s IH]; intros n; simpl.
  - exists EmptyString. reflexivity.
  - destruct (is_continuation c).
    + destruct (IH n) as [rest Hr]. exists rest. unfold str_add in *. simpl. congruence.
    + destruct n as [| n].
      * exists (String c s). reflexivity.
      * destruct (IH n) as [rest Hr]. exists rest. unfold str_add in *. simpl. congruence.
Qed.

Lemma py_head_count n s : (char_count (py_head n s) <= n)%nat.
Proof.
  revert n. induction s as [| c s IH]; intros n; simpl.
  - lia.
  - destruct (is_continuation c) eqn:E.
    + simpl. rewrite E. apply IH.
    + destruct n as [| n]; simpl; [lia |]. rewrite E. specialize (IH n). lia.
Qed.

Lemma py_head_all n s : (char_count s <= n)%nat -> py_head n s = s.
Proof.
  revert n. induction s as [| c s IH]; intros n; simpl.
  - reflexivity.
  - destruct (is_continuation c) eqn:E.
    + intros H. f_equal. apply IH. exact H.
    + destruct n as [| n]; [lia |]. intros H. f_equal. apply IH. lia.
Qed.

Lemma rstrip_slash_slash s : rstrip_slash (s +++ "/") = rstrip_slash s.
Proof.
  unfold str_add. induction s as [| c s IH]; simpl; [reflexivity |].
  rewrite IH. reflexivity.
Qed.

Lemma rstrip_slash_last s p : rstrip_slash s <> p +++ "/".
Proof.
  unfold str_add. revert p. induction s as [| c s IH]; intros p; simpl.
  - destruct p; discriminate.
  - destruct (rstrip_slash s) as [| c' r] eqn:Er.
    + destruct (Ascii.eqb c "/") eqn:Ec.
      * destruct p; discriminate.
      * destruct p as [| x [| y p]]; simpl; try discriminate.
        intros H. injection H as ->. rewrite Ascii.eqb_refl in Ec. discriminate.
    + destruct p as [| x p]; simpl; [discriminate |].
      intros H. injection H as _ H. exact (IH p H).
Qed.

Lemma rstrip_slash_split s : exists k, s = rstrip_slash s +++ slashes k.
Proof.
  unfold str_add. induction s as [| c s IH]; simpl.
  - exists O. reflexivity.
  - destruct IH as [k Hk]. destruct (rstrip_slash s) as [| c' r] eqn:Er.
    + destruct (Ascii.eqb c "/") eqn:Ec.
      * apply Ascii.eqb_eq in Ec. subst c. exists (S k). simpl in *. congruence.
      * exists k. simpl in *. congruence.
    + exists k. simpl in *. congruence.
Qed.

Lemma rstrip_slash_idem s : rstrip_slash (rstrip_slash s) = rstrip_slash s.
Proof.
  induction s as [| c s IH]; simpl; [reflexivity |].
  destruct (rstrip_slash s) as [| c' r] eqn:Er.
  - destruct (Ascii.eqb c "/") eqn:Ec; simpl; [reflexivity |]. rewrite Ec. reflexivity.
  - simpl in *. rewrite IH. reflexivity.
Qed.

(** ** The agents *)

Section AgentFacts.

Context {World Json : Type} (B : Builtins) (K : Backend World Json).

Lemma py_in_difficulties d : In d DIFFICULTIES -> py_in d DIFFICULTIES = true.
Proof. apply py_in_In. Qed.

(** When the first decoding fails and the stripped text holds a brace
    pair, the slice between the outermost braces is decoded. *)
Lemma safe_json_load_slice raw pre body post e :
  py_strip B raw = (pre ++ String "{" (body ++ String "}" post))%string ->
  occurs "{" pre = false -> occurs "}" post = false ->
  json_loads K (py_strip B raw) = Raise e ->
  _safe_json_load B K raw = json_loads K (String "{" (body ++ "}")).
Proof.
  intros Htext Hpre Hpost Hfail.
  destruct (brace_slice pre body post Hpre Hpost) as (Hstart & Hend & Hslice).
  unfold _safe_json_load. rewrite Hfail, Htext, Hslice, Hstart, Hend.
  replace (Z.of_nat (String.length pre) =? -1) with false by (symmetry; apply Z.eqb_neq; lia).
  replace (Z.of_nat (String.length pre + S (String.length body)) =? -1) with false
    by (symmetry; apply Z.eqb_neq; lia).
  replace (Z.of_nat (String.length pre) <? Z.of_nat (String.length pre + S (String.length body)))
    with true by (symmetry; apply Z.ltb_lt; lia).
  reflexivity.
Qed.

(** X1.  [_safe_json_load] recovers a JSON object that the reply wraps
    in prose: when the stripped reply does not decode and is some text
    without an opening brace, then an opening brace, a body, a closing
    brace, and some text without a closing brace, the result is what
    the decoder makes of the part from the first opening brace to the
    last closing brace, whether a value or an exception. *)
Theorem safe_json_load_recovers_wrapped_object raw pre body post e
    (Htext : py_strip B raw = pre +++ "{" +++ body +++ "}" +++ post)
    (Hpre : py_in_str "{" pre = false)
    (Hpost : py_in_str "}" post = false)
    (Hfail : json_loads K (py_strip B raw) = Raise e) :
  _safe_json_load B K raw = json_loads K ("{" +++ body +++ "}").
Proof.
  rewrite py_in_str_char in Hpre, Hpost.
  exact (safe_json_load_slice raw pre body post e Htext Hpre Hpost Hfail).
Qed.

(** X2.  Whatever [_safe_json_load] returns or raises is what the
    decoder returns or raises on the stripped reply itself or, when that
    fails and the first opening brace stands before the last closing
    brace, on the slice from the one to the other.  In every other case
    (no opening brace, no closing brace, or the last closing brace
    before the first opening brace) the exception of the first decoding
    is raised again. *)
Theorem safe_json_load_decodes_text_or_brace_slice raw :
  let s := py_strip B raw in
  _safe_json_load B K raw = json_loads K s
  \/ exists e pre body post,
       json_loads K s = Raise e
       /\ s = pre +++ "{" +++ body +++ "}" +++ post
       /\ py_in_str "{" pre = false /\ py_in_str "}" post = false
       /\ _safe_json_load B K raw = json_loads K ("{" +++ body +++ "}").
Proof.
  intros s. destruct (json_loads K s) as [v | e] eqn:Ej.
  { left. unfold _safe_json_load. fold s. rewrite Ej. reflexivity. }
  destruct (find_from_char "{" s 0) as [[Hn Hf] | (pre & r1 & Hs1 & Hn1 & Hf)].
  { left. unfold _safe_json_load. fold s. rewrite Ej. unfold py_find. rewrite Hf.
    reflexivity. }
  destruct (rfind_from_char "}" s 0 (-1)) as [[Hn Hr] | (p2 & post & Hs2 & Hn2 & Hr)].
  { left. unfold _safe_json_load. fold s. rewrite Ej. unfold py_rfind. rewrite Hr.
    simpl. rewrite andb_false_r. reflexivity. }
  destruct (Nat.lt_ge_cases (String.length pre) (String.length p2)) as [Hlt | Hge].
  - right. rewrite Hs1 in Hs2.
    destruct (split_twice _ _ _ _ _ _ Hs2 Hlt) as (body & -> & ->).
    exists e, pre, body, post. rewrite !py_in_str_char.
    split; [reflexivity |]. split; [exact Hs1 |]. split; [exact Hn1 |]. split; [exact Hn2 |].
    exact (safe_json_load_slice raw pre body post e Hs1 Hn1 Hn2 Ej).
  - left. unfold _safe_json_load. fold s. rewrite Ej. unfold py_find, py_rfind.
    rewrite Hf, Hr. simpl Nat.add.
    replace (Z.of_nat (String.length pre) <? Z.of_nat (String.length p2)) with false
      by (symmetry; apply Z.ltb_ge; lia).
    rewrite andb_false_r. reflexivity.
Qed.

(** An evaluation that [ObserverAgent.analyze] returns and that says to
    move on names a topic of the plan. *)
Lemma analyze_in_plan model a w out w' :
  ObserverAgent_analyze B K model a w = (Ok out, w') ->
  should_move_on out = true -> py_in (next_topic out) (aa_topic_plan a) = true.
Proof.
  unfold ObserverAgent_analyze.
  destruct (client_chat K model _ _ _ w) as [[raw | e] w0]; [| discriminate].
  destruct (load_reply B K raw) as [data | e]; cbn [bind_result].
  - destruct (ObserverOutput_model_validate K data) as [out0 | e]; cbn [bind_result].
    + destruct (should_move_on out0) eqn:Em; cbn [andb].
      * destruct (py_in (next_topic out0) (aa_topic_plan a)) eqn:Ein; cbn [negb];
          intros H; injection H as <- _; [intros _; exact Ein | simpl; discriminate].
      * intros H; injection H as <- _. congruence.
    + destruct (raw_head B raw) as [head | e']; [| discriminate].
      destruct (py_in _ DIFFICULTIES); [| discriminate].
      intros H; injection H as <- _. simpl. discriminate.
  - destruct (raw_head B raw) as [head | e']; [| discriminate].
    destruct (py_in _ DIFFICULTIES); [| discriminate].
    intros H; injection H as <- _. simpl. discriminate.
Qed.

Lemma analyze_returns model a w :
  chat_always_returns_text K -> In (aa_current_difficulty a) DIFFICULTIES ->
  exists out w', ObserverAgent_analyze B K model a w = (Ok out, w').
Proof.
  intros Hchat Hd. unfold ObserverAgent_analyze.
  destruct (Hchat model (observer_messages B K a) (Some "json") (2 # 10)%Q w)
    as (raw & w' & ->).
  cbn [load_reply raw_head]. rewrite (py_in_difficulties _ Hd).
  destruct (_safe_json_load B K raw) as [data | e]; cbn [bind_result]; [| eauto].
  destruct (ObserverOutput_model_validate K data) as [out0 | e]; cbn [bind_result]; eauto.
Qed.

Lemma generate_nonempty model a w q w' :
  QuestionGeneratorAgent_generate B K model a w = (Ok q, w') -> question_text q <> "".
Proof.
  unfold QuestionGeneratorAgent_generate.
  destruct (client_chat K model _ _ _ w) as [[raw | e] w0]; [| discriminate].
  destruct (load_reply B K raw) as [data | e]; cbn [bind_result].
  - destruct (GeneratedQuestion_model_validate K data) as [q0 | e]; cbn [bind_result].
    + destruct (ga_need_hint a); cbn [negb];
        destruct (question_text q0) as [| c t] eqn:Eq; cbn [str_is_empty];
        intros H; injection H as <- _; cbn [question_text]; rewrite ?Eq; discriminate.
    + intros H; injection H as <- _. discriminate.
  - intros H; injection H as <- _. discriminate.
Qed.

(** X3.  [ObserverAgent.analyze] on a reply of the chat client, the
    current difficulty being one of the three literals.  Whatever the
    reply, an evaluation that it returns and that says to move on names
    a topic of the plan.  On a reply that is a text it returns: a
    validated evaluation that says to move on to a topic outside the
    plan is changed to stay on the current topic, any other validated
    evaluation is returned as it is, and a text that cannot be parsed or
    validated gives the fallback evaluation (quality unknown, score 45,
    stay, hint).  On a reply that is not a text, parsing raises and the
    handler slices the reply to quote it: a list gives the fallback
    evaluation, which quotes its first 180 elements; [None], a boolean
    or a number makes [analyze] raise [TypeError], and an object the
    exception of slicing a dict. *)
Theorem analyze_advice_stays_in_plan model a w reply w'
    (Hchat : client_chat K model (observer_messages B K a) (Some "json") (2 # 10)%Q w
             = (Ok reply, w'))
    (Hdiff : In (aa_current_difficulty a) DIFFICULTIES) :
  (forall out w1,
     ObserverAgent_analyze B K model a w = (Ok out, w1) ->
     should_move_on out = true -> In (next_topic out) (aa_topic_plan a))
  /\ (forall raw, reply = PyStr raw ->
      exists out,
        ObserverAgent_analyze B K model a w = (Ok out, w')
        /\ (forall data out0,
              _safe_json_load B K raw = Ok data ->
              ObserverOutput_model_validate K data = Ok out0 ->
              (should_move_on out0 = true -> ~ In (next_topic out0) (aa_topic_plan a) ->
               out = stay_on (aa_current_topic a) out0)
              /\ (should_move_on out0 = false \/ In (next_topic out0) (aa_topic_plan a) ->
                  out = out0))
        /\ ((exists e, _safe_json_load B K raw = Raise e)
            \/ (exists data e, _safe_json_load B K raw = Ok data
                               /\ ObserverOutput_model_validate K data = Raise e) ->
            out = fallback_observer_output a raw
            /\ score_0_100 out = 45 /\ answer_quality out = "unknown"
            /\ should_move_on out = false /\ need_hint out = true))
  /\ (forall xs, reply = PyList xs ->
      ObserverAgent_analyze B K model a w
      = (Ok (fallback_observer_output_quoting a (py_str_list B (firstn 180 xs))), w'))
  /\ (reply = PyNone \/ (exists b, reply = PyBool b) \/ (exists z, reply = PyInt z)
      \/ (exists q, reply = PyFloat q) ->
      ObserverAgent_analyze B K model a w = (Raise TypeError, w'))
  /\ (forall kvs, reply = PyDict kvs ->
      ObserverAgent_analyze B K model a w = (Raise (dict_slice_exc B), w')).
Proof.
  pose proof (py_in_difficulties _ Hdiff) as Hd.
  split.
  { intros out w1 Ha Hm. apply py_in_In. exact (analyze_in_plan model a w out w1 Ha Hm). }
  split.
  { intros raw ->. unfold ObserverAgent_analyze. rewrite Hchat.
    cbn [load_reply raw_head]. rewrite Hd.
    destruct (_safe_json_load B K raw) as [data | e] eqn:Ej; cbn [bind_result].
    - destruct (ObserverOutput_model_validate K data) as [out0 | e] eqn:Ev; cbn [bind_result].
      + destruct (should_move_on out0) eqn:Em; cbn [andb].
        * destruct (py_in (next_topic out0) (aa_topic_plan a)) eqn:Ein; cbn [negb].
          -- exists out0. split; [reflexivity |].
             split.
             { intros d o Hl Ho. injection Hl as <-. rewrite Ev in Ho. injection Ho as <-.
               split; [| reflexivity].
               intros _ Hn. exfalso. apply Hn. apply py_in_In. exact Ein. }
             intros [(e & He) | (d & e & Hl & He)]; [discriminate |].
             injection Hl as <-. congruence.
          -- exists (stay_on (aa_current_topic a) out0). split; [reflexivity |].
             split.
             { intros d o Hl Ho. injection Hl as <-. rewrite Ev in Ho. injection Ho as <-.
               split; [reflexivity |].
               intros [Hf | Hin]; [congruence |].
               apply py_in_In in Hin. congruence. }
             intros [(e & He) | (d & e & Hl & He)]; [discriminate |].
             injection Hl as <-. congruence.
        * exists out0. split; [reflexivity |].
          split.
          { intros d o Hl Ho. injection Hl as <-. rewrite Ev in Ho. injection Ho as <-.
            split; [intros H; congruence | reflexivity]. }
          intros [(e & He) | (d & e & Hl & He)]; [discriminate |].
          injection Hl as <-. congruence.
      + exists (fallback_observer_output a raw). split; [reflexivity |].
        split; [intros d o Hl Ho; injection Hl as <-; congruence |].
        intros _. repeat split; reflexivity.
    - exists (fallback_observer_output a raw). split; [reflexivity |].
      split; [intros d o Hl; discriminate |].
      intros _. repeat split; reflexivity. }
  split.
  { intros xs ->. unfold ObserverAgent_analyze. rewrite Hchat.
    cbn [load_reply raw_head bind_result]. rewrite Hd. reflexivity. }
  split.
  { intros [-> | [(b & ->) | [(z & ->) | (q & ->)]]];
      unfold ObserverAgent_analyze; rewrite Hchat; reflexivity. }
  intros kvs ->. unfold ObserverAgent_analyze. rewrite Hchat. reflexivity.
Qed.

(** X4.  When the backend replies, [QuestionGeneratorAgent.generate]
    returns a draft, whatever the reply is, a text or not; the question
    of the draft is never the empty string, and its hint is empty
    whenever no hint was asked for.  From a validated reply it keeps the
    ideal answer, the question if that is not empty, and the hint if one
    was asked for. *)
Theorem generate_returns_nonempty_question model a w reply w'
    (Hchat : client_chat K model (qgen_messages B K a) (Some "json") (4 # 10)%Q w
             = (Ok reply, w')) :
  exists q,
    QuestionGeneratorAgent_generate B K model a w = (Ok q, w')
    /\ question_text q <> ""
    /\ (ga_need_hint a = false -> hint q = "")
    /\ (forall data q0,
          load_reply B K reply = Ok data ->
          GeneratedQuestion_model_validate K data = Ok q0 ->
          ideal_answer_short q = ideal_answer_short q0
          /\ (question_text q0 <> "" -> question_text q = question_text q0)
          /\ (ga_need_hint a = true -> hint q = hint q0))
    /\ ((forall raw, reply <> PyStr raw) -> q = fallback_question (ga_need_hint a)).
Proof.
  unfold QuestionGeneratorAgent_generate. rewrite Hchat.
  destruct (load_reply B K reply) as [data | e] eqn:Ej; cbn [bind_result].
  - assert (Htext : exists raw, reply = PyStr raw).
    { destruct reply; try discriminate. eauto. }
    destruct Htext as [raw Hraw].
    destruct (GeneratedQuestion_model_validate K data) as [q0 | e] eqn:Ev; cbn [bind_result].
    + eexists. split; [reflexivity |].
      destruct (ga_need_hint a); cbn [negb];
        destruct (question_text q0) as [| c t] eqn:Eq; cbn [str_is_empty];
        cbn [question_text hint ideal_answer_short].
      all: split; [try rewrite Eq; discriminate |].
      all: split; [intros H; try discriminate; reflexivity |].
      all: split; [| intros Hn; exfalso; exact (Hn raw Hraw)].
      all: intros d o Hl Ho; injection Hl as <-; rewrite Ev in Ho; injection Ho as <-.
      all: rewrite ?Eq; repeat split; try reflexivity; try congruence;
        intros H; try discriminate; try (exfalso; apply H; reflexivity).
    + exists (fallback_question (ga_need_hint a)). split; [reflexivity |].
      split; [discriminate |].
      split; [intros ->; reflexivity |].
      split; [| reflexivity].
      intros d o Hl Ho. injection Hl as <-. congruence.
  - exists (fallback_question (ga_need_hint a)). split; [reflexivity |].
    split; [discriminate |].
    split; [intros ->; reflexivity |].
    split; [| reflexivity].
    intros d o Hl. discriminate.
Qed.

(** X5.  When the reply of the backend to the hiring manager decodes as
    JSON and fails validation, [build_feedback] returns the fallback
    report and [finish] stores it in the logger and returns it: grade
    Junior, No Hire, confidence 45, and as its one correction the reply
    cut after 300 characters (the whole reply if it has no more). *)
Theorem finish_stores_fallback_when_report_is_invalid im om mm self w tr raw w' data
    (Hchat : client_chat K mm (manager_messages B K (feedback_args self)) (Some "json")
               (2 # 10)%Q w = (Ok (PyStr raw), w'))
    (Hjson : _safe_json_load B K raw = Ok data)
    (Hval : FinalFeedback_model_validate K data = Raise ValidationError) :
  let report := fallback_feedback raw in
  finish (agents_of B K im om mm) self {| world := w; trace := tr |}
  = (Ok report, set_logger (set_final_feedback report (logger self)) self,
     {| world := w'; trace := tr ++ [EvFeedback (feedback_args self) (Ok report)] |})
  /\ grade report = "Junior" /\ hiring_recommendation report = "No Hire"
  /\ confidence_score_0_100 report = 45
  /\ (exists quoted rest,
        corrections report = [quoted] /\ raw = quoted +++ rest
        /\ (char_count quoted <= 300)%nat
        /\ ((char_count raw <= 300)%nat -> quoted = raw)).
Proof.
  intros report.
  split.
  - unfold finish, bind, call, call_feedback, assign, ret. simpl.
    unfold HiringManagerAgent_build_feedback. rewrite Hchat, Hjson. cbn [bind_result].
    rewrite Hval. reflexivity.
  - repeat split.
    destruct (py_head_prefix 300 raw) as [rest Hr].
    exists (py_head 300 raw), rest. split; [reflexivity |]. split; [exact Hr |].
    split; [apply py_head_count | apply py_head_all].
Qed.

(** X25.  The agents on a reply of the chat client that is not a text
    (the client returns whatever value the response holds under
    [content]: null, a boolean, a number, a list or an object).
    [build_plan] returns the default plan and [generate] the fallback
    question, because their handlers catch every exception;
    [render_message] raises [AttributeError]; so does [build_feedback],
    whose handler catches [ValidationError] only, and with it [finish],
    which stores no report. *)
Theorem agents_on_a_reply_that_is_not_text reply
    (Hnot : forall raw, reply <> PyStr raw) :
  (forall model a w w',
     client_chat K model (planner_messages B K a) (Some "json") (3 # 10)%Q w
     = (Ok reply, w') ->
     TopicPlannerAgent_build_plan B K model a w = (Ok default_plan, w'))
  /\ (forall model a w w',
       client_chat K model (qgen_messages B K a) (Some "json") (4 # 10)%Q w
       = (Ok reply, w') ->
       QuestionGeneratorAgent_generate B K model a w
       = (Ok (fallback_question (ga_need_hint a)), w'))
  /\ (forall model a w w',
       client_chat K model (interviewer_messages B K a) None (5 # 10)%Q w
       = (Ok reply, w') ->
       InterviewerAgent_render_message B K model a w = (Raise AttributeError, w'))
  /\ (forall model a w w',
       client_chat K model (manager_messages B K a) (Some "json") (2 # 10)%Q w
       = (Ok reply, w') ->
       HiringManagerAgent_build_feedback B K model a w = (Raise AttributeError, w'))
  /\ (forall im om mm self w tr w',
       client_chat K mm (manager_messages B K (feedback_args self)) (Some "json")
         (2 # 10)%Q w = (Ok reply, w') ->
       finish (agents_of B K im om mm) self {| world := w; trace := tr |}
       = (Raise AttributeError, self,
          {| world := w';
             trace := tr ++ [EvFeedback (feedback_args self) (Raise AttributeError)] |})).
Proof.
  assert (Hload : load_reply B K reply = Raise AttributeError).
  { destruct reply; try reflexivity. exfalso. exact (Hnot _ eq_refl). }
  assert (Hfb : forall model a w w',
            client_chat K model (manager_messages B K a) (Some "json") (2 # 10)%Q w
            = (Ok reply, w') ->
            HiringManagerAgent_build_feedback B K model a w = (Raise AttributeError, w')).
  { intros model a w w' Hc. unfold HiringManagerAgent_build_feedback. rewrite Hc.
    destruct reply; try reflexivity. exfalso. exact (Hnot _ eq_refl). }
  split.
  { intros model a w w' Hc. unfold TopicPlannerAgent_build_plan. rewrite Hc, Hload.
    reflexivity. }
  split.
  { intros model a w w' Hc. unfold QuestionGeneratorAgent_generate. rewrite Hc, Hload.
    reflexivity. }
  split.
  { intros model a w w' Hc. unfold InterviewerAgent_render_message. rewrite Hc.
    destruct reply; try reflexivity. exfalso. exact (Hnot _ eq_refl). }
  split; [exact Hfb |].
  intros im om mm self w tr w' Hc.
  unfold finish, bind, call, call_feedback. simpl. rewrite (Hfb _ _ _ _ Hc). reflexivity.
Qed.

End AgentFacts.

(** ** The question-generation step *)

Section GuardFacts.

Context {World : Type} (B : Builtins) (C : Collaborators World).

Lemma regen_loop_exhausted self topic level tag flag avoid attempts gen (env : Env World) :
  max_regen_attempts self <= attempts ->
  regen_loop B C self topic level tag flag avoid attempts gen env = (Ok gen, env).
Proof.
  intros Hmax.
  funelim (regen_loop B C self topic level tag flag avoid attempts gen env);
    try reflexivity;
    pose proof (proj1 (Z.ltb_lt _ _) Hlt); lia.
Qed.

Lemma regen_loop_accepted self topic level tag flag avoid attempts gen (env env1 : Env World) :
  attempts < max_regen_attempts self ->
  _topic_guard_ok B C self topic (question_text gen) env = (true, env1) ->
  regen_loop B C self topic level tag flag avoid attempts gen env = (Ok gen, env1).
Proof.
  intros Hmax Hg. revert env1 Hg.
  funelim (regen_loop B C self topic level tag flag avoid attempts gen env);
    intros env9 Hg.
  - match goal with
    | Hf : (_ <? _) = false |- _ => pose proof (proj1 (Z.ltb_ge _ _) Hf); lia
    end.
  - congruence.
  - congruence.
  - congruence.
Qed.

(** Whatever holds of every draft the generator returns holds of the
    draft the loop ends with. *)
Lemma regen_loop_draft (P : GeneratedQuestion -> Prop)
    self topic level tag flag avoid attempts gen (env : Env World) g env' :
  (forall a w q w', qgen_generate C a w = (Ok q, w') -> P q) ->
  P gen ->
  regen_loop B C self topic level tag flag avoid attempts gen env = (Ok g, env') ->
  P g.
Proof.
  intros HP. revert g env'.
  funelim (regen_loop B C self topic level tag flag avoid attempts gen env);
    intros g env' Hgen; try rewrite <- Heqcall.
  - intros E. injection E as <- _. exact Hgen.
  - intros E. injection E as <- _. exact Hgen.
  - intros E.
    match goal with
    | Hc : call_generate _ _ _ = (Ok ?q, _) |- _ =>
        assert (Hq : P q);
        [ unfold call_generate in Hc;
          match type of Hc with
          | context [qgen_generate C ?a ?w] =>
              destruct (qgen_generate C a w) as [r0 w0] eqn:Eq0;
              injection Hc as -> _; exact (HP _ _ _ _ Eq0)
          end
        | ]
    end.
    match goal with
    | IH : forall P0 : GeneratedQuestion -> Prop, _ |- _ => exact (IH P HP _ _ Hq E)
    end.
  - discriminate.
Qed.

Lemma generate_question_draft (P : GeneratedQuestion -> Prop)
    self topic level tag flag (env : Env World) g env' :
  (forall a w q w', qgen_generate C a w = (Ok q, w') -> P q) ->
  _generate_question B C self topic level tag flag env = (Ok g, env') ->
  P g.
Proof.
  intros HP. unfold _generate_question.
  destruct (call_generate C _ env) as [[gen | e] env1] eqn:E1; [| discriminate].
  assert (Hq : P gen).
  { unfold call_generate in E1.
    match type of E1 with
    | context [qgen_generate C ?a ?w] =>
        destruct (qgen_generate C a w) as [r0 w0] eqn:Eq0;
        injection E1 as -> _; exact (HP _ _ _ _ Eq0)
    end. }
  destruct (regen_loop B C self topic level tag flag _ 0 gen env1) as [[g1 | e] env2] eqn:E2;
    [| discriminate].
  intros H. injection H as <- _. rewrite generated_question_eta.
  eapply regen_loop_draft; eassumption.
Qed.

(** X6.  The consistency guard fails open: when the generator returns a
    first draft and the observer raises on the guard's call for that
    draft, the question-generation step returns that draft and calls
    the generator no second time; its calls are the one of the
    generator and, if [max_regen_attempts] is positive, the one of the
    observer that raised. *)
Theorem failing_guard_accepts_the_draft self topic level tag flag
    (env : Env World) gen w1 e w2
    (Hdraft : qgen_generate C
                (generate_args self topic level tag flag
                   (last_n 8 (asked_questions_text self))) (world env) = (Ok gen, w1))
    (Hguard : observer_analyze C (guard_args self topic (question_text gen)) w1
              = (Raise e, w2)) :
  _generate_question B C self topic level tag flag env
  = (Ok gen,
     {| world := (if 0 <? max_regen_attempts self then w2 else w1);
        trace := trace env
                 ++ [EvGenerate (generate_args self topic level tag flag
                                   (last_n 8 (asked_questions_text self))) (Ok gen)]
                 ++ (if 0 <? max_regen_attempts self
                     then [EvAnalyze (guard_args self topic (question_text gen)) (Raise e)]
                     else []) |}).
Proof.
  unfold _generate_question, call_generate. rewrite Hdraft.
  destruct (0 <? max_regen_attempts self) eqn:Em.
  - apply Z.ltb_lt in Em.
    rewrite (regen_loop_accepted self topic level tag flag _ 0 gen _
               {| world := w2;
                  trace := (trace env ++ [EvGenerate (generate_args self topic level tag flag
                                   (last_n 8 (asked_questions_text self))) (Ok gen)])
                           ++ [EvAnalyze (guard_args self topic (question_text gen)) (Raise e)] |}
               Em).
    + rewrite generated_question_eta, <- app_assoc. reflexivity.
    + unfold _topic_guard_ok, call_analyze. simpl. rewrite Hguard. reflexivity.
  - apply Z.ltb_ge in Em.
    rewrite regen_loop_exhausted by lia.
    rewrite generated_question_eta, app_nil_r. reflexivity.
Qed.

(** X7.  With [max_regen_attempts] zero or negative the guard is
    switched off: the question-generation step makes exactly one call,
    to the generator, and returns or raises what that call returns or
    raises; the observer is not called. *)
Theorem no_attempts_no_guard_call self topic level tag flag (env : Env World) r w1
    (Hmax : max_regen_attempts self <= 0)
    (Hdraft : qgen_generate C
                (generate_args self topic level tag flag
                   (last_n 8 (asked_questions_text self))) (world env) = (r, w1)) :
  _generate_question B C self topic level tag flag env
  = (r, {| world := w1;
           trace := trace env
                    ++ [EvGenerate (generate_args self topic level tag flag
                                      (last_n 8 (asked_questions_text self))) r] |}).
Proof.
  unfold _generate_question, call_generate. rewrite Hdraft.
  destruct r as [gen | e]; [| reflexivity].
  rewrite regen_loop_exhausted by lia.
  rewrite generated_question_eta. reflexivity.
Qed.

End GuardFacts.

(** ** The books of a session *)

Lemma streak_phase_shape plan s :
  exists d g p,
    _update_difficulty_by_streaks (update_streaks plan s)
    = set_difficulty d (upd_state (fun t => set_streak_poor p (set_streak_good g t)) s).
Proof.
  destruct s as [a1 a2 a3 a4 a5 a6 a7 a8 a9 [b1 b2 b3 b4 b5] a11 a12 a13 a14 a15].
  unfold update_streaks, _update_difficulty_by_streaks.
  cbn [state streak_good streak_poor difficulty set_difficulty upd_state set_state
       set_streak_good set_streak_poor].
  repeat (case_if;
          cbn [state streak_good streak_poor difficulty set_difficulty upd_state set_state
               set_streak_good set_streak_poor]);
    do 3 eexists;
    cbv [set_difficulty upd_state set_state set_streak_good set_streak_poor
         position target_grade experience participant_name lang max_regen_attempts
         logger turn_id history state topic_plan current_topic difficulty
         asked_questions_text asked_topics
         last_topic last_intent topic_index streak_good streak_poor];
    reflexivity.
Qed.

Lemma with_role_app r h1 h2 : with_role r (h1 ++ h2) = with_role r h1 ++ with_role r h2.
Proof. unfold with_role. apply filter_app. Qed.

Lemma StronglySorted_snoc (l : list Z) (x : Z) :
  StronglySorted Z.lt l -> Forall (fun y => y < x) l -> StronglySorted Z.lt (l ++ [x]).
Proof.
  induction l as [| y l IH]; intros Hs Hf; simpl.
  - constructor; constructor.
  - inversion Hs as [| ? ? Hs' Hy]; subst. inversion Hf as [| ? ? Hyx Hf']; subst.
    constructor; [apply IH; assumption |].
    apply Forall_app. split; [exact Hy | constructor; [exact Hyx | constructor]].
Qed.

Lemma dialogue_roles msgs visibles :
  length visibles = length msgs ->
  map content (with_role "assistant" (dialogue msgs visibles)) = visibles
  /\ map content (with_role "user" (dialogue msgs visibles)) = msgs.
Proof.
  revert visibles. induction msgs as [| m ms IH]; intros [| v vs] H; simpl in H; try lia.
  - split; reflexivity.
  - destruct (IH vs) as [Ha Hu]; [lia |].
    unfold with_role in *. simpl. rewrite Ha, Hu. split; reflexivity.
Qed.

Lemma level_cases d :
  In d DIFFICULTIES ->
  (d = "easy" /\ level d = 0) \/ (d = "medium" /\ level d = 1) \/ (d = "hard" /\ level d = 2).
Proof.
  intros H. apply In_difficulties in H. destruct H as [-> | [-> | ->]]; auto.
Qed.

Lemma level_nonneg d : 0 <= level d.
Proof. unfold level. destruct (String.eqb d "easy"), (String.eqb d "medium"); lia. Qed.

Section Books.

Context {World : Type} (B : Builtins) (C : Collaborators World).

(** The four places where a call of [step] can end, with the engine it
    leaves in each: the observer raised; the generator raised; the
    interviewer raised; the call returned. *)
Lemma step_shape msg s (env : Env World) r s' env' :
  cursor_ok s ->
  step B C msg s env = (r, s', env') ->
  (exists e, r = Raise e /\ s' = after_user msg s)
  \/ exists d g p idx planned,
       0 <= idx < len (topic_plan s)
       /\ py_getitem (topic_plan s) idx = Ok planned
       /\ ((exists e, r = Raise e /\ s' = after_decision msg d g p idx planned s)
           \/ (exists e gen,
                 r = Raise e
                 /\ s' = after_generate planned gen (after_decision msg d g p idx planned s))
           \/ (exists visible gen plan',
                 r = Ok visible
                 /\ s' = after_render msg planned plan' gen visible
                           (after_generate planned gen
                              (after_decision msg d g p idx planned s)))).
Proof.
  intros Hc Hstep.
  destruct (step_cases B C msg s env r s' env' Hc Hstep)
    as [(e & -> & -> & _)
       | (plan & env1 & planned & plan' & d & idx & s2 & s4 & _ & Es2 & Htd & Es4 & Hrest)].
  { left. exists e. split; reflexivity. }
  right.
  destruct (streak_phase_shape plan (after_user msg s)) as (d2 & g & p & Eshape).
  rewrite Eshape in Es2.
  assert (E4 : s4 = after_decision msg d g p idx planned s).
  { subst s4 s2. reflexivity. }
  destruct Htd as (Hi & Hg & _).
  exists d, g, p, idx, planned. split; [exact Hi |]. split; [exact Hg |].
  rewrite <- E4.
  destruct Hrest as [(e & -> & -> & _)
                    | (gen & env2 & _ & [(e & -> & -> & _) | (v & -> & -> & _)])].
  - left. exists e. split; reflexivity.
  - right. left. exists e, gen. split; reflexivity.
  - right. right. exists v, gen, plan'. split; reflexivity.
Qed.

Ltac start_cases H :=
  destruct (new_engine_ok_cases B C _ _ _ _ H)
    as (plan0 & w1 & t0 & rest0 & q0 & _ & _ & _ & ->).

Ltac step_cases_of Hc Hstep :=
  destruct (step_shape _ _ _ _ _ _ Hc Hstep)
    as [(e & -> & ->)
       | (d & g & p & idx & planned & Hidx & Hget &
          [(e & -> & ->) | [(e & gen & -> & ->) | (visible & gen & plan' & -> & ->)]])].

Ltac step_fields :=
  unfold after_render, after_generate, after_decision, after_user, add_turn, logged_turn;
  cbn [history logger turn_id turns set_history set_logger set_turn_id set_state upd_state
       state last_topic last_intent set_last_topic set_last_intent
       set_topic_index set_streak_poor set_streak_good
       topic_plan current_topic asked_topics asked_questions_text
       set_current_topic set_difficulty set_asked_topics set_asked_questions_text].

(** What no call of [step] assigns. *)
Lemma step_frame msg s (env : Env World) r s' env' :
  cursor_ok s ->
  step B C msg s env = (r, s', env') ->
  (position s' = position s /\ target_grade s' = target_grade s
   /\ experience s' = experience s /\ participant_name s' = participant_name s
   /\ lang s' = lang s /\ max_regen_attempts s' = max_regen_attempts s
   /\ topic_plan s' = topic_plan s)
  /\ lg_participant_name (logger s') = lg_participant_name (logger s)
  /\ final_feedback (logger s') = final_feedback (logger s)
  /\ turn_id s' = turn_id s + 1.
Proof.
  intros Hc Hstep. step_cases_of Hc Hstep; repeat split; reflexivity.
Qed.

Lemma steps_frame msgs s (env : Env World) r s' env' :
  engine_ok s ->
  steps B C msgs s env = (r, s', env') ->
  engine_ok s'
  /\ (position s' = position s /\ target_grade s' = target_grade s
      /\ experience s' = experience s /\ participant_name s' = participant_name s
      /\ lang s' = lang s /\ max_regen_attempts s' = max_regen_attempts s
      /\ topic_plan s' = topic_plan s)
  /\ lg_participant_name (logger s') = lg_participant_name (logger s)
  /\ final_feedback (logger s') = final_feedback (logger s).
Proof.
  revert s env r s' env'. induction msgs as [| msg rest IH]; intros s env r s' env' Hok.
  - simpl. unfold ret. intros H. injection H as _ <- _.
    split; [exact Hok |]. repeat split; reflexivity.
  - simpl. unfold bind at 1.
    destruct (step B C msg s env) as [[[v | e] s1] env1] eqn:Es.
    + destruct (step_frame _ _ _ _ _ _ (proj1 Hok) Es)
        as ((F1 & F2 & F3 & F4 & F5 & F6 & F7) & F8 & F9 & _).
      destruct (step_engine_ok B C _ _ _ _ _ _ Hok Es) as (Hok1 & _).
      unfold bind at 1.
      destruct (steps B C rest s1 env1) as [[[vs | e] s2] env2] eqn:Er;
        unfold ret; intros H; injection H as _ <- _;
        destruct (IH _ _ _ _ _ Hok1 Er)
          as (Hok2 & (G1 & G2 & G3 & G4 & G5 & G6 & G7) & G8 & G9);
        (split; [exact Hok2 |]); repeat split; congruence.
    + intros H. injection H as _ <- _.
      destruct (step_frame _ _ _ _ _ _ (proj1 Hok) Es)
        as ((F1 & F2 & F3 & F4 & F5 & F6 & F7) & F8 & F9 & _).
      destruct (step_engine_ok B C _ _ _ _ _ _ Hok Es) as (Hok1 & _).
      split; [exact Hok1 |]. repeat split; assumption.
Qed.

Lemma reachable_turn_id_nonneg s (env : Env World) :
  reachable B C s env -> 0 <= turn_id s.
Proof.
  induction 1 as [cfg w s env H | msg s env r s' env' Hr IH Hstep].
  - start_cases H. simpl. lia.
  - pose proof (reachable_engine_ok B C s env Hr) as (Hc & _).
    destruct (step_frame _ _ _ _ _ _ Hc Hstep) as (_ & _ & _ & ->). lia.
Qed.

Lemma user_messages_count_calls s (env : Env World) :
  reachable B C s env ->
  len (with_role "user" (history s)) = turn_id s
  /\ len (turns (logger s)) <= turn_id s.
Proof.
  induction 1 as [cfg w s env H | msg s env r s' env' Hr IH Hstep].
  - start_cases H. unfold len, with_role. simpl. lia.
  - pose proof (reachable_engine_ok B C s env Hr) as (Hc & _).
    destruct IH as (I1 & I2).
    unfold len in *.
    step_cases_of Hc Hstep;
      unfold after_render, after_generate, after_decision, after_user, add_turn;
      cbn [history logger turn_id turns set_history set_logger set_turn_id set_state upd_state
           set_current_topic set_difficulty set_asked_topics set_asked_questions_text];
      rewrite <- ?app_assoc, ?with_role_app, ?length_app; simpl length; lia.
Qed.

(** C10, as amended.  Every call of [step] counts the turn and appends
    the user's message to the history.  A call that returns then appends
    the assistant's reply, and exactly one record to the log, numbered
    with the call, that is with the number of calls of [step] made so
    far, which is the number of user messages in the history; a call
    that raises appends nothing else and logs no record.  What the
    history and the log held before is a prefix of what they hold after.
    In a session whose calls have all returned (the constructor, then
    one [step] for each of [msgs]) the number of calls is the number of
    records, so that a record is numbered one more than the number of
    records logged before it, and the log holds one record per call,
    numbered 1, 2, ... in order, each with the user's message and the
    visible reply of its turn. *)
Theorem step_appends_one_turn s (env : Env World)
    (Hreach : reachable B C s env) :
  (len (with_role "user" (history s)) = turn_id s
   /\ len (turns (logger s)) <= turn_id s)
  /\ (forall msg r s' env',
        step B C msg s env = (r, s', env') ->
        turn_id s' = turn_id s + 1
        /\ (forall visible, r = Ok visible ->
              history s' = history s ++ [{| role := "user"; content := msg |};
                                         {| role := "assistant"; content := visible |}]
              /\ exists t,
                   turns (logger s') = turns (logger s) ++ [t]
                   /\ tl_turn_id t = turn_id s + 1
                   /\ tl_user_message t = msg
                   /\ tl_agent_visible_message t = visible)
        /\ (forall e, r = Raise e ->
              history s' = history s ++ [{| role := "user"; content := msg |}]
              /\ turns (logger s') = turns (logger s)))
  /\ (forall cfg w s0 env0 msgs visibles,
        new_engine B C cfg w = (Ok tt, s0, env0) ->
        steps B C msgs s0 env0 = (Ok visibles, s, env) ->
        turn_id s = len (turns (logger s))
        /\ length (turns (logger s)) = length msgs
        /\ map tl_turn_id (turns (logger s)) = map Z.of_nat (seq 1 (length msgs))
        /\ map tl_user_message (turns (logger s)) = msgs
        /\ map tl_agent_visible_message (turns (logger s)) = visibles
        /\ history s = history s0 ++ dialogue msgs visibles).
Proof.
  split; [exact (user_messages_count_calls s env Hreach) |].
  pose proof (reachable_engine_ok B C s env Hreach) as (Hc & _).
  split.
  - intros msg r s' env' Hstep.
    destruct (step_frame _ _ _ _ _ _ Hc Hstep) as (_ & _ & _ & Hid).
    split; [exact Hid |].
    destruct (step_shape _ _ _ _ _ _ Hc Hstep)
      as [(e0 & -> & ->)
         | (d & g & p & idx & planned & Hidx & Hget &
            [(e0 & -> & ->) | [(e0 & gen & -> & ->) | (v & gen & plan' & -> & ->)]])].
    + split; [discriminate |]. intros e _. split; reflexivity.
    + split; [discriminate |]. intros e _. split; reflexivity.
    + split; [discriminate |]. intros e _. split; reflexivity.
    + split; [| discriminate].
      intros visible Hv. injection Hv as ->.
      split.
      { unfold after_render, after_generate, after_decision, after_user.
        cbn [history set_history set_logger set_turn_id set_state upd_state
             set_current_topic set_difficulty set_asked_topics set_asked_questions_text].
        rewrite <- app_assoc. reflexivity. }
      eexists. split; [reflexivity |]. repeat split; reflexivity.
  - intros cfg w s0 env0 msgs visibles Hnew Hrun.
    destruct (new_engine_ok_cases B C cfg w s0 env0 Hnew)
      as (plan & w1 & t0 & rest & q & _ & _ & _ & Hs0).
    assert (H0 : turn_id s0 = 0 /\ turns (logger s0) = [])
      by (subst s0; split; reflexivity).
    destruct H0 as [Hid0 Hl0].
    destruct (steps_returns B C _ _ _ _ _ _ Hrun)
      as (Hn & Hh & Ht & ts & Hl & Hids & Hus & Hvs).
    rewrite Hl0 in Hl. simpl in Hl. rewrite Hid0 in Hids, Ht.
    assert (Hlen : length ts = length msgs).
    { rewrite <- (length_map tl_user_message), Hus. reflexivity. }
    rewrite Hl.
    split; [rewrite Ht; unfold len; rewrite Hlen; lia |].
    repeat split; assumption.
Qed.


(** X9.  In every state a session can be in, the history holds as many
    user messages as calls of [step] were made ([turn_id]), two more
    assistant messages than turns are logged (the introduction and the
    warm-up question, then one reply per logged turn), and nothing
    else; the turns logged are never more than the calls made. *)
Theorem history_counts_turns s (env : Env World)
    (Hreach : reachable B C s env) :
  len (with_role "user" (history s)) = turn_id s
  /\ len (get_all_assistant_messages s) = 2 + len (turns (logger s))
  /\ len (history s) = turn_id s + 2 + len (turns (logger s))
  /\ len (turns (logger s)) <= turn_id s.
Proof.
  assert (Hga : forall x, len (get_all_assistant_messages x)
                          = len (with_role "assistant" (history x))).
  { intros x. unfold get_all_assistant_messages, len. rewrite length_map. reflexivity. }
  rewrite Hga.
  induction Hreach as [cfg w s env H | msg s env r s' env' Hr IH Hstep].
  - start_cases H. unfold len, with_role. simpl. lia.
  - pose proof (reachable_engine_ok B C s env Hr) as (Hc & _).
    destruct IH as (I1 & I2 & I3 & I4).
    unfold len in *.
    step_cases_of Hc Hstep;
      unfold after_render, after_generate, after_decision, after_user, add_turn;
      cbn [history logger turn_id turns set_history set_logger set_turn_id set_state upd_state
           set_current_topic set_difficulty set_asked_topics set_asked_questions_text];
      rewrite <- ?app_assoc, ?with_role_app, ?length_app; simpl length; lia.
Qed.

(** X10.  In every state a session can be in, the turn numbers in the
    log are strictly increasing and lie between 1 and the number of
    calls of [step] made.  A call that returns logs one turn, numbered
    with the call; a call that raises logs none and uses up its number,
    so the numbering has a gap for every call that raised. *)
Theorem logged_turn_numbers_increase s (env : Env World)
    (Hreach : reachable B C s env) :
  StronglySorted Z.lt (map tl_turn_id (turns (logger s)))
  /\ Forall (fun t => 1 <= tl_turn_id t <= turn_id s) (turns (logger s))
  /\ (forall msg visible s' env',
        step B C msg s env = (Ok visible, s', env') ->
        exists t, turns (logger s') = turns (logger s) ++ [t]
                  /\ tl_turn_id t = turn_id s + 1)
  /\ (forall msg e s' env',
        step B C msg s env = (Raise e, s', env') ->
        turns (logger s') = turns (logger s) /\ turn_id s' = turn_id s + 1).
Proof.
  assert (Hinv : StronglySorted Z.lt (map tl_turn_id (turns (logger s)))
                 /\ Forall (fun t => 1 <= tl_turn_id t <= turn_id s) (turns (logger s))).
  { induction Hreach as [cfg w s env H | msg s env r s' env' Hr IH Hstep].
    - start_cases H. simpl. split; constructor.
    - pose proof (reachable_engine_ok B C s env Hr) as (Hc & _).
      pose proof (reachable_turn_id_nonneg s env Hr) as Hnn.
      destruct IH as (I1 & I2).
      assert (I2' : Forall (fun t => 1 <= tl_turn_id t <= turn_id s + 1) (turns (logger s))).
      { eapply Forall_impl; [| exact I2]. simpl. intros t Ht. lia. }
      step_cases_of Hc Hstep; step_fields; try (split; assumption).
      rewrite map_app. simpl map. split.
      + apply StronglySorted_snoc; [exact I1 |].
        rewrite Forall_map. eapply Forall_impl; [| exact I2]. simpl. intros t Ht. lia.
      + apply Forall_app. split; [exact I2' |].
        constructor; [| constructor]. simpl. lia. }
  destruct Hinv as [H1 H2]. split; [exact H1 |]. split; [exact H2 |].
  pose proof (reachable_engine_ok B C s env Hreach) as (Hc & _).
  split.
  - intros msg visible s' env' Hstep.
    destruct (step_shape _ _ _ _ _ _ Hc Hstep)
      as [(e & Hr & _)
         | (d & g & p & idx & planned & Hidx & Hget &
            [(e & Hr & _) | [(e & gen & Hr & _) | (v & gen & plan' & _ & ->)]])];
      try discriminate.
    eexists. split; reflexivity.
  - intros msg e s' env' Hstep.
    destruct (step_shape _ _ _ _ _ _ Hc Hstep)
      as [(e0 & _ & ->)
         | (d & g & p & idx & planned & Hidx & Hget &
            [(e0 & _ & ->) | [(e0 & gen & _ & ->) | (v & gen & plan' & Hr & _)]])];
      try discriminate; split; reflexivity.
Qed.

(** X11.  In every state a session can be in, the two anti-repeat lists
    have the same length; every asked topic is a topic of the plan, the
    first being the first topic of the plan; and the lists hold the
    warm-up question and then at least one entry per logged turn and at
    most one per call of [step]. *)
Theorem asked_lists_stay_aligned s (env : Env World)
    (Hreach : reachable B C s env) :
  len (asked_questions_text s) = len (asked_topics s)
  /\ Forall (fun t => In t (topic_plan s)) (asked_topics s)
  /\ (exists t0 rest, asked_topics s = t0 :: rest /\ py_getitem (topic_plan s) 0 = Ok t0)
  /\ 1 + len (turns (logger s)) <= len (asked_topics s) <= 1 + turn_id s.
Proof.
  induction Hreach as [cfg w s env H | msg s env r s' env' Hr IH Hstep].
  - start_cases H. unfold len. simpl.
    split; [reflexivity |]. split; [constructor; [left; reflexivity | constructor] |].
    split; [exists t0, []; split; reflexivity | lia].
  - pose proof (reachable_engine_ok B C s env Hr) as (Hc & _).
    destruct IH as (I1 & I2 & (t0 & rest & I3 & I3') & I4).
    unfold len in *.
    step_cases_of Hc Hstep; step_fields; rewrite ?length_app; simpl length.
    + split; [exact I1 |]. split; [exact I2 |]. split; [eauto | lia].
    + split; [exact I1 |]. split; [exact I2 |]. split; [eauto | lia].
    + split; [lia |].
      split; [apply Forall_app; split;
               [exact I2 | constructor; [eapply py_getitem_In; exact Hget | constructor]] |].
      split; [rewrite I3; simpl; eauto | lia].
    + split; [lia |].
      split; [apply Forall_app; split;
               [exact I2 | constructor; [eapply py_getitem_In; exact Hget | constructor]] |].
      split; [rewrite I3; simpl; eauto | lia].
Qed.

(** X12.  In every state a session can be in, the slots [last_topic]
    and [last_intent] are [None] exactly as long as no turn is logged;
    after that [last_topic] is the topic of the last logged turn, also
    when later calls of [step] have raised. *)
Theorem last_topic_is_last_logged_topic s (env : Env World)
    (Hreach : reachable B C s env) :
  (turns (logger s) = []
   /\ last_topic (state s) = None /\ last_intent (state s) = None)
  \/ exists older t i,
       turns (logger s) = older ++ [t]
       /\ last_topic (state s) = Some (tl_topic t)
       /\ last_intent (state s) = Some i.
Proof.
  induction Hreach as [cfg w s env H | msg s env r s' env' Hr IH Hstep].
  - start_cases H. left. repeat split; reflexivity.
  - pose proof (reachable_engine_ok B C s env Hr) as (Hc & _).
    step_cases_of Hc Hstep; step_fields; try exact IH.
    right. do 3 eexists. split; [reflexivity |]. split; reflexivity.
Qed.

(** X13.  The difficulty cannot rise faster than one level per two
    answers: in every state a session can be in, twice the rank of the
    difficulty plus the good streak is at most the number of calls of
    [step] made.  So the difficulty is medium after two calls at the
    earliest and hard after four. *)
Theorem difficulty_needs_two_good_answers_per_level s (env : Env World)
    (Hreach : reachable B C s env) :
  2 * level (difficulty s) + streak_good (state s) <= turn_id s
  /\ (difficulty s = "medium" -> 2 <= turn_id s)
  /\ (difficulty s = "hard" -> 4 <= turn_id s).
Proof.
  assert (Hinv : 2 * level (difficulty s) + streak_good (state s) <= turn_id s).
  { induction Hreach as [cfg w s env H | msg s env r s' env' Hr IH Hstep].
    - start_cases H. unfold level. simpl. lia.
    - pose proof (reachable_engine_ok B C s env Hr) as (Hc & (Hone & Hg & Hp) & Hd).
      destruct (step_frame _ _ _ _ _ _ Hc Hstep) as (_ & _ & _ & Ht). rewrite Ht.
      destruct (step_cases B C msg s env r s' env' Hc Hstep)
        as [(e & _ & -> & _)
           | (plan & env1 & planned & plan' & d & idx & s2 & s4 & Ea & _ & _ & _ & _)].
      { unfold after_user. cbn [difficulty state set_history set_turn_id]. lia. }
      assert (Ha : exists w1, observer_analyze C (step_analyze_args (after_user msg s) msg)
                                (world env) = (Ok plan, w1)).
      { unfold call_analyze in Ea.
        destruct (observer_analyze C _ (world env)) as [r0 w1].
        injection Ea as -> _. exists w1. reflexivity. }
      destruct Ha as [w1 Ha].
      destruct (step_policy_after B C msg s env plan w1 r s' env' Hc Ha Hstep)
        as (Eg & _ & Ed).
      rewrite Eg.
      pose proof (update_streaks_spec plan s) as Hs.
      destruct (update_streaks_frame plan s) as (Hd1 & _).
      assert (Hlt : streak_good (state (update_streaks plan s)) < 2
                    \/ streak_poor (state (update_streaks plan s)) < 2).
      { unfold spec_streaks in Hs.
        destruct (75 <=? _); [| destruct (_ || _ || _)]; injection Hs as Hs1 Hs2; lia. }
      pose proof (update_difficulty_spec _ Hlt) as Htr. rewrite Hd1 in Htr.
      assert (Hmain : 2 * level (difficulty (_update_difficulty_by_streaks
                                               (update_streaks plan s)))
                      + streak_good (state (_update_difficulty_by_streaks
                                              (update_streaks plan s)))
                      <= turn_id s + 1
                      /\ 0 <= streak_good (state (_update_difficulty_by_streaks
                                                     (update_streaks plan s)))).
      { unfold spec_streaks in Hs. unfold spec_transition in Htr.
        destruct (level_cases _ Hd) as [[Dd Dl] | [[Dd Dl] | [Dd Dl]]];
          rewrite Dd in *;
          (destruct (75 <=? score_0_100 plan); [| destruct (_ || _ || _)]);
          injection Hs as Hs1 Hs2; rewrite Hs1, Hs2 in Htr;
          match type of Htr with
          | context [2 <=? ?g] => destruct (2 <=? g) eqn:Eg2
          end;
          try match type of Htr with
          | context [2 <=? ?q] => destruct (2 <=? q) eqn:Ep2
          end;
          injection Htr as Hd' Hg' Hp'; rewrite Hd', Hg';
          try apply Z.leb_le in Eg2; try apply Z.leb_gt in Eg2;
          cbv [spec_promote spec_demote level String.eqb Ascii.eqb Bool.eqb];
          lia. }
      destruct Hmain as [Hmain Hnn].
      destruct Ed as [-> | ->]; [exact Hmain |].
      pose proof (level_nonneg (difficulty (_update_difficulty_by_streaks
                                              (update_streaks plan s)))).
      cbv [level String.eqb Ascii.eqb Bool.eqb]. lia. }
  split; [exact Hinv |].
  pose proof (reachable_engine_ok B C s env Hreach) as (_ & (_ & Hg & _) & _).
  split; intros Hd; rewrite Hd in Hinv;
    cbv [level String.eqb Ascii.eqb Bool.eqb] in Hinv; lia.
Qed.

(** X14.  After a session whose calls have all returned (the
    constructor, then one [step] for each of [msgs]),
    [get_all_assistant_messages] gives the introduction, the warm-up
    question and then the reply of each turn, in order, and never a
    message of the user; the user messages of the history are [msgs] in
    order. *)
Theorem transcript_of_a_session cfg (w : World) s0 env0 msgs visibles s env
    (Hnew : new_engine B C cfg w = (Ok tt, s0, env0))
    (Hrun : steps B C msgs s0 env0 = (Ok visibles, s, env)) :
  exists first_q,
    get_all_assistant_messages s
    = build_interviewer_intro (cfg_position cfg) (cfg_target_grade cfg) (cfg_experience cfg)
      :: first_q :: visibles
    /\ asked_questions_text s0 = [first_q]
    /\ map content (with_role "user" (history s)) = msgs
    /\ length visibles = length msgs.
Proof.
  destruct (steps_returns B C msgs s0 env0 visibles s env Hrun) as (Hn & Hh & _).
  destruct (dialogue_roles msgs visibles Hn) as [Ha Hu].
  start_cases Hnew.
  exists (question_text q0).
  unfold get_all_assistant_messages. fold (with_role "assistant" (history s)).
  rewrite Hh, !with_role_app, !map_app, Ha, Hu.
  repeat split; try reflexivity. exact Hn.
Qed.

(** X15.  No call of [step] changes what the constructor was given: after
    the constructor and any calls of [step], the last of which may have
    raised, the position, the target grade, the experience, the
    participant's name, the language and [max_regen_attempts] are the
    constructor's arguments, the topic plan is the one the constructor
    set, the logger carries the participant's name and no final report;
    so the request that [finish] makes carries the configured position,
    grade and experience. *)
Theorem session_keeps_its_configuration cfg (w : World) s0 env0 msgs r s env
    (Hnew : new_engine B C cfg w = (Ok tt, s0, env0))
    (Hrun : steps B C msgs s0 env0 = (r, s, env)) :
  position s = cfg_position cfg /\ target_grade s = cfg_target_grade cfg
  /\ experience s = cfg_experience cfg /\ participant_name s = cfg_participant_name cfg
  /\ lang s = cfg_lang cfg /\ max_regen_attempts s = cfg_max_regen_attempts cfg
  /\ topic_plan s = topic_plan s0
  /\ lg_participant_name (logger s) = cfg_participant_name cfg
  /\ final_feedback (logger s) = None
  /\ fa_position (feedback_args s) = cfg_position cfg
  /\ fa_target_grade (feedback_args s) = cfg_target_grade cfg
  /\ fa_experience (feedback_args s) = cfg_experience cfg.
Proof.
  pose proof (new_engine_engine_ok B C _ _ _ _ Hnew) as Hok0.
  destruct (steps_frame _ _ _ _ _ _ Hok0 Hrun)
    as (_ & (F1 & F2 & F3 & F4 & F5 & F6 & F7) & F8 & F9).
  unfold feedback_args. cbn [fa_position fa_target_grade fa_experience].
  rewrite F1, F2, F3, F4, F5, F6, F7, F8, F9.
  start_cases Hnew. repeat split; reflexivity.
Qed.

End Books.

(** ** The engine with the agents of [agents.py] *)

Section RealAgents.

Context {World Json : Type} (B : Builtins) (K : Backend World Json).
Variables im om mm : string.

Lemma generate_returns :
  chat_always_returns_text K -> never_raises (qgen_generate (agents_of B K im om mm)).
Proof.
  intros Hchat a w. simpl. unfold QuestionGeneratorAgent_generate.
  destruct (Hchat im (qgen_messages B K a) (Some "json") (4 # 10)%Q w) as (raw & w' & ->).
  cbn [load_reply].
  destruct (_safe_json_load B K raw) as [data | e]; cbn [bind_result]; [| eauto].
  destruct (GeneratedQuestion_model_validate K data) as [q0 | e]; cbn [bind_result]; eauto.
Qed.

Lemma plan_returns :
  chat_always_returns_text K -> never_raises (planner_build_plan (agents_of B K im om mm)).
Proof.
  intros Hchat a w. simpl.
  destruct (Hchat om (planner_messages B K a) (Some "json") (3 # 10)%Q w) as (raw & w' & Hc).
  destruct (build_plan_fallback B K om a w (PyStr raw) w' Hc) as (p & Hp & _). eauto.
Qed.

Lemma render_returns :
  chat_always_returns_text K -> never_raises (interviewer_render_message (agents_of B K im om mm)).
Proof.
  intros Hchat a w. simpl. unfold InterviewerAgent_render_message.
  destruct (Hchat im (interviewer_messages B K a) None (5 # 10)%Q w) as (raw & w' & ->).
  eauto.
Qed.

(** X16.  With the observer of [agents.py] the engine never falls back on
    advancing the cursor by one: in every call of [step] whose
    evaluation says to move on, the next topic of the evaluation is a
    topic of the plan, the turn commits that topic, and the cursor is
    set to its first position in the plan; when the evaluation says to
    stay, the topic and the cursor are unchanged. *)
Theorem real_observer_never_triggers_the_advance s (env : Env World) msg plan w1 r s' env'
    (Hreach : reachable B (agents_of B K im om mm) s env)
    (Heval : ObserverAgent_analyze B K om (step_analyze_args (after_user msg s) msg)
               (world env) = (Ok plan, w1))
    (Hstep : step B (agents_of B K im om mm) msg s env = (r, s', env')) :
  (should_move_on plan = true ->
   In (next_topic plan) (topic_plan s)
   /\ current_topic s' = next_topic plan
   /\ py_index (topic_plan s) (next_topic plan) = Ok (topic_index (state s')))
  /\ (should_move_on plan = false ->
      current_topic s' = current_topic s
      /\ topic_index (state s') = topic_index (state s)).
Proof.
  set (C := agents_of B K im om mm) in *.
  pose proof (reachable_engine_ok B C s env Hreach) as (Hc & _).
  pose proof (analyze_in_plan B K _ _ _ _ _ Heval) as Hin. simpl in Hin.
  destruct (step_cases B C msg s env r s' env' Hc Hstep)
    as [(e & _ & _ & Ea)
       | (plan0 & env1 & planned & plan' & d & idx & s2 & s4 & Ea & _ & Htd & Es4 & Hcases)].
  { unfold call_analyze, C in Ea. simpl in Ea. rewrite Heval in Ea. discriminate. }
  unfold call_analyze, C in Ea. simpl in Ea. rewrite Heval in Ea. injection Ea as <- _.
  assert (Hs' : current_topic s' = planned /\ topic_index (state s') = idx).
  { destruct Hcases as [(e & _ & -> & _)
                       | (gen & env2 & _ & [(e & _ & -> & _) | (v & _ & -> & _)])];
      subst s4; split; reflexivity. }
  destruct Hs' as [-> ->].
  destruct Htd as (_ & _ & _ & _ & Hstay & Hmove).
  split.
  - intros Hm. destruct (Hmove Hm) as (_ & _ & Hidx & Hnext & _).
    specialize (Hin Hm). rewrite (Hnext Hin) in *.
    split; [apply py_in_In; exact Hin |]. split; [reflexivity | exact Hidx].
  - intros Hm. destruct (Hstay Hm) as (-> & -> & _). split; reflexivity.
Qed.

(** X17.  With the agents of [agents.py], a turn whose evaluation the
    backend returns in a form that cannot be parsed or validated.  When
    the reply can be quoted, that is when it is a text or a list, the
    turn counts as a poor answer: the call of [step] leaves the
    difficulty easy and the good streak at zero, stays on the topic and
    the cursor, gives every call of the generator the difficulty easy
    and the hint flag, and, if it returns, logs the turn with the score
    45.  When it cannot, that is when it is [None], a boolean, a number
    or an object, the call of [step] raises the exception of slicing
    it, having counted the turn and stored the user's message and done
    nothing else. *)
Theorem unreadable_evaluation_counts_as_a_poor_answer
    s (env : Env World) msg reply w1 r s' env'
    (Hreach : reachable B (agents_of B K im om mm) s env)
    (Hchat : client_chat K om
               (observer_messages B K (step_analyze_args (after_user msg s) msg))
               (Some "json") (2 # 10)%Q (world env) = (Ok reply, w1))
    (Hbad : (exists e, load_reply B K reply = Raise e)
            \/ (exists data e, load_reply B K reply = Ok data
                               /\ ObserverOutput_model_validate K data = Raise e))
    (Hstep : step B (agents_of B K im om mm) msg s env = (r, s', env')) :
  (forall head, raw_head B reply = Ok head ->
     difficulty s' = "easy"
     /\ current_topic s' = current_topic s
     /\ topic_index (state s') = topic_index (state s)
     /\ streak_good (state s') = 0
     /\ (exists evs,
           trace env' = trace env ++ evs
           /\ forall a res, In (EvGenerate a res) evs ->
                ga_topic a = current_topic s /\ ga_difficulty a = "easy"
                /\ ga_need_hint a = true)
     /\ (forall visible, r = Ok visible ->
           exists t, turns (logger s') = turns (logger s) ++ [t]
                     /\ tl_score_0_100 t = 45 /\ tl_difficulty t = "easy"
                     /\ tl_topic t = current_topic s))
  /\ (forall e, raw_head B reply = Raise e ->
      r = Raise e /\ s' = after_user msg s /\ world env' = w1).
Proof.
  set (C := agents_of B K im om mm) in *.
  pose proof (reachable_engine_ok B C s env Hreach) as (Hc & (_ & Hg & _) & Hd).
  set (a := step_analyze_args (after_user msg s) msg) in *.
  assert (Hana : ObserverAgent_analyze B K om a (world env)
                 = match raw_head B reply with
                   | Ok head => (Ok (fallback_observer_output_quoting a head), w1)
                   | Raise e => (Raise e, w1)
                   end).
  { unfold ObserverAgent_analyze. rewrite Hchat.
    assert (Hdiff : py_in (aa_current_difficulty a) DIFFICULTIES = true).
    { apply py_in_In. exact Hd. }
    destruct Hbad as [(e & ->) | (data & e & -> & Hv)]; cbn [bind_result];
      [| rewrite Hv; cbn [bind_result]];
      destruct (raw_head B reply); rewrite ?Hdiff; reflexivity. }
  split.
  2: { intros e He. rewrite He in Hana.
       destruct (step_cases B C msg s env r s' env' Hc Hstep)
         as [(e0 & -> & -> & Ea)
            | (plan0 & env1 & planned & plan' & d & idx & s2 & s4 & Ea & _)];
         unfold call_analyze in Ea; simpl in Ea; fold a in Ea; rewrite Hana in Ea;
         [| discriminate].
       injection Ea as <- <-. repeat split; reflexivity. }
  intros head Hhead. rewrite Hhead in Hana. rename Hana into Heval.
  set (plan := fallback_observer_output_quoting a head) in *.
  destruct (step_policy_after B C msg s env plan w1 r s' env' Hc Heval Hstep)
    as (Eg & _ & _).
  destruct (step_generate_calls B C msg s env r s' env' Hc Hstep) as (evs & Ht & Hcalls).
  destruct (step_cases B C msg s env r s' env' Hc Hstep)
    as [(e & _ & _ & Ea)
       | (plan0 & env1 & planned & plan' & d & idx & s2 & s4 & Ea & Es2 & Htd & Es4 & Hcases)].
  { unfold call_analyze in Ea. simpl in Ea. fold a in Ea. rewrite Heval in Ea. discriminate. }
  unfold call_analyze in Ea. simpl in Ea. fold a in Ea. rewrite Heval in Ea.
  injection Ea as <- _.
  assert (Hstay : should_move_on plan = false) by reflexivity.
  assert (Hscore : score_0_100 plan <= 45) by (simpl; lia).
  destruct Htd as (_ & _ & _ & _ & Hs & _).
  destruct (Hs Hstay) as (-> & -> & Hlow & _).
  destruct (Hlow Hscore) as (-> & ->).
  assert (Hl4 : turns (logger s4) = turns (logger s)).
  { subst s4 s2. simpl.
    destruct (update_difficulty_frame (update_streaks plan (after_user msg s)))
      as (_ & _ & _ & _ & _ & -> & _).
    destruct (update_streaks_frame plan (after_user msg s))
      as (_ & _ & _ & _ & _ & _ & -> & _).
    reflexivity. }
  assert (Hs' : difficulty s' = "easy" /\ current_topic s' = current_topic s
                /\ topic_index (state s') = topic_index (state s)).
  { destruct Hcases as [(e & _ & -> & _)
                       | (gen & env2 & _ & [(e & _ & -> & _) | (v & _ & -> & _)])];
      subst s4; repeat split; reflexivity. }
  destruct Hs' as (Hd' & Ht' & Hi').
  split; [exact Hd' |]. split; [exact Ht' |]. split; [exact Hi' |].
  split.
  { rewrite Eg. unfold update_streaks, _update_difficulty_by_streaks. simpl.
    repeat (case_if; simpl); reflexivity. }
  split.
  { exists evs. split; [exact Ht |].
    intros a0 res Hin.
    destruct (Hcalls a0 res Hin)
      as (p0 & w0 & planned0 & plan0' & d0 & idx0 & Ha0 & Htd0 & E1 & E2 & E3).
    simpl in Ha0. fold a in Ha0. rewrite Heval in Ha0. injection Ha0 as <- _.
    destruct Htd0 as (_ & _ & _ & _ & Hs0 & _).
    destruct (Hs0 Hstay) as (-> & _ & Hlow0 & _).
    destruct (Hlow0 Hscore) as (-> & ->).
    rewrite E1, E2, E3. repeat split; reflexivity. }
  intros visible ->.
  destruct Hcases as [(e & Hr & _)
                     | (gen & env2 & _ & [(e & Hr & _) | (v & _ & -> & _)])];
    try discriminate.
  eexists. unfold after_render, after_generate.
  cbn [logger set_logger set_history upd_state set_state add_turn turns
       set_asked_topics set_asked_questions_text].
  rewrite Hl4. split; [reflexivity |].
  subst s4. repeat split; reflexivity.
Qed.

(** X18.  With the agents of [agents.py], as long as the chat client
    returns a text to every request, whatever the texts say, the
    constructor returns and every call of [step] in a state a session
    can be in returns a visible message: no text that the backend
    replies with makes the interview raise before [finish]. *)
Theorem interview_never_stops_while_the_backend_replies_with_text
    (Hchat : chat_always_returns_text K) :
  (forall cfg w, exists s env, new_engine B (agents_of B K im om mm) cfg w = (Ok tt, s, env))
  /\ forall s (env : Env World) msg,
       reachable B (agents_of B K im om mm) s env ->
       exists visible s' env',
         step B (agents_of B K im om mm) msg s env = (Ok visible, s', env').
Proof.
  set (C := agents_of B K im om mm) in *. split.
  - intros cfg w. apply new_engine_returns; [apply plan_returns | apply generate_returns];
      exact Hchat.
  - intros s env msg Hreach.
    pose proof (reachable_engine_ok B C s env Hreach) as (Hc & _ & Hd).
    destruct (step B C msg s env) as [[r s'] env'] eqn:Hstep.
    destruct (step_cases B C msg s env r s' env' Hc Hstep)
      as [(e & _ & _ & Ea)
         | (plan & env1 & planned & plan' & d & idx & s2 & s4 & Ea & _ & _ & _ & Hcases)].
    { unfold call_analyze in Ea.
      destruct (analyze_returns B K om (step_analyze_args (after_user msg s) msg) (world env)
                  Hchat Hd) as (out & w' & Ho).
      unfold C in Ea. simpl in Ea. rewrite Ho in Ea. discriminate. }
    destruct Hcases as [(e & _ & _ & Hg) | (gen & env2 & Hg & Hcases)].
    { destruct (generate_question_returns B C _ _ _ _ _ _ _ _ (generate_returns Hchat) Hg)
        as (g & Hr). discriminate. }
    destruct Hcases as [(e & _ & _ & Hr) | (visible & -> & _ & _)].
    { unfold call_render in Hr.
      match type of Hr with
      | context [interviewer_render_message C ?a ?w] =>
          destruct (render_returns Hchat a w) as (v & w' & Ho)
      end.
      fold C in Ho. rewrite Ho in Hr. discriminate. }
    eauto.
Qed.

(** X19.  With the generator of [agents.py], no question recorded as
    asked is the empty string, in any state a session can be in. *)
Theorem real_generator_questions_are_never_empty s (env : Env World)
    (Hreach : reachable B (agents_of B K im om mm) s env) :
  Forall (fun q => q <> "") (asked_questions_text s).
Proof.
  set (C := agents_of B K im om mm) in *.
  assert (HP : forall a w q w', qgen_generate C a w = (Ok q, w') -> question_text q <> "").
  { intros a w q w'. unfold C. simpl. apply generate_nonempty. }
  induction Hreach as [cfg w s env H | msg s env r s' env' Hr IH Hstep].
  - destruct (new_engine_ok_cases B C _ _ _ _ H)
      as (plan0 & w1 & t0 & rest0 & q0 & _ & _ & Hg & ->).
    simpl. constructor; [| constructor].
    exact (generate_question_draft B C (fun g => question_text g <> "") _ _ _ _ _ _ _ _
             HP Hg).
  - pose proof (reachable_engine_ok B C s env Hr) as (Hc & _).
    destruct (step_cases B C msg s env r s' env' Hc Hstep)
      as [(e & _ & -> & _)
         | (plan & env1 & planned & plan' & d & idx & s2 & s4 & _ & Es2 & _ & Es4 & Hcases)].
    { exact IH. }
    assert (H4 : asked_questions_text s4 = asked_questions_text s).
    { subst s4 s2. simpl.
      destruct (update_difficulty_frame (update_streaks plan (after_user msg s)))
        as (_ & _ & _ & _ & _ & _ & -> & _).
      destruct (update_streaks_frame plan (after_user msg s))
        as (_ & _ & _ & _ & _ & _ & _ & -> & _).
      reflexivity. }
    destruct Hcases as [(e & _ & -> & _) | (gen & env2 & Hg & Hcases)].
    { rewrite H4. exact IH. }
    assert (Hq : question_text gen <> "").
    { exact (generate_question_draft B C (fun g => question_text g <> "") _ _ _ _ _ _ _ _
               HP Hg). }
    destruct Hcases as [(e & _ & -> & _) | (v & _ & -> & _)];
      unfold after_render, after_generate;
      cbn [asked_questions_text set_asked_questions_text set_asked_topics set_history
           set_logger upd_state set_state];
      rewrite H4; apply Forall_app; split; try exact IH; constructor; auto.
Qed.

End RealAgents.

(** ** The export of the log *)

Lemma map_PyStr_inj xs ys : map PyStr xs = map PyStr ys -> xs = ys.
Proof.
  revert ys. induction xs as [| x xs IH]; intros [| y ys] H; simpl in H;
    try discriminate; [reflexivity |].
  injection H as -> H. f_equal. apply IH. exact H.
Qed.

Lemma asdict_inj t1 t2 : asdict t1 = asdict t2 -> t1 = t2.
Proof.
  destruct t1, t2. unfold asdict. simpl. intros H.
  injection H as -> -> -> -> -> -> -> ->. reflexivity.
Qed.

Lemma map_asdict_inj xs ys : map asdict xs = map asdict ys -> xs = ys.
Proof.
  revert ys. induction xs as [| x xs IH]; intros [| y ys] H; cbn [map] in H;
    try discriminate; [reflexivity |].
  remember (asdict x) as ax eqn:Eax. remember (asdict y) as ay eqn:Eay.
  injection H as Hx H. subst ax ay.
  f_equal; [apply asdict_inj; exact Hx | apply IH; exact H].
Qed.

Lemma model_dump_inj f1 f2 : model_dump f1 = model_dump f2 -> f1 = f2.
Proof.
  destruct f1, f2. unfold model_dump. simpl. intros H.
  injection H as -> -> -> H1 H2 H3 -> -> -> H4.
  apply map_PyStr_inj in H1, H2, H3, H4. subst. reflexivity.
Qed.

(** X20.  The document that [to_dict] builds, and that [save] writes,
    loses nothing of the logger: two loggers with the same document have
    the same participant name, the same turns with all their fields, in
    the same order, and the same final report or none. *)
Theorem exported_log_determines_the_logger l1 l2
    (Hsame : to_dict l1 = to_dict l2) :
  l1 = l2.
Proof.
  destruct l1 as [n1 t1 f1], l2 as [n2 t2 f2]. unfold to_dict in Hsame. simpl in Hsame.
  injection Hsame as -> Ht Hf. apply map_asdict_inj in Ht. subst t2.
  destruct f1 as [f1 |], f2 as [f2 |]; try discriminate; [| reflexivity].
  apply model_dump_inj in Hf. subst. reflexivity.
Qed.

(** ** The chat client *)

Section ClientFacts.

Context {Net LibExc : Type}.
Variable requests_post :
  string -> list (string * PyValue) -> Z -> Net -> (LibExc + Response LibExc) * Net.

(** X21.  The client drops every trailing slash of its base URL and
    nothing else: the URL given is the stored one followed by slashes
    only, the stored one ends with no slash, a base URL with one more
    trailing slash gives the same client and the same behaviour of
    [chat], and constructing a client from a stored URL changes
    nothing. *)
Theorem trailing_slashes_of_the_base_url_are_dropped url t :
  OllamaClient_init (url +++ "/") t = OllamaClient_init url t
  /\ (exists k, url = base_url (OllamaClient_init url t) +++ slashes k)
  /\ (forall p, base_url (OllamaClient_init url t) <> p +++ "/")
  /\ OllamaClient_init (base_url (OllamaClient_init url t)) t = OllamaClient_init url t
  /\ forall model messages format options n,
       OllamaClient_chat requests_post (OllamaClient_init (url +++ "/") t)
         model messages format options n
       = OllamaClient_chat requests_post (OllamaClient_init url t)
           model messages format options n.
Proof.
  assert (H : OllamaClient_init (url +++ "/") t = OllamaClient_init url t).
  { unfold OllamaClient_init. rewrite rstrip_slash_slash. reflexivity. }
  split; [exact H |].
  split; [apply rstrip_slash_split |].
  split; [intros p; apply rstrip_slash_last |].
  split; [unfold OllamaClient_init; simpl; rewrite rstrip_slash_idem; reflexivity |].
  intros. rewrite H. reflexivity.
Qed.

(** X22.  [chat] returns a value exactly when the request to the base
    URL followed by [/api/chat] returned a response, [raise_for_status]
    did not raise, the body decoded to an object whose [message] is an
    object, and that object has the key [content]: the value returned
    is the one under that key.  In every other case (the request raised,
    an error status, a body that is not JSON, a body that is not an
    object, a missing key) [chat] raises. *)
Theorem chat_returns_only_the_content_of_a_good_response
    self model messages format options n v n' :
  OllamaClient_chat requests_post self model messages format options n = (inr v, n')
  <-> exists resp body message,
        requests_post (base_url self +++ "/api/chat")
          (chat_payload model messages format options) (timeout self) n = (inr resp, n')
        /\ raise_for_status resp = None
        /\ json resp = inr (PyDict body)
        /\ dict_get "message" body = Some (PyDict message)
        /\ dict_get "content" message = Some v.
Proof.
  unfold OllamaClient_chat. split.
  - destruct (requests_post _ _ _ n) as [[e | resp] n0]; [discriminate |].
    destruct (raise_for_status resp) as [e |] eqn:Es; [discriminate |].
    destruct (json resp) as [e | data] eqn:Ej; [discriminate |].
    unfold py_subscript.
    destruct data as [| | | | | | body]; try discriminate.
    destruct (dict_get "message" body) as [m |] eqn:Em; [| discriminate].
    destruct m as [| | | | | | message]; try discriminate.
    destruct (dict_get "content" message) as [c |] eqn:Ec; [| discriminate].
    intros H. injection H as <- <-.
    exists resp, body, message. repeat split; assumption.
  - intros (resp & body & message & -> & -> & -> & Hm & Hc).
    unfold py_subscript. rewrite Hm, Hc. reflexivity.
Qed.

End ClientFacts.

(** ** The interactive mode *)

Section MainFacts.

Context {World Json Disk : Type} (B : Builtins).
Variable backend_at : string -> Backend World Json.
Variable json_dumps : PyValue -> string.
Variable write_json : string -> PyValue -> Disk -> bool * Disk.

(** The loop ends without an exception at the first stop line, after one
    [step] for each answer before it. *)
Lemma interactive_loop_break (C : Collaborators World) lines s (env : Env World) out
    s' env' out' rest :
  interactive_loop B C lines s env out = (None, s', env', out', rest) ->
  exists before stop_line visibles,
    lines = before ++ stop_line :: rest
    /\ is_stop_line B stop_line = true
    /\ Forall (fun l => is_stop_line B l = false) before
    /\ steps B C (answers B before) s env = (Ok visibles, s', env').
Proof.
  revert s env out. induction lines as [| line more IH]; intros s env out;
    cbn [interactive_loop]; cbv zeta.
  - discriminate.
  - destruct (str_is_empty (py_strip B line)) eqn:Ee.
    + intros H. destruct (IH _ _ _ H) as (before & sl & vs & -> & Hs & Hb & Hst).
      exists (line :: before), sl, vs. split; [reflexivity |]. split; [exact Hs |].
      split; [constructor; [unfold is_stop_line; rewrite Ee; reflexivity | exact Hb] |].
      unfold answers in *. simpl. rewrite Ee. simpl. exact Hst.
    + destruct (py_in (py_lower B (py_strip B line)) STOP_WORDS) eqn:Es.
      * intros H. injection H as <- <- <- <-.
        exists [], line, []. split; [reflexivity |].
        split; [unfold is_stop_line; rewrite Ee, Es; reflexivity |].
        split; [constructor | reflexivity].
      * destruct (step B C (py_strip B line) s env) as [[[v | e] s1] env1] eqn:Est;
          [| discriminate].
        intros H. destruct (IH _ _ _ H) as (before & sl & vs & -> & Hs & Hb & Hst).
        exists (line :: before), sl, (v :: vs). split; [reflexivity |]. split; [exact Hs |].
        split; [constructor; [unfold is_stop_line; rewrite Ee, Es; reflexivity | exact Hb] |].
        unfold answers in *. simpl. rewrite Ee. simpl.
        unfold bind at 1. rewrite Est. unfold bind at 1. rewrite Hst. reflexivity.
Qed.

(** X23.  The loop of the interactive mode ends without an exception
    only at a stop line, that is a line which, stripped, is not empty
    and in lower case is one of the three stop words: it has then read
    the lines up to that one and no further, skipped the blank ones, and
    made one call of [step], which returned, for each other line before
    it, with the stripped line as the message.  If no line is a stop
    line the loop raises: the exception of a call of [step], or
    [EOFError] once every line is read and every call has returned. *)
Theorem interview_ends_only_at_a_stop_word (C : Collaborators World)
    lines s (env : Env World) out :
  (forall s' env' out' rest,
     interactive_loop B C lines s env out = (None, s', env', out', rest) ->
     exists before stop_line visibles,
       lines = before ++ stop_line :: rest
       /\ is_stop_line B stop_line = true
       /\ Forall (fun l => is_stop_line B l = false) before
       /\ steps B C (answers B before) s env = (Ok visibles, s', env'))
  /\ (Forall (fun l => is_stop_line B l = false) lines ->
      exists e s' env' out' rest,
        interactive_loop B C lines s env out = (Some e, s', env', out', rest)
        /\ (e = EOFError ->
            rest = [] /\ exists visibles,
              steps B C (answers B lines) s env = (Ok visibles, s', env'))).
Proof.
  split.
  { intros s' env' out' rest. apply interactive_loop_break. }
  revert s env out. induction lines as [| line more IH]; intros s env out Hf;
    cbn [interactive_loop]; cbv zeta.
  - do 5 eexists. split; [reflexivity |]. intros _. split; [reflexivity |].
    exists []. reflexivity.
  - inversion Hf as [| ? ? Hl Hm]; subst. unfold is_stop_line in Hl.
    destruct (str_is_empty (py_strip B line)) eqn:Ee.
    + destruct (IH s env (out ++ ["YOU> "]) Hm) as (e & s' & env' & out' & rest & -> & He).
      do 5 eexists. split; [reflexivity |].
      intros Heof. destruct (He Heof) as (-> & vs & Hst). split; [reflexivity |].
      exists vs. unfold answers in *. simpl. rewrite Ee. simpl. exact Hst.
    + cbn [negb andb] in Hl. rewrite Hl.
      destruct (step B C (py_strip B line) s env) as [[[v | e] s1] env1] eqn:Est.
      * destruct (IH s1 env1 (py_print (nl +++ "BOT> " +++ v +++ nl) (out ++ ["YOU> "])) Hm)
          as (e & s' & env' & out' & rest & -> & He).
        do 5 eexists. split; [reflexivity |].
        intros Heof. destruct (He Heof) as (-> & vs & Hst). split; [reflexivity |].
        exists (v :: vs). unfold answers in *. simpl. rewrite Ee. simpl.
        unfold bind at 1. rewrite Est. unfold bind at 1. rewrite Hst. reflexivity.
      * do 5 eexists. split; [reflexivity |]. discriminate.
Qed.

(** X24.  A run of the interactive mode touches the disk only in its
    last act, the call of [save]: a run that raises in the constructor,
    in a call of [step], at the end of the input or in [finish] leaves
    the disk as it was.  A run that returns has read a stop line and
    has written, to [logs/interview_<now>.json], the export of a logger
    that carries the participant's name, the final report, and one turn
    for each answer typed before the stop line, numbered 1, 2, ... and
    holding the answers in order. *)
Theorem saved_log_holds_one_turn_per_answer args now lines (w : World) (disk : Disk) :
  let run := run_interactive B backend_at json_dumps write_json args now lines w disk in
  (forall e, run_raised run = Some e -> e <> OSError -> run_disk run = disk)
  /\ (run_raised run = None ->
      exists before stop_line report,
        lines = before ++ stop_line :: run_unread run
        /\ is_stop_line B stop_line = true
        /\ Forall (fun l => is_stop_line B l = false) before
        /\ map tl_user_message (turns (logger (run_engine run))) = answers B before
        /\ map tl_turn_id (turns (logger (run_engine run)))
           = map Z.of_nat (seq 1 (length (answers B before)))
        /\ final_feedback (logger (run_engine run)) = Some report
        /\ lg_participant_name (logger (run_engine run)) = arg_name args
        /\ write_json ("logs/interview_" +++ now +++ ".json")
             (to_dict (logger (run_engine run))) disk = (true, run_disk run)).
Proof.
  intros run. unfold run, run_interactive.
  set (C := agents_of B (backend_at (arg_ollama_url args))
              (arg_interviewer_model args) (arg_observer_model args)
              (arg_manager_model args)).
  destruct (new_engine B C _ w) as [[[[] | e0] s0] env0] eqn:Enew.
  2: { split; [intros e _ _; reflexivity | discriminate]. }
  cbv zeta.
  match goal with
  | |- context [interactive_loop B C lines s0 env0 ?o] =>
      destruct (interactive_loop B C lines s0 env0 o)
        as [[[[[e1 |] s1] env1] out1] rest] eqn:Eloop
  end.
  { split; [intros e _ _; reflexivity | discriminate]. }
  destruct (finish C s1 env1) as [[[fb | e2] s2] env2] eqn:Efin.
  2: { split; [intros e _ _; reflexivity | discriminate]. }
  unfold InterviewLogger_save.
  destruct (write_json _ (to_dict (logger s2)) disk) as [[|] disk'] eqn:Ew.
  2: { split; [intros e He Hne; injection He as <-; exfalso; apply Hne; reflexivity
              | discriminate]. }
  split; [discriminate |]. intros _.
  cbn [run_engine run_unread run_disk].
  destruct (interactive_loop_break C _ _ _ _ _ _ _ _ Eloop)
    as (before & sl & vs & Hl & Hs & Hb & Hst).
  destruct (steps_returns B C _ _ _ _ _ _ Hst) as (Hn & _ & _ & ts & Hts & Hids & Hus & _).
  pose proof (new_engine_engine_ok B C _ _ _ _ Enew) as Hok0.
  destruct (steps_frame B C _ _ _ _ _ _ Hok0 Hst) as (_ & _ & Hname & _).
  destruct (new_engine_ok_cases B C _ _ _ _ Enew)
    as (plan0 & w1 & t0 & rest0 & q0 & _ & _ & _ & Es0).
  assert (Hf : logger s2 = set_final_feedback fb (logger s1)).
  { unfold finish, bind, call, assign, ret in Efin.
    destruct (call_feedback C (feedback_args s1) env1) as [[f | e] envf]; [| discriminate].
    injection Efin as <- <- _. reflexivity. }
  rewrite Es0 in Hts, Hids, Hname. cbn in Hts, Hname.
  change (turn_id (after_warmup q0 (before_warmup _ (t0 :: rest0) t0))) with 0 in Hids.
  exists before, sl, fb.
  split; [exact Hl |]. split; [exact Hs |]. split; [exact Hb |].
  rewrite Hf. cbn [turns final_feedback lg_participant_name set_final_feedback].
  rewrite Hts.
  split; [exact Hus |].
  split; [rewrite Hids; apply map_ext; intros k; lia |].
  split; [reflexivity |].
  split; [exact Hname |].
  rewrite <- Hf. exact Ew.
Qed.

End MainFacts.

(** * Further sample sessions, run *)

Lemma two_turns_reachable :
  reachable ascii_builtins (relaxed plan_abc) (session_engine two_turns) (session_env two_turns).
Proof.
  apply (sample_session_reachable plan_abc "" 1 _ ["m1"; "m2"] ["Ok. q1"; "Ok. q2"]).
  vm_compute. reflexivity.
Qed.

Lemma toy_start_reachable replies :
  session_result (toy_start replies) = Ok tt ->
  reachable ascii_builtins toy_agents
    (session_engine (toy_start replies)) (session_env (toy_start replies)).
Proof.
  intros H. eapply reach_new with (cfg := sample_config 1) (w := replies).
  fold (toy_start replies). rewrite <- H. apply triple_eta.
Qed.

Lemma replying_backend_replies : chat_always_returns_text replying_backend.
Proof. intros model msgs fmt temperature w. exists "{}", w. reflexivity. Qed.

Lemma after_outage_reachable :
  reachable ascii_builtins flaky (session_engine after_outage) (session_env after_outage).
Proof.
  assert (H0 : new_engine ascii_builtins flaky (sample_config 1) ([so_so], 0)
               = (Ok tt, session_engine flaky_start, session_env flaky_start))
    by (vm_compute; reflexivity).
  eapply reach_step with (msg := "offline").
  - eapply reach_new. exact H0.
  - apply (triple_eta after_outage).
Qed.

(** The interactive mode on the scripted backend: the answer is logged
    as turn 1, the blank line is skipped, the stop word ends the loop in
    any case of letters, the line after it is not read, and the log is
    written under the name that carries the time stamp. *)
Example sample_interactive_run :
  run_raised (sample_run sample_lines (repeat "{}" 8)) = None
  /\ run_unread (sample_run sample_lines (repeat "{}" 8)) = ["ignored"]
  /\ map tl_user_message
       (turns (logger (run_engine (sample_run sample_lines (repeat "{}" 8))))) = ["hello"]
  /\ map fst (run_disk (sample_run sample_lines (repeat "{}" 8)))
     = ["logs/interview_20260101_120000.json"].
Proof. repeat split; vm_compute; reflexivity. Qed.

(** The same run when the reply to the hiring manager is not JSON:
    [finish] raises and nothing is written, though a turn was logged. *)
Example sample_interactive_run_unsaved :
  run_raised (sample_run sample_lines (repeat "{}" 7 ++ ["no json"]))
  = Some (EngineExc JSONDecodeError)
  /\ run_disk (sample_run sample_lines (repeat "{}" 7 ++ ["no json"])) = []
  /\ length (turns (logger (run_engine
                              (sample_run sample_lines (repeat "{}" 7 ++ ["no json"]))))) = 1%nat.
Proof. repeat split; vm_compute; reflexivity. Qed.

(** X1, witness: the reply [Sure: {} ok], on a decoder that accepts
    only the empty object. *)
Lemma safe_json_load_recovers_wrapped_object_witness :
  json_loads toy_backend (py_strip ascii_builtins wrapped_reply) = Raise JSONDecodeError
  /\ _safe_json_load ascii_builtins toy_backend wrapped_reply = Ok EmptyObject.
Proof.
  split; [reflexivity |].
  exact (safe_json_load_recovers_wrapped_object ascii_builtins toy_backend
           wrapped_reply "Sure: " "" " ok" JSONDecodeError
           eq_refl eq_refl eq_refl eq_refl).
Defined.

(** X3, witness: the empty object validates to the defaults, which say
    to move on to a topic outside the plan a, b, c. *)
Lemma analyze_advice_stays_in_plan_witness :
  exists out,
    ObserverAgent_analyze ascii_builtins toy_backend "m"
      (step_analyze_args (after_user "m1" (session_engine fresh_weak_stay)) "m1") ["{}"]
    = (Ok out, [])
    /\ out = stay_on "a" toy_evaluation.
Proof.
  assert (Hchat : client_chat toy_backend "m"
                    (observer_messages ascii_builtins toy_backend
                       (step_analyze_args (after_user "m1" (session_engine fresh_weak_stay))
                          "m1"))
                    (Some "json") (2 # 10)%Q ["{}"] = (Ok (PyStr "{}"), []))
    by reflexivity.
  assert (Hdiff : In (aa_current_difficulty
                        (step_analyze_args (after_user "m1" (session_engine fresh_weak_stay))
                           "m1")) DIFFICULTIES)
    by (vm_compute; auto).
  destruct (analyze_advice_stays_in_plan ascii_builtins toy_backend "m" _ _ _ _ Hchat Hdiff)
    as (_ & Htext & _).
  destruct (Htext "{}" eq_refl) as (out & Hout & Hvalid & _).
  exists out. split; [exact Hout |].
  destruct (Hvalid EmptyObject toy_evaluation eq_refl eq_refl) as (Hstay & _).
  apply Hstay; [reflexivity |].
  vm_compute. intros [H | [H | [H | []]]]; discriminate.
Defined.

(** X4, witness: the empty object fails the validation of a draft, and
    the fallback question is returned. *)
Lemma generate_returns_nonempty_question_witness :
  exists q,
    QuestionGeneratorAgent_generate ascii_builtins toy_backend "m"
      (generate_args (session_engine fresh_weak_stay) "a" "easy" "check_basics" false [])
      ["{}"]
    = (Ok q, [])
    /\ question_text q <> "".
Proof.
  destruct (generate_returns_nonempty_question ascii_builtins toy_backend "m"
              (generate_args (session_engine fresh_weak_stay) "a" "easy" "check_basics"
                 false [])
              ["{}"] (PyStr "{}") [] eq_refl)
    as (q & Hq & Hne & _).
  exists q. split; assumption.
Defined.

(** X5, witness: after two turns, the hiring manager's backend replies
    with the empty object, which fails validation. *)
Lemma finish_stores_fallback_when_report_is_invalid_witness :
  session_result (finish toy_agents (session_engine two_turns)
                    {| world := ["{}"]; trace := [] |})
  = Ok (fallback_feedback "{}")
  /\ final_feedback (logger (session_engine
                               (finish toy_agents (session_engine two_turns)
                                  {| world := ["{}"]; trace := [] |})))
     = Some (fallback_feedback "{}").
Proof.
  destruct (finish_stores_fallback_when_report_is_invalid ascii_builtins toy_backend
              "m" "m" "m" (session_engine two_turns) ["{}"] [] "{}" [] EmptyObject
              eq_refl eq_refl eq_refl)
    as (Hfin & _).
  unfold toy_agents. rewrite Hfin. split; reflexivity.
Defined.

(** X6, witness: the backend has one reply left; the generator uses it
    and the observer's request for the guard raises. *)
Lemma failing_guard_accepts_the_draft_witness :
  fst
    (_generate_question ascii_builtins toy_agents (session_engine fresh_weak_stay)
       "a" "easy" "check_basics" false {| world := ["{}"]; trace := [] |})
  = Ok (fallback_question false).
Proof.
  rewrite (failing_guard_accepts_the_draft ascii_builtins toy_agents
             (session_engine fresh_weak_stay) "a" "easy" "check_basics" false
             {| world := ["{}"]; trace := [] |}
             (fallback_question false) [] RequestException [] eq_refl eq_refl).
  reflexivity.
Defined.

(** X7, witness: a session constructed with [max_regen_attempts = 0]
    under a guard that would reject every draft. *)
Lemma no_attempts_no_guard_call_witness :
  max_regen_attempts (session_engine no_retry_start) <= 0
  /\ fst
       (_generate_question ascii_builtins (strict plan_abc) (session_engine no_retry_start)
          "a" "easy" "check_basics" false (session_env no_retry_start))
     = Ok {| question_text := "q1"; hint := ""; ideal_answer_short := "ideal" |}.
Proof.
  assert (Hmax : max_regen_attempts (session_engine no_retry_start) <= 0)
    by (vm_compute; discriminate).
  split; [exact Hmax |].
  rewrite (no_attempts_no_guard_call ascii_builtins (strict plan_abc)
             (session_engine no_retry_start) "a" "easy" "check_basics" false
             (session_env no_retry_start)
             (Ok {| question_text := "q1"; hint := ""; ideal_answer_short := "ideal" |})
             ([], 2) Hmax eq_refl).
  reflexivity.
Defined.


(** X9, witness: the session of two completed turns. *)
Lemma history_counts_turns_witness :
  len (with_role "user" (history (session_engine two_turns))) = 2
  /\ len (get_all_assistant_messages (session_engine two_turns)) = 4.
Proof.
  destruct (history_counts_turns ascii_builtins (relaxed plan_abc)
              (session_engine two_turns) (session_env two_turns) two_turns_reachable)
    as (Hu & Ha & _).
  split; [rewrite Hu | rewrite Ha]; reflexivity.
Defined.

(** X10, witness: the session of two completed turns. *)
Lemma logged_turn_numbers_increase_witness :
  StronglySorted Z.lt (map tl_turn_id (turns (logger (session_engine two_turns)))).
Proof.
  exact (proj1 (logged_turn_numbers_increase ascii_builtins (relaxed plan_abc)
                  (session_engine two_turns) (session_env two_turns) two_turns_reachable)).
Defined.

(** X11, witness: the session of two completed turns. *)
Lemma asked_lists_stay_aligned_witness :
  len (asked_questions_text (session_engine two_turns))
  = len (asked_topics (session_engine two_turns)).
Proof.
  exact (proj1 (asked_lists_stay_aligned ascii_builtins (relaxed plan_abc)
                  (session_engine two_turns) (session_env two_turns) two_turns_reachable)).
Defined.

(** X12, witness: the session of two completed turns, which ended on
    the topic b. *)
Lemma last_topic_is_last_logged_topic_witness :
  exists older t i,
    turns (logger (session_engine two_turns)) = older ++ [t]
    /\ last_topic (state (session_engine two_turns)) = Some (tl_topic t)
    /\ last_intent (state (session_engine two_turns)) = Some i.
Proof.
  destruct (last_topic_is_last_logged_topic ascii_builtins (relaxed plan_abc)
              (session_engine two_turns) (session_env two_turns) two_turns_reachable)
    as [(Hnone & _) | Hsome].
  - vm_compute in Hnone. discriminate.
  - exact Hsome.
Defined.

(** X13, witness: two strong answers promote to medium. *)
Lemma difficulty_needs_two_good_answers_per_level_witness :
  difficulty (session_engine promoted) = "medium"
  /\ 2 <= turn_id (session_engine promoted).
Proof.
  assert (Hr : reachable ascii_builtins (relaxed plan_abc)
                 (session_engine promoted) (session_env promoted)).
  { apply (sample_session_reachable plan_abc "" 1 _ ["m1"; "m2"] ["Ok. q1"; "Ok. q2"]).
    vm_compute. reflexivity. }
  split; [reflexivity |].
  destruct (difficulty_needs_two_good_answers_per_level ascii_builtins (relaxed plan_abc)
              (session_engine promoted) (session_env promoted) Hr)
    as (_ & Hmedium & _).
  apply Hmedium. reflexivity.
Defined.

(** X14, witness: the session of two completed turns. *)
Lemma transcript_of_a_session_witness :
  exists first_q,
    get_all_assistant_messages (session_engine two_turns)
    = build_interviewer_intro "Backend Developer" "Junior" "Python"
      :: first_q :: ["Ok. q1"; "Ok. q2"]
    /\ map content (with_role "user" (history (session_engine two_turns))) = ["m1"; "m2"].
Proof.
  assert (Hn : new_engine ascii_builtins (relaxed plan_abc) (sample_config 1)
                 (two_turns_script, 0)
               = (Ok tt,
                  session_engine (sample_session plan_abc "" 1 two_turns_script []),
                  session_env (sample_session plan_abc "" 1 two_turns_script [])))
    by (vm_compute; reflexivity).
  assert (Hs : steps ascii_builtins (relaxed plan_abc) ["m1"; "m2"]
                 (session_engine (sample_session plan_abc "" 1 two_turns_script []))
                 (session_env (sample_session plan_abc "" 1 two_turns_script []))
               = (Ok ["Ok. q1"; "Ok. q2"], session_engine two_turns, session_env two_turns))
    by (vm_compute; reflexivity).
  destruct (transcript_of_a_session ascii_builtins (relaxed plan_abc) (sample_config 1)
              _ _ _ ["m1"; "m2"] ["Ok. q1"; "Ok. q2"]
              (session_engine two_turns) (session_env two_turns) Hn Hs)
    as (first_q & Ha & _ & Hu & _).
  exists first_q. split; [exact Ha | exact Hu].
Defined.

(** X15, witness: the session in which two strong answers promote to
    medium and the third call of [step] has not been made. *)
Lemma session_keeps_its_configuration_witness :
  position (session_engine promoted) = "Backend Developer"
  /\ max_regen_attempts (session_engine promoted) = 1
  /\ final_feedback (logger (session_engine promoted)) = None.
Proof.
  assert (Hn : new_engine ascii_builtins (relaxed plan_abc) (sample_config 1)
                 ([evaluation 80 "good" true "b" false;
                   evaluation 80 "good" true "c" false; weak_move], 0)
               = (Ok tt,
                  session_engine (sample_session plan_abc "" 1
                                    [evaluation 80 "good" true "b" false;
                                     evaluation 80 "good" true "c" false; weak_move] []),
                  session_env (sample_session plan_abc "" 1
                                 [evaluation 80 "good" true "b" false;
                                  evaluation 80 "good" true "c" false; weak_move] [])))
    by (vm_compute; reflexivity).
  assert (Hs : steps ascii_builtins (relaxed plan_abc) ["m1"; "m2"]
                 (session_engine (sample_session plan_abc "" 1
                                    [evaluation 80 "good" true "b" false;
                                     evaluation 80 "good" true "c" false; weak_move] []))
                 (session_env (sample_session plan_abc "" 1
                                 [evaluation 80 "good" true "b" false;
                                  evaluation 80 "good" true "c" false; weak_move] []))
               = (Ok ["Ok. q1"; "Ok. q2"], session_engine promoted, session_env promoted))
    by (vm_compute; reflexivity).
  destruct (session_keeps_its_configuration ascii_builtins (relaxed plan_abc)
              (sample_config 1) _ _ _ ["m1"; "m2"] _
              (session_engine promoted) (session_env promoted) Hn Hs)
    as (Hp & _ & _ & _ & _ & Hm & _ & _ & Hf & _).
  split; [exact Hp |]. split; [exact Hm | exact Hf].
Defined.

(** X16, witness: on the scripted backend the evaluation says to move
    on to [general_basics], the one topic of the plan. *)
Lemma real_observer_never_triggers_the_advance_witness :
  should_move_on toy_evaluation = true
  /\ In (next_topic toy_evaluation) (topic_plan (session_engine toy_json_start))
  /\ current_topic (session_engine (toy_step "m1" toy_json_start)) = "general_basics".
Proof.
  assert (Hr : reachable ascii_builtins toy_agents
                 (session_engine toy_json_start) (session_env toy_json_start))
    by (apply toy_start_reachable; vm_compute; reflexivity).
  assert (He : ObserverAgent_analyze ascii_builtins toy_backend "m"
                 (step_analyze_args (after_user "m1" (session_engine toy_json_start)) "m1")
                 (world (session_env toy_json_start))
               = (Ok toy_evaluation, repeat "{}" 3))
    by (vm_compute; reflexivity).
  destruct (real_observer_never_triggers_the_advance ascii_builtins toy_backend "m" "m" "m"
              (session_engine toy_json_start) (session_env toy_json_start) "m1"
              toy_evaluation (repeat "{}" 3) _ _ _ Hr He
              (triple_eta (toy_step "m1" toy_json_start)))
    as (Hmove & _).
  split; [reflexivity |].
  destruct (Hmove eq_refl) as (Hin & Hcur & _).
  split; [exact Hin | exact Hcur].
Defined.

(** X17, witness: every reply of the backend is a word that is not JSON. *)
Lemma unreadable_evaluation_counts_as_a_poor_answer_witness :
  session_result (toy_step "m1" toy_noise_start) = Ok "nonsense"
  /\ difficulty (session_engine (toy_step "m1" toy_noise_start)) = "easy"
  /\ exists t,
       turns (logger (session_engine (toy_step "m1" toy_noise_start)))
       = turns (logger (session_engine toy_noise_start)) ++ [t]
       /\ tl_score_0_100 t = 45.
Proof.
  assert (Hr : reachable ascii_builtins toy_agents
                 (session_engine toy_noise_start) (session_env toy_noise_start))
    by (apply toy_start_reachable; vm_compute; reflexivity).
  assert (Hres : session_result (toy_step "m1" toy_noise_start) = Ok "nonsense")
    by (vm_compute; reflexivity).
  destruct (unreadable_evaluation_counts_as_a_poor_answer ascii_builtins toy_backend
              "m" "m" "m"
              (session_engine toy_noise_start) (session_env toy_noise_start) "m1"
              (PyStr "nonsense") (repeat "nonsense" 3) _ _ _ Hr eq_refl
              (or_introl (ex_intro _ JSONDecodeError eq_refl))
              (triple_eta (toy_step "m1" toy_noise_start)))
    as (Hpoor & _).
  destruct (Hpoor _ eq_refl) as (Hd & _ & _ & _ & _ & Hlog).
  split; [exact Hres |]. split; [exact Hd |].
  destruct (Hlog "nonsense" Hres) as (t & Ht & Hscore & _).
  exists t. split; [exact Ht | exact Hscore].
Defined.

(** X18, witness: a backend that replies with the text of the empty
    object to every request. *)
Lemma interview_never_stops_while_the_backend_replies_with_text_witness :
  exists s env,
    new_engine ascii_builtins (agents_of ascii_builtins replying_backend "m" "m" "m")
      (sample_config 1) tt
    = (Ok tt, s, env).
Proof.
  exact (proj1 (interview_never_stops_while_the_backend_replies_with_text ascii_builtins
                  replying_backend "m" "m" "m" replying_backend_replies)
           (sample_config 1) tt).
Defined.

(** X19, witness: the session on the scripted backend, whose warm-up
    question is the fallback question. *)
Lemma real_generator_questions_are_never_empty_witness :
  Forall (fun q => q <> "") (asked_questions_text (session_engine toy_json_start)).
Proof.
  apply (real_generator_questions_are_never_empty ascii_builtins toy_backend "m" "m" "m"
           (session_engine toy_json_start) (session_env toy_json_start)).
  apply toy_start_reachable. vm_compute. reflexivity.
Defined.

(** X20, witness: the logger of a session that has just been
    constructed exports the same document as the empty logger with the
    participant's name. *)
Lemma exported_log_determines_the_logger_witness :
  logger (session_engine silent_start)
  = {| lg_participant_name := "Candidate"; turns := []; final_feedback := None |}.
Proof.
  apply exported_log_determines_the_logger. vm_compute. reflexivity.
Defined.

(** X25, witness: a null reply to the request of the hiring manager,
    after a session of two turns. *)
Lemma agents_on_a_reply_that_is_not_text_witness :
  HiringManagerAgent_build_feedback ascii_builtins scripted_backend "m"
    (feedback_args (session_engine two_turns)) [PyNone]
  = (Raise AttributeError, [])
  /\ InterviewerAgent_render_message ascii_builtins scripted_backend "m"
       (render_args "m1" toy_evaluation (fallback_question false) (session_engine two_turns))
       [PyNone]
     = (Raise AttributeError, []).
Proof.
  assert (Hnot : forall raw, PyNone <> PyStr raw) by (intros raw; discriminate).
  destruct (agents_on_a_reply_that_is_not_text ascii_builtins scripted_backend PyNone Hnot)
    as (_ & _ & Hrender & Hfeedback & _).
  split; [apply Hfeedback | apply Hrender]; reflexivity.
Defined.

(** A reply to the evaluation request that is the empty list: the
    fallback evaluation quotes it. *)
Example list_reply_is_quoted :
  ObserverAgent_analyze ascii_builtins scripted_backend "m"
    (step_analyze_args (after_user "m1" (session_engine null_reply_start)) "m1")
    [PyList []]
  = (Ok (fallback_observer_output_quoting
           (step_analyze_args (after_user "m1" (session_engine null_reply_start)) "m1")
           "[]"), []).
Proof. vm_compute. reflexivity. Qed.

(** A null reply to the evaluation request of the first turn: [analyze]
    raises [TypeError] from its handler, and the call of [step] raises
    it with the turn counted and nothing logged. *)
Example null_reply_stops_the_turn :
  session_result null_reply_start = Ok tt
  /\ session_result null_reply_step = Raise TypeError
  /\ turn_id (session_engine null_reply_step) = 1
  /\ turns (logger (session_engine null_reply_step)) = [].
Proof. repeat split; vm_compute; reflexivity. Qed.

(** C10, counterexample.  The first call of [step] raises: it has
    appended the user's message and no reply, and logged no record.  The
    second call returns and logs its record with [turn_id] 2, though no
    record was logged before it; after these two calls the log holds one
    record. *)
Lemma raising_call_is_counted_and_logs_nothing :
  session_result after_outage = Raise RequestException
  /\ history (session_engine after_outage)
     = history (session_engine flaky_start) ++ [{| role := "user"; content := "offline" |}]
  /\ turns (logger (session_engine after_outage)) = []
  /\ session_result after_recovery = Ok "Ok. q1"
  /\ map tl_turn_id (turns (logger (session_engine after_recovery))) = [2]
  /\ len (turns (logger (session_engine after_outage))) + 1 <> 2.
Proof.
  repeat (split; [vm_compute; reflexivity |]).
  vm_compute. discriminate.
Qed.

(** C10, witness: the state that the call that raised has left. *)
Lemma step_appends_one_turn_witness :
  reachable ascii_builtins flaky (session_engine after_outage) (session_env after_outage)
  /\ turn_id (session_engine after_recovery) = 2
  /\ history (session_engine after_recovery)
     = history (session_engine after_outage)
       ++ [{| role := "user"; content := "m2" |};
           {| role := "assistant"; content := "Ok. q1" |}]
  /\ exists t,
       turns (logger (session_engine after_recovery))
       = turns (logger (session_engine after_outage)) ++ [t]
       /\ tl_turn_id t = 2.
Proof.
  split; [exact after_outage_reachable |].
  destruct (step_appends_one_turn ascii_builtins flaky
              (session_engine after_outage) (session_env after_outage)
              after_outage_reachable)
    as (_ & Hstep & _).
  destruct (Hstep "m2" (Ok "Ok. q1") (session_engine after_recovery)
              (session_env after_recovery))
    as (Hid & Hret & _).
  { vm_compute. reflexivity. }
  destruct (Hret "Ok. q1" eq_refl) as (Hh & t & Ht & Htid & _).
  split; [etransitivity; [exact Hid | vm_compute; reflexivity] |].
  split; [exact Hh |].
  exists t. split; [exact Ht |].
  etransitivity; [exact Htid | vm_compute; reflexivity].
Defined.
